(** * mastra-data-analyst: the in-memory query engine and the chart aggregator

    A shallow embedding of [src/mastra/tools/sqlQueryTool.ts],
    [src/mastra/tools/visualizationTool.ts] and
    [src/mastra/tools/dataProcessingTool.ts], and the properties of the
    specification that concern them.

    Layout of the development:
    - [Number]: the JavaScript number type (IEEE 754 binary64, rounding to
      nearest even, NaN and the infinities) and the arithmetic and [Math]
      functions that the two tools call;
    - [Str]: the string primitives ([toUpperCase], [trim], [includes],
      [split], the two regular expressions of the query parser, ...);
    - [Js]: row values, objects as ordered property lists, [Map] with its
      insertion order, [parseFloat], [toString], truthiness, and what a
      tool can observe of the engine (the number of arguments that a call
      takes, the messages of its errors);
    - [SQLQueryTool] and [VisualizationTool]: the two classes, method by
      method, under the names of the source;
    - [Props]: the notions in which the properties are stated (distinct keys
      in first-seen order, the rows of a group, the fields of a result row);
    - [Spec]: the wording of the specification where the code departs from it
      (numeric strings, stringified group labels, the FILTER literal);
    - [DataProcessingTool]: the reading of a CSV content and the cleaning
      of a table; [Shapes]: further notions for the properties of the code;
    - the lemmas, then the properties C1 to C10 of the specification, each
      in the section of the method it is about;
    - further properties, numbered from X1, read off the code: the query
      executor as a whole, the two extractions, extremes and groups, the
      series of the charts, advice and configuration, reading and cleaning
      a file, the dispatch of a query, line ends and the cells of a CSV
      table. *)

From Stdlib Require Import ZArith List Bool Ascii String Lia.
From Stdlib Require Import Sorting.Sorted Sorting.Permutation.
Import ListNotations.

Set Implicit Arguments.
Unset Strict Implicit.

(* ================================================================== *)
(** ** The number type                                                  *)
(* ================================================================== *)

Module Number.

Local Open Scope Z_scope.

(** Every finite binary64 value is an integer multiple of [2^-1074], the
    smallest subnormal.  A finite number is stored as that integer:
    [Fin k] stands for [k * 2^-1074].  The two zeros are identified (no
    operation of the tools divides by a negative zero or prints the sign of
    a zero), and there is one NaN. *)
Inductive number : Type :=
| NaN
| PInf
| NInf
| Fin (k : Z).

(** [1.0] counted in units of [2^-1074]. *)
Definition one_ulps : Z := 2 ^ 1074.

(** First magnitude (in units) that no longer fits: [2^1024]. *)
Definition overflow_ulps : Z := 2 ^ 2098.

(** Nearest integer to [a / b] for [b > 0], ties to the even one. *)
Definition rne (a b : Z) : Z :=
  let (f, r) := Z.div_eucl a b in
  match 2 * r ?= b with
  | Lt => f
  | Gt => f + 1
  | Eq => if Z.even f then f else f + 1
  end.

(** Round the exact rational [a / b] (counted in units, [b > 0]) to binary64,
    round-to-nearest-even: below [2^53] units the spacing of the format is one
    unit (subnormals and the first binades), above it 53 significant bits are
    kept; a result of magnitude [2^1024] or more overflows to an infinity. *)
Definition round64 (a b : Z) : number :=
  let mag := Z.abs a / b in
  let d := Z.max 0 (Z.log2 mag - 52) in
  let k := rne a (b * 2 ^ d) * 2 ^ d in
  if overflow_ulps <=? Z.abs k then (if k <? 0 then NInf else PInf)
  else Fin k.

Definition of_Z (z : Z) : number := round64 (z * one_ulps) 1.
Definition of_nat (n : nat) : number := of_Z (Z.of_nat n).

(** [p / q] for integer literals such as [0.5 = 1/2]. *)
Definition of_ratio (p q : Z) : number := round64 (p * one_ulps) q.

Definition isNaN (x : number) : bool :=
  match x with NaN => true | _ => false end.

Definition isFinite (x : number) : bool :=
  match x with Fin _ => true | _ => false end.

Definition neg (x : number) : number :=
  match x with
  | NaN => NaN
  | PInf => NInf
  | NInf => PInf
  | Fin k => Fin (- k)
  end.

Definition add (x y : number) : number :=
  match x, y with
  | NaN, _ | _, NaN => NaN
  | PInf, NInf | NInf, PInf => NaN
  | PInf, _ | _, PInf => PInf
  | NInf, _ | _, NInf => NInf
  | Fin a, Fin b => round64 (a + b) 1
  end.

Definition sub (x y : number) : number := add x (neg y).

Definition mul (x y : number) : number :=
  match x, y with
  | NaN, _ | _, NaN => NaN
  | Fin a, Fin b => round64 (a * b) one_ulps
  | Fin a, PInf | PInf, Fin a =>
      if a =? 0 then NaN else if a <? 0 then NInf else PInf
  | Fin a, NInf | NInf, Fin a =>
      if a =? 0 then NaN else if a <? 0 then PInf else NInf
  | PInf, PInf | NInf, NInf => PInf
  | PInf, NInf | NInf, PInf => NInf
  end.

Definition div (x y : number) : number :=
  match x, y with
  | NaN, _ | _, NaN => NaN
  | Fin a, Fin b =>
      if b =? 0 then
        (if a =? 0 then NaN else if a <? 0 then NInf else PInf)
      else round64 (Z.sgn b * a * one_ulps) (Z.abs b)
  | Fin _, (PInf | NInf) => Fin 0
  | PInf, Fin b => if b <? 0 then NInf else PInf
  | NInf, Fin b => if b <? 0 then PInf else NInf
  | (PInf | NInf), (PInf | NInf) => NaN
  end.

(** The relational operators [<] and [<=]: false as soon as one side is NaN. *)
Definition ltb (x y : number) : bool :=
  match x, y with
  | NaN, _ | _, NaN => false
  | _, NInf => false
  | NInf, _ => true
  | PInf, _ => false
  | _, PInf => true
  | Fin a, Fin b => a <? b
  end.

Definition leb (x y : number) : bool :=
  match x, y with
  | NaN, _ | _, NaN => false
  | NInf, _ => true
  | _, NInf => false
  | _, PInf => true
  | PInf, _ => false
  | Fin a, Fin b => a <=? b
  end.

Definition gtb (x y : number) : bool := ltb y x.

(** Strict equality [===] on numbers: NaN differs from itself. *)
Definition eqb (x y : number) : bool :=
  match x, y with
  | PInf, PInf | NInf, NInf => true
  | Fin a, Fin b => a =? b
  | _, _ => false
  end.

(** SameValueZero, the key comparison of [Map] and [Array.includes]:
    like [===] except that NaN equals NaN. *)
Definition sameValueZero (x y : number) : bool :=
  match x, y with
  | NaN, NaN => true
  | _, _ => eqb x y
  end.

(** [Math.min] and [Math.max] of two arguments: NaN is contagious. *)
Definition min2 (x y : number) : number :=
  match x, y with
  | NaN, _ | _, NaN => NaN
  | _, _ => if ltb y x then y else x
  end.

Definition max2 (x y : number) : number :=
  match x, y with
  | NaN, _ | _, NaN => NaN
  | _, _ => if ltb x y then y else x
  end.

(** [Math.min(...values)] and [Math.max(...values)]: the fold starts from
    [+Infinity], respectively [-Infinity], the result on no argument. *)
Definition Math_min (values : list number) : number :=
  fold_left min2 values PInf.

Definition Math_max (values : list number) : number :=
  fold_left max2 values NInf.

Definition Math_floor (x : number) : number :=
  match x with
  | Fin k => Fin (k / one_ulps * one_ulps)
  | _ => x
  end.

Definition Math_ceil (x : number) : number :=
  match x with
  | Fin k => Fin (- ((- k) / one_ulps) * one_ulps)
  | _ => x
  end.

Definition Math_abs (x : number) : number :=
  match x with
  | NaN => NaN
  | PInf | NInf => PInf
  | Fin k => Fin (Z.abs k)
  end.

(** [Math.sqrt], correctly rounded.  For [Fin k] with [k > 0] the root counted
    in units is [sqrt (k * 2^1074)], at least [2^537], so 53 bits are kept and
    [d > 0]; the candidate [f] is bumped when the exact root lies above the
    midpoint [(2f + 1) * 2^(d-1)] (a tie goes to the even candidate). *)
Definition Math_sqrt (x : number) : number :=
  match x with
  | NaN | NInf => NaN
  | PInf => PInf
  | Fin k =>
      if k <? 0 then NaN
      else if k =? 0 then Fin 0
      else
        let S := k * one_ulps in
        let s := Z.sqrt S in
        let d := Z.log2 s - 52 in
        let f := s / 2 ^ d in
        let mid := (2 * f + 1) * 2 ^ (d - 1) in
        let n := match S ?= mid * mid with
                 | Lt => f
                 | Gt => f + 1
                 | Eq => if Z.even f then f else f + 1
                 end in
        Fin (n * 2 ^ d)
  end.

(** Is the number a non-negative integer (an array index)?  *)
Definition to_index (x : number) : option nat :=
  match x with
  | Fin k =>
      if (0 <=? k) && (k mod one_ulps =? 0) then Some (Z.to_nat (k / one_ulps))
      else None
  | _ => None
  end.

(** The arithmetic is evaluated by [vm_compute] only. *)
Global Arguments round64 : simpl never.
Global Arguments one_ulps : simpl never.
Global Arguments overflow_ulps : simpl never.
Global Arguments Math_sqrt : simpl never.

End Number.

(* ================================================================== *)
(** ** Strings                                                          *)
(* ================================================================== *)

(** Strings are sequences of code units; the development covers the ASCII
    range, on which [toUpperCase], [trim] and the character classes [\s],
    [\w] and [.] of the regular expressions are as written here. *)
Module Str.

Local Open Scope string_scope.
Local Open Scope N_scope.

Definition code (c : ascii) : N := N_of_ascii c.

Definition is_lower (c : ascii) : bool := (97 <=? code c) && (code c <=? 122).
Definition is_upper (c : ascii) : bool := (65 <=? code c) && (code c <=? 90).
Definition is_digit (c : ascii) : bool := (48 <=? code c) && (code c <=? 57).

(** [\s], also the characters removed by [trim]: TAB, LF, VT, FF, CR, SP. *)
Definition is_space (c : ascii) : bool :=
  ((9 <=? code c) && (code c <=? 13)) || (code c =? 32).

(** [\w] is [[A-Za-z0-9_]]. *)
Definition is_word (c : ascii) : bool :=
  is_lower c || is_upper c || is_digit c || (code c =? 95).

(** [.] without the [s] flag matches everything but a line terminator. *)
Definition is_line_terminator (c : ascii) : bool :=
  (code c =? 10) || (code c =? 13).

Definition upper_char (c : ascii) : ascii :=
  if is_lower c then ascii_of_N (code c - 32) else c.

Fixpoint toUpperCase (s : string) : string :=
  match s with
  | EmptyString => EmptyString
  | String c s' => String (upper_char c) (toUpperCase s')
  end.

Fixpoint trimStart (s : string) : string :=
  match s with
  | String c s' => if is_space c then trimStart s' else s
  | EmptyString => EmptyString
  end.

(** [trimEnd] keeps a character when it is not a space or when something
    remains after it. *)
Fixpoint trimEnd (s : string) : string :=
  match s with
  | EmptyString => EmptyString
  | String c s' =>
      match trimEnd s' with
      | EmptyString => if is_space c then EmptyString else String c EmptyString
      | t => String c t
      end
  end.

Definition trim (s : string) : string := trimEnd (trimStart s).

(** [s.startsWith(p)], returning what follows the prefix. *)
Fixpoint strip_prefix (p s : string) : option string :=
  match p, s with
  | EmptyString, _ => Some s
  | String a p', String b s' =>
      if Ascii.eqb a b then strip_prefix p' s' else None
  | String _ _, EmptyString => None
  end.

(** [s.includes(p)]. *)
Fixpoint includes (p s : string) : bool :=
  match strip_prefix p s with
  | Some _ => true
  | None =>
      match s with
      | EmptyString => false
      | String _ s' => includes p s'
      end
  end.

(** [s.split(sep)] for a one-character separator: never an empty list. *)
Fixpoint split (sep : ascii) (s : string) : list string :=
  match s with
  | EmptyString => [EmptyString]
  | String c s' =>
      if Ascii.eqb c sep then EmptyString :: split sep s'
      else match split sep s' with
           | p :: ps => String c p :: ps
           | [] => [String c EmptyString]
           end
  end.

(** [s.replace(/[...]/g, '')] for a character class: the characters of the
    class are deleted wherever they stand. *)
Fixpoint remove_chars (cls : ascii -> bool) (s : string) : string :=
  match s with
  | EmptyString => EmptyString
  | String c s' =>
      if cls c then remove_chars cls s' else String c (remove_chars cls s')
  end.

Definition is_quote (c : ascii) : bool := (code c =? 39) || (code c =? 34).

Definition isEmpty (s : string) : bool :=
  match s with EmptyString => true | _ => false end.

(** *** The pieces of the two regular expressions *)

(** A literal under the [i] flag, returning what follows the match. *)
Fixpoint lit_ci (p s : string) : option string :=
  match p, s with
  | EmptyString, _ => Some s
  | String a p', String b s' =>
      if Ascii.eqb (upper_char a) (upper_char b) then lit_ci p' s' else None
  | String _ _, EmptyString => None
  end.

(** [\s+] taken greedily, returning what follows.  Where the next piece of
    the pattern starts with a character that is not a space, giving spaces
    back cannot help, so the greedy choice is the only one. *)
Definition spaces1 (s : string) : option string :=
  match s with
  | String c s' => if is_space c then Some (trimStart s') else None
  | EmptyString => None
  end.

(** [(\w+)] taken greedily at the end of a pattern: the captured word. *)
Fixpoint word (s : string) : string :=
  match s with
  | String c s' => if is_word c then String c (word s') else EmptyString
  | EmptyString => EmptyString
  end.

Definition bind {A B} (o : option A) (f : A -> option B) : option B :=
  match o with Some a => f a | None => None end.

(** [GROUP\s+BY\s+(\w+)] anchored at the start of [s]. *)
Definition group_by_at (s : string) : option string :=
  bind (lit_ci "GROUP" s) (fun s1 =>
  bind (spaces1 s1) (fun s2 =>
  bind (lit_ci "BY" s2) (fun s3 =>
  bind (spaces1 s3) (fun s4 =>
  match word s4 with
  | EmptyString => None
  | w => Some w
  end)))).

(** The leftmost match of a pattern that is anchored by [at_start]. *)
Fixpoint leftmost {A} (at_start : string -> option A) (s : string) : option A :=
  match at_start s with
  | Some a => Some a
  | None =>
      match s with
      | EmptyString => None
      | String _ s' => leftmost at_start s'
      end
  end.

(** [(?:\s+GROUP\s+BY|\s+ORDER\s+BY|$)] anchored at the start of [s]. *)
Definition where_tail (s : string) : bool :=
  match bind (spaces1 s) (fun s1 =>
        bind (lit_ci "GROUP" s1) (fun s2 =>
        bind (spaces1 s2) (fun s3 => lit_ci "BY" s3))) with
  | Some _ => true
  | None =>
      match bind (spaces1 s) (fun s1 =>
            bind (lit_ci "ORDER" s1) (fun s2 =>
            bind (spaces1 s2) (fun s3 => lit_ci "BY" s3))) with
      | Some _ => true
      | None => isEmpty s
      end
  end.

(** [(.+?)] followed by the tail: the shortest non-empty run of characters
    other than line terminators after which the tail matches. *)
Fixpoint lazy_capture (s : string) : option string :=
  match s with
  | EmptyString => None
  | String c s' =>
      if is_line_terminator c then None
      else if where_tail s' then Some (String c EmptyString)
      else match lazy_capture s' with
           | Some w => Some (String c w)
           | None => None
           end
  end.

(** [\s+(.+?)tail]: the run of spaces is taken as long as possible first and
    given back one space at a time while the rest fails.  [s] starts with the
    run; the recursion goes to its end and retries on the way back. *)
Fixpoint spaces_then_capture (s : string) : option string :=
  match s with
  | String c s' =>
      if is_space c then
        match spaces_then_capture s' with
        | Some w => Some w
        | None => lazy_capture s'
        end
      else None
  | EmptyString => None
  end.

(** [WHERE\s+(.+?)(?:\s+GROUP\s+BY|\s+ORDER\s+BY|$)] anchored at the start. *)
Definition where_at (s : string) : option string :=
  bind (lit_ci "WHERE" s) spaces_then_capture.

End Str.

(* ================================================================== *)
(** ** Values, objects, maps and the conversions                        *)
(* ================================================================== *)

Module Js.

Import Number.
Local Open Scope string_scope.
Local Open Scope list_scope.

(** What a cell of a table can hold ([z.record(z.any())], restricted to the
    scalars of the specification); [VUndefined] is also what reading a missing
    property gives. *)
Inductive value : Type :=
| VUndefined
| VNull
| VBool (b : bool)
| VNum (n : number)
| VStr (s : string).

(** An object is the list of its own properties in the order of
    [Object.keys].  Properties inherited from [Object.prototype] are not
    modelled: reading a key that the object does not own gives [undefined]. *)
Definition object : Type := list (string * value).

Definition Object_keys (o : object) : list string := map fst o.

(** [o[key]] *)
Fixpoint get (o : object) (key : string) : value :=
  match o with
  | [] => VUndefined
  | (k, v) :: o' => if String.eqb k key then v else get o' key
  end.

(** [o[key] = v]: an existing property keeps its place, a new one goes last
    (the keys written by the tools are never array indices). *)
Fixpoint set (o : object) (key : string) (v : value) : object :=
  match o with
  | [] => [(key, v)]
  | (k, w) :: o' =>
      if String.eqb k key then (k, v) :: o' else (k, w) :: set o' key v
  end.

(** [columns.includes(c)] on an array of strings. *)
Definition Array_includes (l : list string) (c : string) : bool :=
  existsb (String.eqb c) l.

(** ToBoolean. *)
Definition truthy (v : value) : bool :=
  match v with
  | VUndefined | VNull => false
  | VBool b => b
  | VNum NaN => false
  | VNum (Fin k) => negb (Z.eqb k 0)
  | VNum _ => true
  | VStr s => negb (Str.isEmpty s)
  end.

(** [a || b] *)
Definition or_else (a b : value) : value := if truthy a then a else b.

(** [typeof val === 'number' && !isNaN(val)] *)
Definition is_valid_number (v : value) : bool :=
  match v with
  | VNum n => negb (isNaN n)
  | _ => false
  end.

(** SameValueZero on values, the equality of [Map] keys. *)
Definition sameValueZero (a b : value) : bool :=
  match a, b with
  | VUndefined, VUndefined => true
  | VNull, VNull => true
  | VBool x, VBool y => Bool.eqb x y
  | VNum x, VNum y => Number.sameValueZero x y
  | VStr x, VStr y => String.eqb x y
  | _, _ => false
  end.

(** *** Map: entries in insertion order *)

Section MapOps.
Variables K V : Type.
Variable key_eqb : K -> K -> bool.

Definition jsmap : Type := list (K * V).

Fixpoint Map_has (m : jsmap) (k : K) : bool :=
  match m with
  | [] => false
  | (k', _) :: m' => key_eqb k' k || Map_has m' k
  end.

Fixpoint Map_get (m : jsmap) (k : K) : option V :=
  match m with
  | [] => None
  | (k', v) :: m' => if key_eqb k' k then Some v else Map_get m' k
  end.

(** [m.set(k, v)]: a present key keeps its position. *)
Fixpoint Map_set (m : jsmap) (k : K) (v : V) : jsmap :=
  match m with
  | [] => [(k, v)]
  | (k', w) :: m' =>
      if key_eqb k' k then (k', v) :: m' else (k', w) :: Map_set m' k v
  end.

(** [m.get(k).push(x)] on a map of arrays: the array stored under [k] is
    extended in place. *)
Fixpoint Map_push (X : Type) (m : list (K * list X)) (k : K) (x : X)
  : list (K * list X) :=
  match m with
  | [] => []
  | (k', xs) :: m' =>
      if key_eqb k' k then (k', xs ++ [x]) :: m'
      else (k', xs) :: Map_push m' k x
  end.
End MapOps.

(** *** Decimal digits *)

Local Open Scope Z_scope.

Definition digit_char (d : Z) : ascii := ascii_of_N (Z.to_N (48 + d)).

(** Decimal digits of [z >= 0], least significant last; [fuel] bounds the
    number of digits. *)
Fixpoint digits_fuel (fuel : nat) (z : Z) (acc : string) : string :=
  match fuel with
  | O => acc
  | S f =>
      let acc' := String (digit_char (z mod 10)) acc in
      if z <? 10 then acc' else digits_fuel f (z / 10) acc'
  end.

Definition Z_digits (z : Z) : string :=
  digits_fuel (S (Z.to_nat (Z.log2 z))) z EmptyString.

(** An integer in a template literal or in an exponent. *)
Definition Z_to_string (z : Z) : string :=
  if z <? 0 then String "-" (Z_digits (- z)) else Z_digits z.

Definition digit_val (c : ascii) : Z := Z.of_N (Str.code c) - 48.

(** The longest run of digits at the start of [s]: its value when read after
    [acc], how many there are, and the rest. *)
Fixpoint read_digits (s : string) (acc : Z) (n : nat) : Z * nat * string :=
  match s with
  | String c s' =>
      if Str.is_digit c then read_digits s' (10 * acc + digit_val c) (S n)
      else (acc, n, s)
  | EmptyString => (acc, n, s)
  end.

(** *** parseFloat *)

(** The binary64 value of [m * 10^e]. *)
Definition decimal_to_number (m e : Z) : number :=
  if 0 <=? e then round64 (m * 10 ^ e * one_ulps) 1
  else round64 (m * one_ulps) (10 ^ (- e)).

(** An exponent part [e], [e+] or [e-] followed by at least one digit; when it
    is not well formed it is not part of the literal. *)
Definition read_exponent (s : string) : Z :=
  match s with
  | String c s' =>
      if Ascii.eqb c "e" || Ascii.eqb c "E" then
        match s' with
        | String "+" s'' =>
            let '(v, n, _) := read_digits s'' 0 O in
            match n with O => 0 | _ => v end
        | String "-" s'' =>
            let '(v, n, _) := read_digits s'' 0 O in
            match n with O => 0 | _ => - v end
        | _ =>
            let '(v, n, _) := read_digits s' 0 O in
            match n with O => 0 | _ => v end
        end
      else 0
  | EmptyString => 0
  end.

(** An unsigned [StrDecimalLiteral] at the start of [s]: [Infinity], or
    digits with an optional fraction and exponent, at least one digit before
    or after the point.  Whatever follows the literal is ignored. *)
Definition parse_unsigned (s : string) : number :=
  match Str.strip_prefix "Infinity" s with
  | Some _ => PInf
  | None =>
      let '(ip, ni, s1) := read_digits s 0 O in
      match s1 with
      | String "." s2 =>
          let '(m, nf, s3) := read_digits s2 ip O in
          match ni, nf with
          | O, O => NaN
          | _, _ => decimal_to_number m (read_exponent s3 - Z.of_nat nf)
          end
      | _ =>
          match ni with
          | O => NaN
          | _ => decimal_to_number ip (read_exponent s1)
          end
      end
  end.

(** [parseFloat] of a string: leading white space is skipped, then an
    optional sign and the longest literal; NaN when there is none. *)
Definition parseFloat_string (s : string) : number :=
  match Str.trimStart s with
  | String "-" s' => neg (parse_unsigned s')
  | String "+" s' => parse_unsigned s'
  | s' => parse_unsigned s'
  end.

(** *** Number.prototype.toString (radix 10) *)

(** The [n] of the standard for [x = k * 2^-1074 > 0]:
    [10^(n-1) <= x < 10^n].  For [x >= 1] it is the number of digits of the
    integer part; below, the search multiplies by ten until 1 is reached. *)
Fixpoint lead_zeros (fuel : nat) (k : Z) (j : Z) : Z :=
  match fuel with
  | O => j
  | S f => if one_ulps <=? k * 10 then j else lead_zeros f (k * 10) (j + 1)
  end.

Definition decimal_exponent (k : Z) : Z :=
  if one_ulps <=? k then Z.of_nat (String.length (Z_digits (k / one_ulps)))
  else - lead_zeros 400 k 0.

(** [floor (x * 10^e)]. *)
Definition scaled_floor (k e : Z) : Z :=
  if 0 <=? e then k * 10 ^ e / one_ulps else k / (one_ulps * 10 ^ (- e)).

(** Is [x * 10^e] nearer to [lo] than to [lo + 1] (a tie goes to the even)? *)
Definition nearer_lo (k e lo : Z) : bool :=
  let num := if 0 <=? e then k * 10 ^ e else k in
  let den := if 0 <=? e then one_ulps else one_ulps * 10 ^ (- e) in
  match 2 * num ?= (2 * lo + 1) * den with
  | Lt => true
  | Gt => false
  | Eq => Z.even lo
  end.

Definition reads_back (s e k : Z) : bool :=
  match decimal_to_number s e with
  | Fin k' => k' =? k
  | _ => false
  end.

(** The shortest digit string [s] (with [kd] digits, tried from [kd] upward)
    such that [s * 10^(n - kd)] reads back as [x]; of two that do, the one
    nearer to [x]. *)
Fixpoint shortest_digits (fuel : nat) (kd k n : Z) : Z * Z :=
  match fuel with
  | O => (scaled_floor k (kd - n), kd)
  | S f =>
      let e := kd - n in
      let lo := scaled_floor k e in
      let ok_lo := reads_back lo (- e) k in
      let ok_hi := reads_back (lo + 1) (- e) k in
      if ok_lo && ok_hi then (if nearer_lo k e lo then lo else lo + 1, kd)
      else if ok_lo then (lo, kd)
      else if ok_hi then (lo + 1, kd)
      else shortest_digits f (kd + 1) k n
  end.

Fixpoint strip_zeros_rev (s : list ascii) : list ascii :=
  match s with
  | "0"%char :: s' => strip_zeros_rev s'
  | _ => s
  end.

Definition strip_trailing_zeros (s : string) : string :=
  string_of_list_ascii
    (rev (strip_zeros_rev (rev (list_ascii_of_string s)))).

Fixpoint zeros (n : nat) : string :=
  match n with O => EmptyString | S m => String "0" (zeros m) end.

(** The notation chosen by the standard from the digits and the position [n]
    of the decimal point. *)
Definition format_decimal (ds : string) (n : Z) : string :=
  let kd := Z.of_nat (String.length ds) in
  if (-5 <=? n) && (n <=? 21) then
    if kd <=? n then (ds ++ zeros (Z.to_nat (n - kd)))%string
    else if 0 <? n then
      (substring 0 (Z.to_nat n) ds ++ "." ++
       substring (Z.to_nat n) (Z.to_nat (kd - n)) ds)%string
    else ("0." ++ zeros (Z.to_nat (- n)) ++ ds)%string
  else
    let e := n - 1 in
    let sign := if e <? 0 then "-" else "+" in
    let es := (sign ++ Z_digits (Z.abs e))%string in
    match ds with
    | String d EmptyString => String d ("e" ++ es)%string
    | String d rest => String d ("." ++ rest ++ "e" ++ es)%string
    | EmptyString => EmptyString
    end.

(** [s] has one digit more than asked for when it was rounded up to a power
    of ten; the decimal point then moves by one place. *)
Definition positive_to_string (k : Z) : string :=
  let n := decimal_exponent k in
  let '(s, kd) := shortest_digits 20 1 k n in
  let all := Z_digits s in
  format_decimal (strip_trailing_zeros all)
                 (n + (Z.of_nat (String.length all) - kd)).

Definition Number_toString (x : number) : string :=
  match x with
  | NaN => "NaN"
  | PInf => "Infinity"
  | NInf => "-Infinity"
  | Fin k =>
      if k =? 0 then "0"
      else if k <? 0 then String "-" (positive_to_string (- k))
      else positive_to_string k
  end.

(** [v?.toString()]: [None] stands for the [undefined] that the optional
    chain gives on [null] and [undefined]. *)
Definition toString_opt (v : value) : option string :=
  match v with
  | VUndefined | VNull => None
  | VBool true => Some "true"
  | VBool false => Some "false"
  | VNum n => Some (Number_toString n)
  | VStr s => Some s
  end.

(** [parseFloat(v)]: the argument is first converted to a string.  A number
    reads back as itself, and none of ["true"], ["false"], ["null"] and
    ["undefined"] starts with a literal. *)
Definition parseFloat (v : value) : number :=
  match v with
  | VNum n => n
  | VStr s => parseFloat_string s
  | _ => NaN
  end.

(** *** The engine *)

(** What the language leaves to the engine and a tool can observe: how many
    arguments a call accepts, a call with more throwing a RangeError, and
    the messages of the errors that the engine itself throws. *)
Record engine : Type := mkEngine {
  max_arguments : nat;
  range_error_message : string;
  type_error_message : string
}.

(** Does [f(...values)] throw?  The spread passes every element as an
    argument of the call. *)
Definition spread_throws (A : Type) (e : engine) (values : list A) : bool :=
  (max_arguments e <? List.length values)%nat.

End Js.

(* ================================================================== *)
(** ** sqlQueryTool.ts                                                  *)
(* ================================================================== *)

Module SQLQueryTool.

Import Number Js.
Local Open Scope string_scope.
Local Open Scope list_scope.

Definition row : Type := object.

Inductive QueryType : Type := SELECT | AGGREGATE | GROUP_BY | FILTER.

(** What the private [execute...Query] methods return. *)
Record query_result : Type := mkResult {
  data : list row;
  queryType : QueryType
}.

(** The numbers of a column: [data.map(row => row[col]).filter(val =>
    typeof val === 'number' && !isNaN(val))].  After the filter every element
    is a number, which is what the list keeps. *)
Definition numbers_of (vs : list value) : list number :=
  flat_map (fun v => match v with VNum n => [n] | _ => [] end)
           (filter is_valid_number vs).

Definition column_values (data : list row) (col : string) : list value :=
  map (fun r => get r col) data.

(** [values.reduce((sum, val) => sum + val, 0)] *)
Definition sum_values (values : list number) : number :=
  fold_left add values (of_Z 0).

Definition getNumericColumns (data : list row) : list string :=
  match data with
  | [] => []
  | first :: _ =>
      filter (fun col =>
                let sampleValues := column_values (firstn 10 data) col in
                existsb is_valid_number sampleValues)
             (Object_keys first)
  end.

Definition getCategoricalColumns (data : list row) : list string :=
  match data with
  | [] => []
  | first :: _ =>
      let numericColumns := getNumericColumns data in
      filter (fun col => negb (Array_includes numericColumns col))
             (Object_keys first)
  end.

Definition executeSelectQuery (query : string) (data : list row)
  (columns : list string) : query_result :=
  mkResult data SELECT.

(** The body of the [forEach] of [executeAggregateQuery], on the object
    [result] that it fills. *)
Definition aggregate_column (data : list row) (result : object) (col : string)
  : object :=
  let values := numbers_of (column_values data col) in
  if (0 <? List.length values)%nat then
    let result := set result ("count_" ++ col) (VNum (of_nat (List.length values))) in
    let result := set result ("sum_" ++ col) (VNum (sum_values values)) in
    let result := set result ("avg_" ++ col)
                      (VNum (div (sum_values values) (of_nat (List.length values)))) in
    let result := set result ("min_" ++ col) (VNum (Math_min values)) in
    set result ("max_" ++ col) (VNum (Math_max values))
  else result.

Definition executeAggregateQuery (query : string) (data : list row)
  (columns : list string) : query_result :=
  let numericColumns := getNumericColumns data in
  let result := fold_left (aggregate_column data) numericColumns [] in
  mkResult [result] AGGREGATE.

(** [query.match(/GROUP\s+BY\s+(\w+)/i)], then [match[1]] or [null]. *)
Definition extractGroupByColumn (query : string) : option string :=
  Str.leftmost Str.group_by_at query.

(** [query.match(/WHERE\s+(.+?)(?:\s+GROUP\s+BY|\s+ORDER\s+BY|$)/i)], then
    [match[1].trim()] or [null]. *)
Definition extractFilterCondition (query : string) : option string :=
  option_map Str.trim (Str.leftmost Str.where_at query).

(** [row[groupByColumn] || 'Unknown'] *)
Definition groupValue_of (groupByColumn : string) (r : row) : value :=
  or_else (get r groupByColumn) (VStr "Unknown").

(** The body of [data.forEach] that fills the [Map] of groups. *)
Definition add_to_group (groupByColumn : string)
  (groups : jsmap value (list row)) (r : row) : jsmap value (list row) :=
  let groupValue := groupValue_of groupByColumn r in
  let groups :=
    if negb (Map_has sameValueZero groups groupValue)
    then Map_set sameValueZero groups groupValue []
    else groups in
  Map_push sameValueZero groups groupValue r.

Definition build_groups (groupByColumn : string) (data : list row)
  : jsmap value (list row) :=
  fold_left (add_to_group groupByColumn) data [].

(** The body of the inner [forEach] of [executeGroupByQuery]. *)
Definition group_column (groupData : list row) (r : object) (col : string)
  : object :=
  let values := numbers_of (column_values groupData col) in
  if (0 <? List.length values)%nat then
    let r := set r ("count_" ++ col) (VNum (of_nat (List.length values))) in
    let r := set r ("sum_" ++ col) (VNum (sum_values values)) in
    set r ("avg_" ++ col)
        (VNum (div (sum_values values) (of_nat (List.length values))))
  else r.

(** The function mapped over [groups.entries()]. *)
Definition group_row (groupByColumn : string) (entry : value * list row)
  : row :=
  let '(groupValue, groupData) := entry in
  let numericColumns := getNumericColumns groupData in
  fold_left (group_column groupData) numericColumns
            [(groupByColumn, groupValue)].

Definition executeGroupByQuery (query : string) (data : list row)
  (columns : list string) : query_result :=
  match extractGroupByColumn query with
  | None => mkResult data SELECT
  | Some groupByColumn =>
      if Str.isEmpty groupByColumn
         || negb (Array_includes columns groupByColumn)
      then mkResult data SELECT
      else
        let groups := build_groups groupByColumn data in
        mkResult (map (group_row groupByColumn) groups) GROUP_BY
  end.

(** The predicate given to [data.filter] in [executeFilterQuery]:
    [const [column, value] = filterCondition.split('=')] takes the first two
    pieces, and [column && value] asks both to be non-empty strings. *)
Definition filter_predicate (filterCondition : string) (r : row) : bool :=
  match Str.split "=" filterCondition with
  | column :: value :: _ =>
      if negb (Str.isEmpty column) && negb (Str.isEmpty value) then
        let cleanColumn := Str.trim column in
        let cleanValue := Str.remove_chars Str.is_quote (Str.trim value) in
        match toString_opt (get r cleanColumn) with
        | Some s => String.eqb s cleanValue
        | None => false
        end
      else true
  | _ => true
  end.

Definition executeFilterQuery (query : string) (data : list row)
  (columns : list string) : query_result :=
  match extractFilterCondition query with
  | None => mkResult data SELECT
  | Some filterCondition =>
      if Str.isEmpty filterCondition then mkResult data SELECT
      else mkResult (filter (filter_predicate filterCondition) data) FILTER
  end.

Definition executeQuery (query : string) (data : list row)
  (columns : list string) : query_result :=
  let upperQuery := Str.trim (Str.toUpperCase query) in
  if Str.includes "SELECT" upperQuery && Str.includes "FROM" upperQuery then
    executeSelectQuery query data columns
  else if Str.includes "COUNT" upperQuery || Str.includes "SUM" upperQuery
          || Str.includes "AVG" upperQuery then
    executeAggregateQuery query data columns
  else if Str.includes "GROUP BY" upperQuery then
    executeGroupByQuery query data columns
  else if Str.includes "WHERE" upperQuery then
    executeFilterQuery query data columns
  else mkResult data SELECT.

Record summary_t : Type := mkSummary {
  rowCount : nat;
  columnCount : nat;
  numericColumns : list string;
  categoricalColumns : list string
}.

(** The output schema; an optional field that is not set is [None]. *)
Record output : Type := mkOutput {
  success : bool;
  result : option (list row);
  error : option string;
  out_queryType : option QueryType;
  summary : option summary_t
}.

(** What [executeQuery] and the methods above give is the value returned
    when nothing throws.  On a table of objects one thing can throw: the
    spreads [Math.min(...values)] and [Math.max(...values)] in the loop of
    [executeAggregateQuery], on a column with more values than the engine
    takes as arguments. *)
Definition aggregate_throws (e : engine) (data : list row) : bool :=
  existsb (fun col =>
             let values := numbers_of (column_values data col) in
             (0 <? List.length values)%nat && spread_throws e values)
          (getNumericColumns data).

Definition executeQuery_throws (e : engine) (query : string) (data : list row)
  : bool :=
  let upperQuery := Str.trim (Str.toUpperCase query) in
  if Str.includes "SELECT" upperQuery && Str.includes "FROM" upperQuery then
    false
  else if Str.includes "COUNT" upperQuery || Str.includes "SUM" upperQuery
          || Str.includes "AVG" upperQuery then
    aggregate_throws e data
  else false.

(** The [try] block of [execute]: [inl message] is a throw, of the engine's
    RangeError, [inr] the output of a normal completion. *)
Definition execute_try (e : engine) (query : string) (data : list row)
  (columns : list string) : string + output :=
  if executeQuery_throws e query data then inl (range_error_message e)
  else
    let '(mkResult result_data result_type) := executeQuery query data columns in
    inr (mkOutput true
           (Some result_data)
           None
           (Some result_type)
           (Some (mkSummary
                    (List.length result_data)
                    (match result_data with
                     | first :: _ => List.length (Object_keys first)
                     | [] => O
                     end)
                    (getNumericColumns result_data)
                    (getCategoricalColumns result_data)))).

(** [execute]: the [catch] turns what was thrown into the failure object,
    which has [success] and [error] only. *)
Definition execute (e : engine) (query : string) (data : list row)
  (columns : list string) : output :=
  match execute_try e query data columns with
  | inr out => out
  | inl message => mkOutput false None (Some message) None None
  end.

End SQLQueryTool.

(* ================================================================== *)
(** ** visualizationTool.ts                                             *)
(* ================================================================== *)

Module VisualizationTool.

Import Number Js.
Local Open Scope string_scope.
Local Open Scope list_scope.

Definition row : Type := object.

(** The shapes of [chartData], one per chart kind. *)
Record categorical_point : Type := mkCategorical {
  cat_x : string;
  cat_y : number;
  cat_count : nat
}.

Record scatter_point : Type := mkScatter {
  scatter_x : number;
  scatter_y : number
}.

Record pie_slice : Type := mkPie {
  label : string;
  value : number
}.

Record histogram_bin : Type := mkBin {
  bin_x : number;
  bin_y : number
}.

(** [sorted[i]] is [undefined] past the end of the array: [None]. *)
Record box_entry : Type := mkBox {
  box_x : string;
  box_min : option number;
  box_q1 : option number;
  box_median : option number;
  box_q3 : option number;
  box_max : option number
}.

Inductive chart_data : Type :=
| Categorical (points : list categorical_point)
| Scatter (points : list scatter_point)
| Pie (slices : list pie_slice)
| Histogram (bins : list histogram_bin)
| Box (entries : list box_entry)
| Raw (data : list row).

(** [row[xAxis]?.toString() || 'Unknown'] *)
Definition x_label (r : row) (xAxis : string) : string :=
  match toString_opt (get r xAxis) with
  | Some s => if Str.isEmpty s then "Unknown" else s
  | None => "Unknown"
  end.

(** The body of the [forEach] shared by [processCategoricalData] and
    [processBoxData]: a row whose y parses joins the array of its x label. *)
Definition collect_y (xAxis yAxis : string)
  (grouped : jsmap string (list number)) (r : row)
  : jsmap string (list number) :=
  let xValue := x_label r xAxis in
  let yValue := parseFloat (get r yAxis) in
  if negb (isNaN yValue) then
    let grouped :=
      if negb (Map_has String.eqb grouped xValue)
      then Map_set String.eqb grouped xValue []
      else grouped in
    Map_push String.eqb grouped xValue yValue
  else grouped.

Definition group_y (data : list row) (xAxis yAxis : string)
  : jsmap string (list number) :=
  fold_left (collect_y xAxis yAxis) data [].

Definition sum_values (values : list number) : number :=
  fold_left add values (of_Z 0).

Definition processCategoricalData (data : list row) (xAxis yAxis : string)
  : list categorical_point :=
  map (fun '(xValue, yValues) =>
         mkCategorical xValue
           (div (sum_values yValues) (of_nat (List.length yValues)))
           (List.length yValues))
      (group_y data xAxis yAxis).

Definition processScatterData (data : list row) (xAxis yAxis : string)
  : list scatter_point :=
  filter (fun point =>
            negb (isNaN point.(scatter_x)) && negb (isNaN point.(scatter_y)))
         (map (fun r => mkScatter (parseFloat (get r xAxis))
                                  (parseFloat (get r yAxis)))
              data).

(** [parseFloat(row[yAxis]) || 0] and [grouped.get(xValue) || 0] on numbers:
    NaN and 0 are the falsy ones. *)
Definition number_or_zero (x : number) : number :=
  if truthy (VNum x) then x else of_Z 0.

Definition add_to_slice (xAxis yAxis : string)
  (grouped : jsmap string number) (r : row) : jsmap string number :=
  let xValue := x_label r xAxis in
  let yValue := number_or_zero (parseFloat (get r yAxis)) in
  let current :=
    match Map_get String.eqb grouped xValue with
    | Some v => number_or_zero v
    | None => of_Z 0
    end in
  Map_set String.eqb grouped xValue (add current yValue).

Definition processPieData (data : list row) (xAxis yAxis : string)
  : list pie_slice :=
  map (fun '(l, v) => mkPie l v)
      (fold_left (add_to_slice xAxis yAxis) data []).

(** [new Array(binCount).fill(0)].  The constructor throws unless its
    argument is an array length; [binCount] always is one
    (lemma [binCount_is_length]). *)
Definition Array_fill_zero (len : number) : list number :=
  match to_index len with
  | Some n => repeat (of_Z 0) n
  | None => []
  end.

Fixpoint update (A : Type) (l : list A) (i : nat) (f : A -> A) : list A :=
  match l, i with
  | [], _ => []
  | a :: l', O => f a :: l'
  | a :: l', S j => a :: update l' j f
  end.

(** [bins[binIndex]++].  When [binIndex] is not an array index (NaN, an
    infinity, a negative number or a fraction) the statement writes an
    ordinary property of the array object and leaves every element as it is.
    An index past the end would lengthen the array; the [Math.min] with
    [binCount - 1] excludes it (lemma [binIndex_below_binCount]). *)
Definition increment_bin (bins : list number) (binIndex : number)
  : list number :=
  match to_index binIndex with
  | Some i => update bins i (fun count => add count (of_Z 1))
  | None => bins
  end.

Definition binIndex_of (min binSize binCount value : number) : number :=
  min2 (Math_floor (div (sub value min) binSize)) (sub binCount (of_Z 1)).

(** [bins.map((count, index) => ...)], [index] counting from [from]. *)
Fixpoint bins_to_points (min binSize : number) (from : nat)
  (bins : list number) : list histogram_bin :=
  match bins with
  | [] => []
  | count :: rest =>
      mkBin (add min (mul (add (of_nat from) (of_ratio 1 2)) binSize)) count
      :: bins_to_points min binSize (S from) rest
  end.

(** The values that [processHistogramData] bins. *)
Definition parsed_values (data : list row) (xAxis : string) : list number :=
  filter (fun val => negb (isNaN val))
         (map (fun r => parseFloat (get r xAxis)) data).

Definition processHistogramData (data : list row) (xAxis : string)
  : list histogram_bin :=
  let values := parsed_values data xAxis in
  match values with
  | [] => []
  | _ =>
      let min := Math_min values in
      let max := Math_max values in
      let binCount :=
        min2 (of_Z 10) (Math_ceil (Math_sqrt (of_nat (List.length values)))) in
      let binSize := div (sub max min) binCount in
      let bins :=
        fold_left (fun bins value =>
                     increment_bin bins (binIndex_of min binSize binCount value))
                  values (Array_fill_zero binCount) in
      bins_to_points min binSize 0 bins
  end.

(** [yValues.sort((a, b) => a - b)].  The sort of the language is stable and,
    the comparator being consistent on numbers that are not NaN, its result
    is the one of a stable insertion sort: [x] moves behind [y] when
    [compareFn(x, y) > 0]; a NaN result counts as 0. *)
Fixpoint insert_by (compareFn : number -> number -> number) (x : number)
  (sorted : list number) : list number :=
  match sorted with
  | [] => [x]
  | y :: rest =>
      if gtb (compareFn x y) (of_Z 0) then y :: insert_by compareFn x rest
      else x :: y :: rest
  end.

Definition Array_sort (compareFn : number -> number -> number)
  (l : list number) : list number :=
  fold_right (insert_by compareFn) [] l.

(** [sorted[Math.floor(sorted.length * p)]] *)
Definition at_index (sorted : list number) (i : number) : option number :=
  match to_index i with
  | Some n => nth_error sorted n
  | None => None
  end.

Definition quantile (sorted : list number) (p : number) : option number :=
  at_index sorted (Math_floor (mul (of_nat (List.length sorted)) p)).

Definition box_of (entry : string * list number) : box_entry :=
  let '(xValue, yValues) := entry in
  let sorted := Array_sort (fun a b => sub a b) yValues in
  let q1 := quantile sorted (of_ratio 1 4) in
  let q2 := quantile sorted (of_ratio 1 2) in
  let q3 := quantile sorted (of_ratio 3 4) in
  mkBox xValue
        (nth_error sorted 0)
        q1 q2 q3
        (nth_error sorted (List.length sorted - 1)).

Definition processBoxData (data : list row) (xAxis yAxis : string)
  : list box_entry :=
  map box_of (group_y data xAxis yAxis).

Definition processDataForChart (data : list row) (xAxis yAxis : string)
  (chartType : string) : chart_data :=
  if String.eqb chartType "bar" || String.eqb chartType "line" then
    Categorical (processCategoricalData data xAxis yAxis)
  else if String.eqb chartType "scatter" then
    Scatter (processScatterData data xAxis yAxis)
  else if String.eqb chartType "pie" then
    Pie (processPieData data xAxis yAxis)
  else if String.eqb chartType "histogram" then
    Histogram (processHistogramData data xAxis)
  else if String.eqb chartType "box" then
    Box (processBoxData data xAxis yAxis)
  else Raw data.

(** The [options] of the input, each field optional. *)
Record input_options : Type := mkInputOptions {
  opt_color : option string;
  opt_width : option number;
  opt_height : option number;
  opt_showLegend : option bool
}.

Definition no_options : input_options := mkInputOptions None None None None.

Record config_options : Type := mkConfigOptions {
  title : string;
  xAxis_label : string;
  yAxis_label : string;
  color : string;
  width : number;
  height : number;
  showLegend : bool;
  barWidth : option number;
  lineWidth : option number;
  showPoints : option bool;
  pointSize : option number;
  showPercentages : option bool
}.

Record chart_config : Type := mkConfig {
  config_type : string;
  config_data : chart_data;
  config_opts : config_options
}.

(** [chartType.charAt(0).toUpperCase() + chartType.slice(1)] *)
Definition capitalize (s : string) : string :=
  match s with
  | EmptyString => EmptyString
  | String c rest => String (Str.upper_char c) rest
  end.

Definition generateChartConfig (chartType : string) (chartData : chart_data)
  (xAxis yAxis : string) (title_arg : option string) (options : input_options)
  : chart_config :=
  let title_in := match title_arg with Some t => t | None => "" end in
  let base :=
    mkConfigOptions
      (if Str.isEmpty title_in then (capitalize chartType ++ " Chart")%string
       else title_in)
      xAxis
      yAxis
      (match options.(opt_color) with
       | Some c => if Str.isEmpty c then "#3B82F6" else c
       | None => "#3B82F6"
       end)
      (match options.(opt_width) with
       | Some w => if truthy (VNum w) then w else of_Z 800
       | None => of_Z 800
       end)
      (match options.(opt_height) with
       | Some h => if truthy (VNum h) then h else of_Z 600
       | None => of_Z 600
       end)
      (match options.(opt_showLegend) with
       | Some false => false
       | _ => true
       end)
      None None None None None in
  let with_bar (w : number) (o : config_options) :=
    mkConfigOptions o.(title) o.(xAxis_label) o.(yAxis_label) o.(color)
      o.(width) o.(height) o.(showLegend)
      (Some w) o.(lineWidth) o.(showPoints) o.(pointSize) o.(showPercentages) in
  let specific :=
    if String.eqb chartType "bar" then with_bar (of_ratio 4 5) base
    else if String.eqb chartType "line" then
      mkConfigOptions base.(title) base.(xAxis_label) base.(yAxis_label)
        base.(color) base.(width) base.(height) base.(showLegend)
        None (Some (of_Z 2)) (Some true) None None
    else if String.eqb chartType "scatter" then
      mkConfigOptions base.(title) base.(xAxis_label) base.(yAxis_label)
        base.(color) base.(width) base.(height) base.(showLegend)
        None None None (Some (of_Z 6)) None
    else if String.eqb chartType "pie" then
      mkConfigOptions base.(title) base.(xAxis_label) base.(yAxis_label)
        base.(color) base.(width) base.(height) base.(showLegend)
        None None None None (Some true)
    else if String.eqb chartType "histogram" then with_bar (of_Z 1) base
    else base in
  mkConfig chartType chartData specific.

Definition numbers_of (vs : list Js.value) : list number :=
  flat_map (fun v => match v with VNum n => [n] | _ => [] end)
           (filter is_valid_number vs).

(** [recommendations.push(...)] in the order of the source.  [Math.pow(d, 2)]
    is taken as the product [d * d]. *)
Definition generateRecommendations (data : list row) (columns : list string)
  (chartType xAxis yAxis : string) : list string :=
  let xValues := map (fun r => get r xAxis) data in
  let yValues := map (fun r => get r yAxis) data in
  let xIsNumeric := existsb is_valid_number xValues in
  let yIsNumeric := existsb is_valid_number yValues in
  let r1 :=
    if String.eqb chartType "bar" && xIsNumeric
    then ["Consider using a line chart for numeric X-axis data"] else [] in
  let r2 :=
    if String.eqb chartType "line" && negb xIsNumeric
    then ["Consider using a bar chart for categorical X-axis data"] else [] in
  let r3 :=
    if String.eqb chartType "scatter" && (negb xIsNumeric || negb yIsNumeric)
    then ["Scatter plots work best with numeric data on both axes"] else [] in
  let r4 :=
    if String.eqb chartType "pie" && (10 <? List.length data)%nat
    then ["Pie charts become hard to read with more than 10 categories. Consider a bar chart instead."]
    else [] in
  let r5 :=
    if yIsNumeric then
      let yNumbers := numbers_of yValues in
      if (0 <? List.length yNumbers)%nat then
        let n := of_nat (List.length yNumbers) in
        let mean := div (sum_values yNumbers) n in
        let std :=
          Math_sqrt
            (div (fold_left (fun sum val =>
                               add sum (mul (sub val mean) (sub val mean)))
                            yNumbers (of_Z 0))
                 n) in
        let outliers :=
          filter (fun val =>
                    gtb (Math_abs (sub val mean)) (mul (of_Z 2) std))
                 yNumbers in
        if (0 <? List.length outliers)%nat then
          [("Found " ++ Z_to_string (Z.of_nat (List.length outliers)) ++
            " potential outliers. Consider using a box plot to visualize the distribution.")%string]
        else []
      else []
    else [] in
  r1 ++ r2 ++ r3 ++ r4 ++ r5.

Record input : Type := mkInput {
  in_data : list row;
  in_columns : list string;
  in_chartType : string;
  in_xAxis : string;
  in_yAxis : string;
  in_title : option string;
  in_options : option input_options
}.

(** The output schema; an optional field that is not set is [None]. *)
Record output : Type := mkOutput {
  success : bool;
  chartData : option chart_data;
  chartConfig : option chart_config;
  error : option string;
  recommendations : option (list string)
}.

(** What [processDataForChart] and the methods above give is the value
    returned when nothing throws.  One thing can throw: the spreads
    [Math.min(...values)] and [Math.max(...values)] of
    [processHistogramData], on more parseable values than the engine takes
    as arguments. *)
Definition processDataForChart_throws (e : engine) (data : list row)
  (xAxis chartType : string) : bool :=
  String.eqb chartType "histogram" && spread_throws e (parsed_values data xAxis).

(** The [try] block of [execute]: [inl message] is a throw, of
    [new Error(message)] or of the engine's RangeError, [inr] the three
    results of a normal completion. *)
Definition execute_try (e : engine) (i : input)
  : string + (chart_data * chart_config * list string) :=
  let data := i.(in_data) in
  let columns := i.(in_columns) in
  let chartType := i.(in_chartType) in
  let xAxis := i.(in_xAxis) in
  let yAxis := i.(in_yAxis) in
  let options :=
    match i.(in_options) with Some o => o | None => no_options end in
  if negb (Array_includes columns xAxis) then
    inl ("X-axis column '" ++ xAxis ++ "' not found in data")%string
  else if negb (Array_includes columns yAxis) then
    inl ("Y-axis column '" ++ yAxis ++ "' not found in data")%string
  else if processDataForChart_throws e data xAxis chartType then
    inl (range_error_message e)
  else
    let chartData := processDataForChart data xAxis yAxis chartType in
    let chartConfig :=
      generateChartConfig chartType chartData xAxis yAxis i.(in_title) options in
    let recommendations :=
      generateRecommendations data columns chartType xAxis yAxis in
    inr (chartData, chartConfig, recommendations).

(** [execute]: the [catch] turns a thrown [Error] into the failure object. *)
Definition execute (e : engine) (i : input) : output :=
  match execute_try e i with
  | inr (cd, cfg, recs) => mkOutput true (Some cd) (Some cfg) None (Some recs)
  | inl message => mkOutput false None None (Some message) None
  end.

End VisualizationTool.

(* ================================================================== *)
(** ** Notions used to state the properties                             *)
(* ================================================================== *)

Module Props.

Import Number Js.
Local Open Scope string_scope.
Local Open Scope list_scope.

(** The values of a list without repetition, in the order in which they are
    first seen. *)
Section Distinct.
Variable K : Type.
Variable key_eqb : K -> K -> bool.

Fixpoint distinct_from (seen : list K) (l : list K) : list K :=
  match l with
  | [] => []
  | k :: l' =>
      if existsb (key_eqb k) seen then distinct_from seen l'
      else k :: distinct_from (seen ++ [k]) l'
  end.

Definition distinct (l : list K) : list K := distinct_from [] l.
End Distinct.

(** How a column is classified: the summary of [SQLQueryTool.execute] lists
    it under [numericColumns] or it does not. *)
Inductive column_class : Type := Numeric | Categorical.

Definition classify (data : list object) (col : string) : column_class :=
  if Array_includes (SQLQueryTool.getNumericColumns data) col then Numeric
  else Categorical.

(** The fields that AGGREGATE writes for a numeric column. *)
Definition aggregate_fields (data : list object) (col : string)
  : list (string * value) :=
  let values := SQLQueryTool.numbers_of (SQLQueryTool.column_values data col) in
  [ (("count_" ++ col)%string, VNum (of_nat (List.length values)));
    (("sum_" ++ col)%string, VNum (SQLQueryTool.sum_values values));
    (("avg_" ++ col)%string,
     VNum (div (SQLQueryTool.sum_values values) (of_nat (List.length values))));
    (("min_" ++ col)%string, VNum (Math_min values));
    (("max_" ++ col)%string, VNum (Math_max values)) ].

(** The fields that GROUP_BY writes for a numeric column of a group. *)
Definition group_fields (groupData : list object) (col : string)
  : list (string * value) :=
  let values :=
    SQLQueryTool.numbers_of (SQLQueryTool.column_values groupData col) in
  [ (("count_" ++ col)%string, VNum (of_nat (List.length values)));
    (("sum_" ++ col)%string, VNum (SQLQueryTool.sum_values values));
    (("avg_" ++ col)%string,
     VNum (div (SQLQueryTool.sum_values values) (of_nat (List.length values)))) ].

(** The rows of a group: those whose group value is [k]. *)
Definition rows_of_group (g : string) (data : list object) (k : value)
  : list object :=
  filter (fun r => sameValueZero (SQLQueryTool.groupValue_of g r) k) data.

(** The text of a clause before its first [=] (all of it when there is
    none), and the text after it. *)
Fixpoint before_eq (s : string) : string :=
  match s with
  | EmptyString => EmptyString
  | String c s' => if Ascii.eqb c "=" then EmptyString else String c (before_eq s')
  end.

Fixpoint after_eq (s : string) : option string :=
  match s with
  | EmptyString => None
  | String c s' => if Ascii.eqb c "=" then Some s' else after_eq s'
  end.

(** The y values that the chart aggregator collects for the label [x]. *)
Definition y_values_of (data : list object) (xAxis yAxis x : string)
  : list number :=
  filter (fun v => negb (isNaN v))
         (map (fun r => parseFloat (get r yAxis))
              (filter (fun r => String.eqb (VisualizationTool.x_label r xAxis) x)
                      data)).

(** [last_not_space p]: [p] is not empty and its last character is not a
    space. *)
Fixpoint last_not_space (p : string) : bool :=
  match p with
  | EmptyString => false
  | String c EmptyString => negb (Str.is_space c)
  | String _ p' => last_not_space p'
  end.

(** What [SQLQueryTool.execute] returns when the query executor hands the
    table back under the tag SELECT. *)
Definition select_output (data : list object) : SQLQueryTool.output :=
  SQLQueryTool.mkOutput true (Some data) None (Some SQLQueryTool.SELECT)
    (Some (SQLQueryTool.mkSummary
             (List.length data)
             (match data with
              | first :: _ => List.length (Object_keys first)
              | [] => O
              end)
             (SQLQueryTool.getNumericColumns data)
             (SQLQueryTool.getCategoricalColumns data))).

(** Grouping as both tools do it: an item [(k, x)] opens the group of [k]
    when the map does not have it, then [x] is pushed on that group. *)
Section Grouping.
Variables K X : Type.
Variable key_eqb : K -> K -> bool.

Definition group_step (m : jsmap K (list X)) (kx : K * X)
  : jsmap K (list X) :=
  let m' := if negb (Map_has key_eqb m (fst kx))
            then Map_set key_eqb m (fst kx) []
            else m in
  Map_push key_eqb m' (fst kx) (snd kx).

Definition groups_of (items : list (K * X)) : jsmap K (list X) :=
  fold_left group_step items [].

Definition values_with_key (k : K) (items : list (K * X)) : list X :=
  map snd (filter (fun kx => key_eqb (fst kx) k) items).

(** The state of the map after [items], starting from [m]. *)
Definition grouped_from (m : jsmap K (list X)) (items : list (K * X))
  : jsmap K (list X) :=
  map (fun e => (fst e, snd e ++ values_with_key (fst e) items)) m
  ++ map (fun k => (k, values_with_key k items))
         (distinct_from key_eqb (map fst m) (map fst items)).
End Grouping.

(** The items that [processCategoricalData] and [processBoxData] group: the
    label and the parsed y of the rows whose y is not NaN. *)
Definition y_items (data : list object) (xAxis yAxis : string)
  : list (string * number) :=
  flat_map (fun r =>
              let yValue := parseFloat (get r yAxis) in
              if negb (isNaN yValue)
              then [(VisualizationTool.x_label r xAxis, yValue)]
              else [])
           data.

(** Writing one field, for a fold over a list of fields. *)
Definition set_field (o : object) (kv : string * value) : object :=
  set o (fst kv) (snd kv).

(** The equality test that FILTER reads in a clause: the column is the text
    before the first [=], the literal the text between the first [=] and the
    second (or the end), both trimmed, every quote character removed from the
    literal.  There is a test only when both texts are non-empty. *)
Definition clause_column (clause : string) : string :=
  Str.trim (before_eq clause).

Definition clause_literal (clause : string) : option string :=
  match after_eq clause with
  | Some rest =>
      if Str.isEmpty (before_eq clause) || Str.isEmpty (before_eq rest)
      then None
      else Some (Str.remove_chars Str.is_quote (Str.trim (before_eq rest)))
  | None => None
  end.

Definition le (a b : number) : Prop := leb a b = true.


(** A positive number, the infinity included. *)
Definition positive (x : number) : Prop := ltb (Fin 0) x = true.

(** The number that stands for the integer [m]. *)
Definition integer (m : Z) : number := Fin (m * one_ulps).

(** Bin counts as integers: their sum, and the increment of the bin [j]. *)
Definition total (counts : list Z) : Z := fold_right Z.add 0%Z counts.

Fixpoint bump (counts : list Z) (j : nat) : list Z :=
  match counts, j with
  | [], _ => []
  | m :: rest, O => (m + 1)%Z :: rest
  | m :: rest, S j' => m :: bump rest j'
  end.

(** An engine for the examples: it takes three arguments at most. *)
Definition small_engine : engine :=
  mkEngine 3 "Maximum call stack size exceeded"
           "Cannot convert undefined or null to object".

End Props.

(** The properties as the specification words them, where they differ from
    the code. *)
Module Spec.

Import Number Js.
Local Open Scope string_scope.
Local Open Scope list_scope.

(** The whole string is one decimal literal: an optional sign, digits with an
    optional fraction and exponent, and nothing else. *)
Definition after_digits (s : string) : nat * string :=
  let '(_, n, rest) := read_digits s 0%Z O in (n, rest).

Definition exponent_then_end (s : string) : bool :=
  match s with
  | EmptyString => true
  | String c s' =>
      (Ascii.eqb c "e" || Ascii.eqb c "E") &&
      let body := match s' with
                  | String "+" t | String "-" t => t
                  | _ => s'
                  end in
      let '(n, rest) := after_digits body in
      negb (Nat.eqb n 0) && Str.isEmpty rest
  end.

Definition is_decimal_literal (s : string) : bool :=
  let body := match s with
              | String "+" t | String "-" t => t
              | _ => s
              end in
  let '(ni, s1) := after_digits body in
  match s1 with
  | String "." s2 =>
      let '(nf, s3) := after_digits s2 in
      negb (Nat.eqb (ni + nf) 0) && exponent_then_end s3
  | _ => negb (Nat.eqb ni 0) && exponent_then_end s1
  end.

(** "A value counts as numeric if it is already a number type or, when a
    string, is non-empty and fully parses as a finite floating-point
    number." *)
Definition counts_as_numeric (v : value) : bool :=
  match v with
  | VNum _ => true
  | VStr s =>
      negb (Str.isEmpty s) && is_decimal_literal s
      && isFinite (parseFloat_string s)
  | _ => false
  end.

(** "Count of values that parse as finite numbers." *)
Definition parses_as_finite (v : value) : bool :=
  match v with
  | VNum n => isFinite n
  | VStr s =>
      negb (Str.isEmpty s) && is_decimal_literal s
      && isFinite (parseFloat_string s)
  | _ => false
  end.

(** The string of a value, [String(v)]. *)
Definition stringify (v : value) : string :=
  match v with
  | VUndefined => "undefined"
  | VNull => "null"
  | VBool true => "true"
  | VBool false => "false"
  | VNum n => Number_toString n
  | VStr s => s
  end.

(** "Surrounding quotes are stripped from the value": one quote at each end. *)
Definition strip_surrounding_quotes (s : string) : string :=
  match s with
  | String c rest =>
      if Str.is_quote c then
        match rev (list_ascii_of_string rest) with
        | c' :: mid_rev =>
            if Str.is_quote c' then string_of_list_ascii (rev mid_rev) else s
        | [] => s
        end
      else s
  | EmptyString => s
  end.

(** "The clause is split at the first [=] into a column part and a value
    part; a row is kept if and only if the stringified value of the named
    column equals that literal; if the clause contains no [=] or the column
    part is empty, every row is kept." *)
Definition filter_keeps (clause : string) (r : object) : bool :=
  match Props.after_eq clause with
  | None => true
  | Some value_part =>
      let column := Str.trim (Props.before_eq clause) in
      if Str.isEmpty column then true
      else String.eqb (stringify (get r column))
                      (strip_surrounding_quotes (Str.trim value_part))
  end.

(** "Distinct stringified values of g (with null/missing coerced to
    Unknown)." *)
Definition group_label (g : string) (r : object) : string :=
  match get r g with
  | VUndefined | VNull => "Unknown"
  | v => stringify v
  end.

End Spec.

(* ================================================================== *)
(** ** dataProcessingTool.ts                                            *)
(* ================================================================== *)

Module DataProcessingTool.

Import Number Js.
Local Open Scope string_scope.
Local Open Scope list_scope.

Definition row : Type := object.

(** [z.enum(['csv', 'xlsx', 'json'])] *)
Inductive FileType : Type := csv | xlsx | json.

(** The [options] as [execute] reads them; a field that is not given is
    [None].  [encoding] is never read. *)
Record options_t : Type := mkOptions {
  encoding : option string;
  hasHeader : option bool;
  delimiter : option string
}.

(** [options = {}], the default of the destructuring. *)
Definition no_options : options_t := mkOptions None None None.

Record input : Type := mkInput {
  fileContent : string;
  fileType : FileType;
  options : option options_t
}.

(** The output schema; an optional field that is not set is [None]. *)
Record output : Type := mkOutput {
  success : bool;
  data : option (list row);
  columns : option (list string);
  rowCount : option nat;
  error : option string;
  cleanedData : option (list row)
}.

(** [s.split(sep)] for a separator of one or more characters: the pieces
    between the occurrences of [sep], found from left to right without
    overlap.  [skip] counts the characters of an occurrence that are still to
    be passed over. *)
Fixpoint split_skip (sep : string) (skip : nat) (s : string) : list string :=
  match s with
  | EmptyString => [EmptyString]
  | String c s' =>
      match skip with
      | S k => split_skip sep k s'
      | O =>
          match Str.strip_prefix sep s with
          | Some _ => EmptyString :: split_skip sep (String.length sep - 1) s'
          | None =>
              match split_skip sep 0 s' with
              | p :: ps => String c p :: ps
              | [] => [String c EmptyString]
              end
          end
      end
  end.

Definition split (sep s : string) : list string := split_skip sep 0 s.

(** [options.delimiter || ','] *)
Definition delimiter_of (o : options_t) : string :=
  match o.(delimiter) with
  | Some d => if Str.isEmpty d then "," else d
  | None => ","
  end.

(** [values[index]?.trim() || ''] *)
Definition cell (values : list string) (index : nat) : string :=
  match nth_error values index with
  | Some v => let t := Str.trim v in if Str.isEmpty t then "" else t
  | None => ""
  end.

(** [o[key] = v] for a key that comes from the data and a scalar [v].  The
    key [__proto__] names the prototype of the object: writing a scalar to it
    creates no property.  A key that is an array index would be listed
    before the other keys of the object; the order of the keys is the order
    of writing here. *)
Definition assign (o : object) (key : string) (v : value) : object :=
  if String.eqb key "__proto__" then o else set o key v.

(** [columns.forEach((col, index) => { row[col] = ... })], [index] counting
    from [index]. *)
Fixpoint fill_row (values : list string) (columns : list string) (index : nat)
  (r : row) : row :=
  match columns with
  | [] => r
  | col :: rest =>
      fill_row values rest (S index) (assign r col (VStr (cell values index)))
  end.

(** The function mapped over the lines. *)
Definition parse_line (delim : string) (columns : list string) (line : string)
  : row :=
  fill_row (split delim line) columns 0 [].

(** [Array.from({ length: columnCount }, (_, i) => `Column_${i + 1}`)] *)
Definition generated_columns (columnCount : nat) : list string :=
  map (fun i => ("Column_" ++ Z_to_string (Z.of_nat i + 1))%string)
      (seq 0 columnCount).

(** The [csv] branch of [execute]: the rows and the columns. *)
Definition parse_csv (fileContent : string) (o : options_t)
  : list row * list string :=
  let lines := Str.split "010" fileContent in
  let delim := delimiter_of o in
  if (match o.(hasHeader) with Some true => true | _ => false end)
     && (0 <? List.length lines)%nat
  then
    let columns := map Str.trim (split delim (hd "" lines)) in
    (map (parse_line delim columns) (tl lines), columns)
  else
    let firstLine := hd "" lines in
    let columnCount := List.length (split delim firstLine) in
    let columns := generated_columns columnCount in
    (map (parse_line delim columns) lines, columns).

(** The body of the [forEach] of [cleanData], on the row [cleanedRow] that it
    fills. *)
Definition clean_entry (cleanedRow : row) (entry : string * value) : row :=
  let '(key, v) := entry in
  let cleanedRow :=
    match v with
    | VStr s => assign cleanedRow key (VStr (Str.trim s))
    | _ => assign cleanedRow key v
    end in
  match get cleanedRow key with
  | VStr EmptyString => assign cleanedRow key VNull
  | _ => cleanedRow
  end.

(** The function mapped over [data]; [Object.entries(row)] is the row. *)
Definition clean_row (r : row) : row := fold_left clean_entry r [].

Definition cleanData (data : list row) : list row := map clean_row data.

(** The elements of a parsed array when all of them are objects; [None] is
    an element [null]. *)
Fixpoint rows_of (elements : list (option row)) : option (list row) :=
  match elements with
  | [] => Some []
  | Some r :: rest =>
      match rows_of rest with
      | Some rows => Some (r :: rows)
      | None => None
      end
  | None :: _ => None
  end.

(** The [try] block of [execute]: [inl message] is a throw, [inr] the rows,
    the columns and the cleaned rows.  [JSON.parse] is outside the model: the
    inner [try] of the [json] branch is the parameter [json_branch], from
    the file content to the message of what it throws or to the elements of
    [data] and the columns.  [cleanData] then calls [Object.entries] on
    every element, which throws the engine's TypeError on [null].  The
    elements are objects or [null]: a document with an element of another
    kind (a number, a string, an array) is not covered. *)
Definition execute_try (e : engine)
  (json_branch : string -> string + (list (option row) * list string))
  (i : input) : string + (list row * list string * list row) :=
  let o := match i.(options) with Some o => o | None => no_options end in
  match i.(fileType) with
  | csv =>
      let '(rows, cols) := parse_csv i.(fileContent) o in
      inr (rows, cols, cleanData rows)
  | json =>
      match json_branch i.(fileContent) with
      | inl message => inl message
      | inr (elements, cols) =>
          match rows_of elements with
          | Some rows => inr (rows, cols, cleanData rows)
          | None => inl (type_error_message e)
          end
      end
  | xlsx => inl "Unsupported file type: xlsx"
  end.

(** [execute]: the [catch] turns a thrown [Error] into the failure object. *)
Definition execute (e : engine)
  (json_branch : string -> string + (list (option row) * list string))
  (i : input) : output :=
  match execute_try e json_branch i with
  | inr (rows, cols, cleaned) =>
      mkOutput true (Some rows) (Some cols) (Some (List.length rows)) None
               (Some cleaned)
  | inl message => mkOutput false None None None (Some message) None
  end.

End DataProcessingTool.

(* ================================================================== *)
(** ** Further notions used to state properties                         *)
(* ================================================================== *)

Module Shapes.

Import Number Js Props.
Local Open Scope string_scope.
Local Open Scope list_scope.

(** Every character of the string is a word character, [[A-Za-z0-9_]]. *)
Fixpoint all_word (s : string) : bool :=
  match s with
  | EmptyString => true
  | String c s' => Str.is_word c && all_word s'
  end.

Definition starts_with_word (s : string) : bool :=
  match s with
  | String c _ => Str.is_word c
  | EmptyString => false
  end.

Definition starts_with_space (s : string) : bool :=
  match s with
  | String c _ => Str.is_space c
  | EmptyString => false
  end.

(** Every character of the string is a space in the sense of [\s]. *)
Fixpoint all_space (s : string) : bool :=
  match s with
  | EmptyString => true
  | String c s' => Str.is_space c && all_space s'
  end.

(** Does the pattern anchored by [at_start] match at a place inside
    [before], when [rest] follows it? *)
Fixpoint matched_inside (A : Type) (at_start : string -> option A)
  (before rest : string) : bool :=
  match before with
  | EmptyString => false
  | String _ before' =>
      (match at_start (before ++ rest)%string with
       | Some _ => true
       | None => false
       end)
      || matched_inside at_start before' rest
  end.

Fixpoint has_line_terminator (s : string) : bool :=
  match s with
  | EmptyString => false
  | String c s' => Str.is_line_terminator c || has_line_terminator s'
  end.

(** Does the end of the WHERE pattern ([GROUP BY], [ORDER BY] after spaces,
    or the end of the text) match somewhere inside [clause], after its first
    character and before its end, when [tail] follows the clause? *)
Fixpoint tail_inside (clause tail : string) : bool :=
  match clause with
  | EmptyString => false
  | String _ rest =>
      match rest with
      | EmptyString => false
      | _ => Str.where_tail (rest ++ tail) || tail_inside rest tail
      end
  end.

(** The number of elements of a chart series. *)
Definition chart_size (d : VisualizationTool.chart_data) : nat :=
  match d with
  | VisualizationTool.Categorical points => List.length points
  | VisualizationTool.Scatter points => List.length points
  | VisualizationTool.Pie slices => List.length slices
  | VisualizationTool.Histogram bins => List.length bins
  | VisualizationTool.Box entries => List.length entries
  | VisualizationTool.Raw rows => List.length rows
  end.

(** One step of the running sum of a pie slice: the value [kept] for the
    label so far, [None] before its first row, and the parsed y of the next
    row; NaN and 0 count as 0 on both sides. *)
Definition slice_step (kept : option number) (y : number) : number :=
  add (match kept with
       | Some v => VisualizationTool.number_or_zero v
       | None => of_Z 0
       end)
      (VisualizationTool.number_or_zero y).

(** How often the character [c] occurs in [s]. *)
Fixpoint occurrences (c : ascii) (s : string) : nat :=
  match s with
  | EmptyString => O
  | String a s' => (if Ascii.eqb a c then 1 else 0) + occurrences c s'
  end.

(** The content with a carriage return put before every line feed. *)
Fixpoint with_cr (s : string) : string :=
  match s with
  | EmptyString => EmptyString
  | String c s' =>
      if Ascii.eqb c "010" then String "013" (String "010" (with_cr s'))
      else String c (with_cr s')
  end.

(** The strings of a list, the character [c] added at the end of the last. *)
Fixpoint append_to_last (l : list string) (c : ascii) : list string :=
  match l with
  | [] => []
  | [p] => [(p ++ String c EmptyString)%string]
  | p :: rest => p :: append_to_last rest c
  end.

(** The rank of the last occurrence of [c] in [cols], counting from 0. *)
Fixpoint last_index_of (c : string) (cols : list string) : option nat :=
  match cols with
  | [] => None
  | a :: rest =>
      match last_index_of c rest with
      | Some i => Some (S i)
      | None => if String.eqb a c then Some O else None
      end
  end.

(** The properties of an object that an assignment can have written: all
    but one under the key [__proto__]. *)
Definition without_proto (o : object) : object :=
  filter (fun kv => negb (String.eqb (fst kv) "__proto__")) o.

(** A string is trimmed when [trim] leaves it as it is. *)
Definition trimmed (s : string) : Prop := Str.trim s = s.

(** What cleaning makes of a cell: a string is trimmed, and the empty string
    that may result becomes [null]. *)
Definition cleaned_value (v : value) : value :=
  match v with
  | VStr s => if Str.isEmpty (Str.trim s) then VNull else VStr (Str.trim s)
  | _ => v
  end.

(** The value of a string of decimal digits. *)
Fixpoint digits_value (s : string) : Z :=
  match s with
  | EmptyString => 0%Z
  | String c s' =>
      (digit_val c * 10 ^ Z.of_nat (String.length s') + digits_value s')%Z
  end.

End Shapes.

(* ================================================================== *)
(** ** Lemmas on strings                                                *)
(* ================================================================== *)

Module Sql := SQLQueryTool.
Module Viz := VisualizationTool.
Module Dpt := DataProcessingTool.

Section StringFacts.

Import Str Props.
Local Open Scope string_scope.

Lemma strip_prefix_app (p s r : string) :
  strip_prefix p s = Some r -> s = p ++ r.
Proof.
  revert s; induction p as [|a p IH]; intros s H; simpl in *.
  - now inversion H.
  - destruct s as [|b s]; [discriminate|].
    destruct (Ascii.eqb a b) eqn:E; [|discriminate].
    apply Ascii.eqb_eq in E; subst b. now rewrite (IH _ H).
Qed.

Lemma includes_cons (p : string) (c : ascii) (s : string) :
  includes p s = true -> includes p (String c s) = true.
Proof.
  intros H. cbn [includes].
  destruct (strip_prefix p (String c s)); [reflexivity | exact H].
Qed.

Lemma includes_empty (p : string) :
  includes p EmptyString = true -> p = EmptyString.
Proof.
  destruct p; [reflexivity | simpl; discriminate].
Qed.

(** A pattern that starts with a character other than a space is still found
    after [trimStart]. *)
Lemma includes_trimStart (a : ascii) (p s : string) :
  is_space a = false ->
  includes (String a p) s = true -> includes (String a p) (trimStart s) = true.
Proof.
  intros Ha. induction s as [|c s IH]; intros H; [exact H|].
  cbn [trimStart]. destruct (is_space c) eqn:Ec; [|exact H].
  apply IH. cbn [includes] in H.
  destruct (strip_prefix (String a p) (String c s)) eqn:E; [|exact H].
  cbn [strip_prefix] in E. destruct (Ascii.eqb a c) eqn:Eac; [|discriminate].
  apply Ascii.eqb_eq in Eac; subst c. congruence.
Qed.

Lemma trimEnd_keeps_prefix (p r : string) :
  last_not_space p = true -> exists r', trimEnd (p ++ r) = p ++ r'.
Proof.
  induction p as [|c p IH]; intros H; [discriminate|].
  destruct p as [|c' p'].
  - cbn in H. cbn [append trimEnd].
    destruct (trimEnd r) eqn:E.
    + apply negb_true_iff in H. rewrite H. now exists EmptyString.
    + now exists (String a s).
  - change (last_not_space (String c' p') = true) in H.
    destruct (IH H) as [r' Hr'].
    change (String c (String c' p') ++ r) with (String c (String c' p' ++ r)).
    cbn [trimEnd]. rewrite Hr'. cbn [append]. now exists r'.
Qed.

Lemma includes_app (p r : string) : includes p (p ++ r) = true.
Proof.
  assert (H : strip_prefix p (p ++ r) = Some r).
  { induction p as [|c p IH]; [reflexivity|].
    cbn. now rewrite Ascii.eqb_refl. }
  destruct (p ++ r); cbn [includes]; now rewrite H.
Qed.

Lemma includes_trimEnd (p s : string) :
  last_not_space p = true ->
  includes p s = true -> includes p (trimEnd s) = true.
Proof.
  intros Hp. induction s as [|c s IH]; intros H; [exact H|].
  cbn [includes] in H.
  destruct (strip_prefix p (String c s)) eqn:E.
  - apply strip_prefix_app in E. rewrite E.
    destruct (trimEnd_keeps_prefix s0 Hp) as [r' ->]. apply includes_app.
  - specialize (IH H). cbn [trimEnd].
    destruct (trimEnd s) eqn:Et.
    + apply includes_empty in IH. subst p. discriminate.
    + now apply includes_cons.
Qed.

Lemma includes_trim (a : ascii) (p s : string) :
  is_space a = false -> last_not_space (String a p) = true ->
  includes (String a p) s = true -> includes (String a p) (trim s) = true.
Proof.
  intros Ha Hl H. unfold trim.
  apply includes_trimEnd; [exact Hl|]. now apply includes_trimStart.
Qed.

End StringFacts.

(* ================================================================== *)
(** ** Query classification and the fail-soft paths                     *)
(* ================================================================== *)

Section QueryDispatch.

Import Js Props.
Local Open Scope string_scope.

Variable e : engine.
Variables (query : string) (data : list Sql.row) (columns : list string).

(** A run that hands the table back under SELECT has not gone through the
    aggregates: nothing threw. *)
Lemma execute_of_select :
  Sql.executeQuery query data columns = Sql.mkResult data Sql.SELECT ->
  Sql.execute e query data columns = (select_output data).
Proof.
  intros E. unfold Sql.execute, Sql.execute_try.
  assert (Hn : Sql.executeQuery_throws e query data = false).
  { unfold Sql.executeQuery_throws. unfold Sql.executeQuery in E.
    destruct (_ && _); [reflexivity|].
    destruct (_ || _); [discriminate E | reflexivity]. }
  now rewrite Hn, E.
Qed.

(** C5.  A query whose uppercased text contains both SELECT and FROM is
    classified SELECT whatever else it contains (WHERE, GROUP BY, COUNT, ...),
    and execution returns the input table itself: [execute] succeeds with
    [result] the whole table and [queryType] SELECT. *)
Theorem C5_select_from_takes_priority :
  Str.includes "SELECT" (Str.toUpperCase query) = true ->
  Str.includes "FROM" (Str.toUpperCase query) = true ->
  Sql.executeQuery query data columns = Sql.mkResult data Sql.SELECT
  /\ Sql.execute e query data columns = (select_output data)
  /\ Sql.success (Sql.execute e query data columns) = true
  /\ Sql.result (Sql.execute e query data columns) = Some data
  /\ Sql.out_queryType (Sql.execute e query data columns) = Some Sql.SELECT.
Proof.
  intros Hs Hf.
  assert (E : Sql.executeQuery query data columns = Sql.mkResult data Sql.SELECT).
  { unfold Sql.executeQuery.
    rewrite (includes_trim (a := "S") (p := "ELECT")) by (reflexivity || exact Hs).
    rewrite (includes_trim (a := "F") (p := "ROM")) by (reflexivity || exact Hf).
    reflexivity. }
  split; [exact E|]. rewrite (execute_of_select E). repeat split.
Qed.

(** C8.  A query that reaches the GROUP BY rule (rules 1 and 2 do not match)
    and whose group-by identifier cannot be extracted or is not one of the
    declared columns is answered without an error: [success] is true, the
    result is the input table and the tag is SELECT. *)
Theorem C8_group_by_degrades_to_select :
  let upperQuery := Str.trim (Str.toUpperCase query) in
  Str.includes "SELECT" upperQuery && Str.includes "FROM" upperQuery = false ->
  Str.includes "COUNT" upperQuery || Str.includes "SUM" upperQuery
    || Str.includes "AVG" upperQuery = false ->
  Str.includes "GROUP BY" upperQuery = true ->
  (forall g, Sql.extractGroupByColumn query = Some g ->
             Array_includes columns g = false) ->
  Sql.executeGroupByQuery query data columns = Sql.mkResult data Sql.SELECT
  /\ Sql.execute e query data columns = (select_output data)
  /\ Sql.success (Sql.execute e query data columns) = true
  /\ Sql.error (Sql.execute e query data columns) = None
  /\ Sql.result (Sql.execute e query data columns) = Some data
  /\ Sql.out_queryType (Sql.execute e query data columns) = Some Sql.SELECT.
Proof.
  intros upperQuery H1 H2 H3 Hg.
  assert (G : Sql.executeGroupByQuery query data columns
              = Sql.mkResult data Sql.SELECT).
  { unfold Sql.executeGroupByQuery.
    destruct (Sql.extractGroupByColumn query) as [g|]; [|reflexivity].
    rewrite (Hg g eq_refl). now rewrite orb_true_r. }
  assert (E : Sql.executeQuery query data columns = Sql.mkResult data Sql.SELECT).
  { unfold Sql.executeQuery. fold upperQuery. now rewrite H1, H2, H3. }
  split; [exact G|]. rewrite (execute_of_select E). repeat split.
Qed.

End QueryDispatch.

Section QueryDispatchExamples.

Import Number Js Props.
Local Open Scope string_scope.

(** The query of the specification, [SELECT * FROM data WHERE x=1]: the
    WHERE clause filters nothing. *)
Lemma C5_select_witness :
  let query := "SELECT * FROM data WHERE x=1" in
  let data : list Sql.row := [[("x", VNum (of_Z 1))]; [("x", VNum (of_Z 2))]] in
  Str.includes "SELECT" (Str.toUpperCase query) = true
  /\ Str.includes "FROM" (Str.toUpperCase query) = true
  /\ Sql.executeQuery query data ["x"] = Sql.mkResult data Sql.SELECT
  /\ Sql.result (Sql.execute small_engine query data ["x"]) = Some data
  /\ Sql.out_queryType (Sql.execute small_engine query data ["x"])
     = Some Sql.SELECT.
Proof.
  intros query data.
  destruct (@C5_select_from_takes_priority small_engine query data ["x"]
              eq_refl eq_refl)
    as (H1 & _ & _ & H2 & H3).
  repeat split; assumption.
Defined.

(** A GROUP BY on a column that the table does not declare. *)
Lemma C8_group_by_witness :
  let query := "GROUP BY region" in
  let data : list Sql.row := [[("x", VNum (of_Z 1))]; [("x", VNum (of_Z 2))]] in
  let upperQuery := Str.trim (Str.toUpperCase query) in
  Str.includes "SELECT" upperQuery && Str.includes "FROM" upperQuery = false
  /\ Str.includes "COUNT" upperQuery || Str.includes "SUM" upperQuery
       || Str.includes "AVG" upperQuery = false
  /\ Str.includes "GROUP BY" upperQuery = true
  /\ Sql.extractGroupByColumn query = Some "region"
  /\ Array_includes ["x"] "region" = false
  /\ Sql.execute small_engine query data ["x"] = select_output data
  /\ Sql.success (Sql.execute small_engine query data ["x"]) = true.
Proof.
  intros query data upperQuery.
  assert (Hg : forall g, Sql.extractGroupByColumn query = Some g ->
                         Array_includes ["x"] g = false).
  { intros g H. change (Sql.extractGroupByColumn query) with (Some "region") in H.
    now inversion H. }
  destruct (@C8_group_by_degrades_to_select small_engine query data ["x"]
              eq_refl eq_refl eq_refl Hg) as (_ & H1 & H2 & _).
  repeat split; assumption.
Defined.

(** No identifier after GROUP BY: nothing is extracted and the table comes
    back as well. *)
Lemma group_by_without_identifier :
  Sql.extractGroupByColumn "x GROUP BY " = None
  /\ Sql.execute small_engine "x GROUP BY " [[("x", VStr "a")]] ["x"]
     = select_output [[("x", VStr "a")]].
Proof. split; reflexivity. Qed.

End QueryDispatchExamples.

Section Validation.

Import Js.
Local Open Scope string_scope.

(** C9.  When the x column or the y column is not in the declared columns,
    [execute] fails: [success] is false, the message names the first missing
    column, and none of [chartData], [chartConfig] and [recommendations] is
    set.  The answer does not depend on the table, which is not looked at. *)
Theorem C9_missing_axis_is_rejected (e : engine) (i : Viz.input) :
  Array_includes (Viz.in_columns i) (Viz.in_xAxis i) = false
  \/ Array_includes (Viz.in_columns i) (Viz.in_yAxis i) = false ->
  let message :=
    if Array_includes (Viz.in_columns i) (Viz.in_xAxis i)
    then "Y-axis column '" ++ Viz.in_yAxis i ++ "' not found in data"
    else "X-axis column '" ++ Viz.in_xAxis i ++ "' not found in data" in
  Viz.execute e i = Viz.mkOutput false None None (Some message) None
  /\ forall data',
       Viz.execute e (Viz.mkInput data' (Viz.in_columns i) (Viz.in_chartType i)
                      (Viz.in_xAxis i) (Viz.in_yAxis i) (Viz.in_title i)
                      (Viz.in_options i))
       = Viz.execute e i.
Proof.
  intros H message.
  assert (E : forall d, Viz.execute_try e
                (Viz.mkInput d (Viz.in_columns i) (Viz.in_chartType i)
                   (Viz.in_xAxis i) (Viz.in_yAxis i) (Viz.in_title i)
                   (Viz.in_options i)) = inl message).
  { intros d. unfold Viz.execute_try, message; cbn -[Array_includes append].
    destruct (Array_includes (Viz.in_columns i) (Viz.in_xAxis i));
      cbn -[Array_includes append].
    - destruct H as [H|H]; [discriminate|]. now rewrite H.
    - reflexivity. }
  assert (E0 : Viz.execute_try e i = inl message).
  { rewrite <- (E (Viz.in_data i)). now destruct i. }
  unfold Viz.execute. rewrite E0. split; [reflexivity|].
  intros d. now rewrite E.
Qed.

End Validation.

Section ValidationExamples.

Import Number Js Props.
Local Open Scope string_scope.

Lemma C9_missing_axis_witness :
  let i := Viz.mkInput [[("a", VNum (of_Z 1)); ("b", VNum (of_Z 2))]]
                       ["a"; "b"] "bar" "a" "zz" None None in
  (Array_includes (Viz.in_columns i) (Viz.in_xAxis i) = false
   \/ Array_includes (Viz.in_columns i) (Viz.in_yAxis i) = false)
  /\ Viz.execute small_engine i
     = Viz.mkOutput false None None
         (Some "Y-axis column 'zz' not found in data") None.
Proof.
  intros i.
  assert (H : Array_includes (Viz.in_columns i) (Viz.in_xAxis i) = false
              \/ Array_includes (Viz.in_columns i) (Viz.in_yAxis i) = false)
    by (right; reflexivity).
  split; [exact H|]. exact (proj1 (C9_missing_axis_is_rejected small_engine H)).
Defined.

End ValidationExamples.

(* ================================================================== *)
(** ** Column classification                                            *)
(* ================================================================== *)

Section Classification.

Import Number Js Props.
Local Open Scope string_scope.

Lemma Array_includes_In (l : list string) (c : string) :
  Array_includes l c = true <-> In c l.
Proof.
  unfold Array_includes. rewrite existsb_exists. split.
  - intros [x [Hx E]]. apply String.eqb_eq in E. now subst.
  - intros H. exists c. split; [exact H | apply String.eqb_refl].
Qed.

Lemma is_valid_number_spec (v : value) :
  is_valid_number v = true <-> exists n, v = VNum n /\ isNaN n = false.
Proof.
  split.
  - destruct v; try discriminate. cbn. intros H. exists n.
    split; [reflexivity | now apply negb_true_iff].
  - intros [n [-> H]]. cbn. now rewrite H.
Qed.

Lemma getNumericColumns_In (data : list Sql.row) (col : string) :
  In col (Sql.getNumericColumns data) <->
  exists first rest,
    data = first :: rest /\ In col (Object_keys first) /\
    exists r, In r (firstn 10 data) /\ is_valid_number (get r col) = true.
Proof.
  unfold Sql.getNumericColumns. destruct data as [|first rest].
  - split; [intros [] | intros (f & r & E & _); discriminate].
  - rewrite filter_In. unfold Sql.column_values. rewrite existsb_exists.
    split.
    + intros [Hk (v & Hv & Hn)]. apply in_map_iff in Hv.
      destruct Hv as (r & <- & Hr).
      exists first, rest. repeat split; trivial. now exists r.
    + intros (f & r & E & Hk & (x & Hx & Hn)). inversion E; subst f r.
      split; [exact Hk|]. exists (get x col). split; [|exact Hn].
      apply in_map_iff. now exists x.
Qed.

Lemma getCategoricalColumns_In (data : list Sql.row) (col : string) :
  In col (Sql.getCategoricalColumns data) <->
  exists first rest,
    data = first :: rest /\ In col (Object_keys first) /\
    forall r, In r (firstn 10 data) -> is_valid_number (get r col) = false.
Proof.
  unfold Sql.getCategoricalColumns. destruct data as [|first rest].
  - split; [intros [] | intros (f & r & E & _); discriminate].
  - rewrite filter_In, negb_true_iff. split.
    + intros [Hk Hn]. exists first, rest. repeat split; trivial.
      intros r Hr. destruct (is_valid_number (get r col)) eqn:E; [|reflexivity].
      assert (In col (Sql.getNumericColumns (first :: rest))) as Hin.
      { apply getNumericColumns_In. exists first, rest.
        repeat split; trivial. now exists r. }
      apply Array_includes_In in Hin. congruence.
    + intros (f & r0 & E & Hk & Hall). inversion E; subst f r0.
      split; [exact Hk|].
      destruct (Array_includes (Sql.getNumericColumns (first :: rest)) col)
        eqn:En; [|reflexivity].
      apply Array_includes_In, getNumericColumns_In in En.
      destruct En as (f & r0 & _ & _ & r & Hr & Hv).
      rewrite (Hall r Hr) in Hv. discriminate.
Qed.

(** C2 (as the code has it).  A column is classified Numeric if and only if
    it is one of the keys of the first row and, among the first
    [min(10, rowCount)] rows, at least one of its values is of type number and
    is not NaN; otherwise it is Categorical (it is listed under
    [categoricalColumns] when it is a key of the first row).  A string is
    never numeric, whatever it parses to. *)
Theorem C2_numeric_iff_number_in_sample (data : list Sql.row) (col : string) :
  (classify data col = Numeric <->
   exists first rest,
     data = first :: rest /\ In col (Object_keys first) /\
     exists r n, In r (firstn 10 data) /\ get r col = VNum n /\ isNaN n = false)
  /\ (classify data col <> Numeric -> classify data col = Categorical)
  /\ (classify data col = Numeric <-> In col (Sql.getNumericColumns data))
  /\ (In col (Sql.getCategoricalColumns data) <->
      exists first rest,
        data = first :: rest /\ In col (Object_keys first) /\
        forall r, In r (firstn 10 data) ->
                  forall n, get r col = VNum n -> isNaN n = true).
Proof.
  assert (Hc : classify data col = Numeric <->
               In col (Sql.getNumericColumns data)).
  { unfold classify. rewrite <- Array_includes_In.
    destruct (Array_includes (Sql.getNumericColumns data) col);
      split; congruence. }
  split; [|split; [|split]].
  - rewrite Hc, getNumericColumns_In. split.
    + intros (f & rest & Hd & Hk & r & Hr & Hn).
      apply is_valid_number_spec in Hn. destruct Hn as (n & Hg & Hn).
      exists f, rest. repeat split; trivial. now exists r, n.
    + intros (f & rest & Hd & Hk & r & n & Hr & Hg & Hn).
      exists f, rest. repeat split; trivial. exists r. split; [exact Hr|].
      apply is_valid_number_spec. now exists n.
  - destruct (classify data col); [intros H; now elim H | reflexivity].
  - exact Hc.
  - rewrite getCategoricalColumns_In. split.
    + intros (f & rest & Hd & Hk & Hall). exists f, rest. repeat split; trivial.
      intros r Hr n Hg. specialize (Hall r Hr). rewrite Hg in Hall.
      cbn in Hall. now apply negb_false_iff.
    + intros (f & rest & Hd & Hk & Hall). exists f, rest. repeat split; trivial.
      intros r Hr. destruct (get r col) eqn:Hg; try reflexivity.
      cbn. now rewrite (Hall r Hr n Hg).
Qed.

(** C2 as the specification words it fails: in the table [[{a: "42"}]] the
    only sampled value of [a] is a non-empty string that fully parses as the
    finite number 42, and the column is Categorical. *)
Lemma C2_counterexample_numeric_string :
  let data : list Sql.row := [[("a", VStr "42")]] in
  ~ (classify data "a" = Numeric <->
     exists v, In v (Sql.column_values (firstn 10 data) "a")
               /\ Spec.counts_as_numeric v = true).
Proof.
  intros data [_ H].
  assert (E : classify data "a" = Numeric).
  { apply H. exists (VStr "42"). split; [now left | now vm_compute]. }
  vm_compute in E. discriminate.
Qed.

End Classification.

(* ================================================================== *)
(** ** Grouping with a Map                                              *)
(* ================================================================== *)

Section GroupingFacts.

Import Js Props.

Variables K X : Type.
Variable key_eqb : K -> K -> bool.
Hypothesis key_eqb_eq : forall a b, key_eqb a b = true <-> a = b.

Let key_eqb_refl (a : K) : key_eqb a a = true.
Proof. now apply key_eqb_eq. Qed.

Let key_eqb_neq (a b : K) : a <> b -> key_eqb a b = false.
Proof.
  intros H. destruct (key_eqb a b) eqn:E; [|reflexivity].
  apply key_eqb_eq in E. contradiction.
Qed.

Lemma existsb_key_In (k : K) (l : list K) :
  existsb (key_eqb k) l = true <-> In k l.
Proof.
  rewrite existsb_exists. split.
  - intros (x & Hx & E). apply key_eqb_eq in E. now subst.
  - intros H. exists k. now split.
Qed.

Lemma Map_has_In (V : Type) (m : jsmap K V) (k : K) :
  Map_has key_eqb m k = true <-> In k (map fst m).
Proof.
  induction m as [|[k' v] m IH]; cbn.
  - split; [discriminate | intros []].
  - rewrite orb_true_iff, IH, key_eqb_eq. tauto.
Qed.

Lemma Map_set_absent (V : Type) (m : jsmap K V) (k : K) (v : V) :
  Map_has key_eqb m k = false -> Map_set key_eqb m k v = m ++ [(k, v)].
Proof.
  induction m as [|[k' w] m IH]; cbn; [reflexivity|].
  intros H. apply orb_false_iff in H. destruct H as [H1 H2].
  now rewrite H1, IH.
Qed.

Lemma Map_push_last (m : jsmap K (list X)) (k : K) (vs : list X) (x : X) :
  Map_has key_eqb m k = false ->
  Map_push key_eqb (m ++ [(k, vs)]) k x = m ++ [(k, vs ++ [x])].
Proof.
  induction m as [|[k' w] m IH]; cbn.
  - now rewrite key_eqb_refl.
  - intros H. apply orb_false_iff in H. destruct H as [H1 H2].
    now rewrite H1, IH.
Qed.

Lemma Map_push_present (m : jsmap K (list X)) (k : K) (x : X) :
  NoDup (map fst m) ->
  Map_push key_eqb m k x
  = map (fun e => if key_eqb (fst e) k then (fst e, snd e ++ [x]) else e) m.
Proof.
  induction m as [|[k' w] m IH]; cbn; [reflexivity|].
  intros H. inversion H as [|? ? Hn Hd]; subst.
  destruct (key_eqb k' k) eqn:E.
  - f_equal. apply key_eqb_eq in E. subst k'.
    rewrite <- (map_id m) at 1. apply map_ext_in.
    intros [k1 w1] Hin. cbn.
    rewrite key_eqb_neq; [reflexivity|].
    intros ->. apply Hn. apply in_map_iff. now exists (k, w1).
  - now rewrite IH.
Qed.

Lemma distinct_from_In (seen l : list K) (k : K) :
  In k (distinct_from key_eqb seen l) <-> In k l /\ ~ In k seen.
Proof.
  revert seen. induction l as [|a l IH]; intros seen; cbn.
  - tauto.
  - destruct (existsb (key_eqb a) seen) eqn:E.
    + apply existsb_key_In in E. rewrite IH. split.
      * tauto.
      * intros [[->|H] Hn]; [contradiction | tauto].
    + assert (Ha : ~ In a seen).
      { intros H. apply existsb_key_In in H. congruence. }
      cbn. rewrite IH, in_app_iff. cbn. split.
      * intros [->|[H Hn]]; [tauto|]. split; [tauto|]. tauto.
      * intros [[->|H] Hn]; [tauto|].
        destruct (key_eqb a k) eqn:Eak.
        -- apply key_eqb_eq in Eak. tauto.
        -- right. split; [exact H|]. intros [Hs|[->|[]]]; [tauto|].
           rewrite key_eqb_refl in Eak. discriminate.
Qed.

Lemma distinct_from_NoDup (seen l : list K) :
  NoDup (distinct_from key_eqb seen l).
Proof.
  revert seen. induction l as [|a l IH]; intros seen; cbn; [constructor|].
  destruct (existsb (key_eqb a) seen); [apply IH|].
  constructor; [|apply IH].
  rewrite distinct_from_In, in_app_iff. cbn. tauto.
Qed.

Lemma values_with_key_cons (k k' : K) (x : X) (items : list (K * X)) :
  values_with_key key_eqb k ((k', x) :: items)
  = if key_eqb k' k then x :: values_with_key key_eqb k items
    else values_with_key key_eqb k items.
Proof. unfold values_with_key. cbn. now destruct (key_eqb k' k). Qed.

Lemma NoDup_snoc (A : Type) (l : list A) (a : A) :
  NoDup l -> ~ In a l -> NoDup (l ++ [a]).
Proof.
  induction l as [|b l IH]; cbn; intros Hd Hn.
  - constructor; [intros [] | constructor].
  - inversion Hd; subst. constructor.
    + rewrite in_app_iff. cbn. intuition congruence.
    + apply IH; tauto.
Qed.

Lemma map_fst_push (m : jsmap K (list X)) (k : K) (x : X) :
  map fst (map (fun e : K * list X =>
                  if key_eqb (fst e) k then (fst e, snd e ++ [x]) else e) m)
  = map fst m.
Proof.
  rewrite map_map. apply map_ext. intros [k1 w1]. cbn.
  now destruct (key_eqb k1 k).
Qed.

Lemma group_fold (items : list (K * X)) :
  forall m : jsmap K (list X),
    NoDup (map fst m) ->
    fold_left (group_step key_eqb) items m = grouped_from key_eqb m items.
Proof.
  induction items as [|[k x] rest IH]; intros m Hm.
  - unfold grouped_from. cbn. rewrite app_nil_r.
    rewrite <- (map_id m) at 1. apply map_ext. intros [k vs]. cbn.
    now rewrite app_nil_r.
  - cbn [fold_left]. unfold group_step at 2. cbn [fst snd].
    destruct (Map_has key_eqb m k) eqn:Eh; cbn [negb].
    + (* the group exists *)
      pose proof Eh as Hin. apply Map_has_In in Hin.
      rewrite Map_push_present by exact Hm.
      rewrite IH by (now rewrite map_fst_push).
      unfold grouped_from. rewrite map_fst_push. cbn [map fst distinct_from].
      assert (Ex : existsb (key_eqb k) (map fst m) = true)
        by now apply existsb_key_In.
      rewrite Ex. rewrite map_map. f_equal.
      * apply map_ext. intros [k1 w1]. cbn [fst snd].
        rewrite values_with_key_cons.
        destruct (key_eqb k1 k) eqn:E1; cbn [fst snd].
        -- apply key_eqb_eq in E1. subst k1. rewrite key_eqb_refl.
           now rewrite <- app_assoc.
        -- rewrite key_eqb_neq; [reflexivity|].
           intros ->. now rewrite key_eqb_refl in E1.
      * apply map_ext_in. intros k1 H1. apply distinct_from_In in H1.
        rewrite values_with_key_cons, key_eqb_neq; [reflexivity|].
        intros ->. tauto.
    + (* a new group *)
      assert (Hn : ~ In k (map fst m)).
      { intros H. apply Map_has_In in H. congruence. }
      rewrite Map_set_absent by exact Eh.
      rewrite Map_push_last by exact Eh.
      rewrite IH.
      2:{ rewrite map_app. cbn. now apply NoDup_snoc. }
      unfold grouped_from. rewrite !map_app. cbn [map fst snd distinct_from].
      assert (Ex : existsb (key_eqb k) (map fst m) = false).
      { destruct (existsb (key_eqb k) (map fst m)) eqn:E; [|reflexivity].
        apply existsb_key_In in E. contradiction. }
      rewrite Ex. cbn [map]. rewrite <- app_assoc. cbn [app]. f_equal.
      * apply map_ext_in. intros [k1 w1] H1. cbn [fst snd].
        rewrite values_with_key_cons, key_eqb_neq; [reflexivity|].
        intros ->. apply Hn. apply in_map_iff. now exists (k1, w1).
      * rewrite values_with_key_cons, key_eqb_refl. f_equal.
        apply map_ext_in. intros k1 H1. apply distinct_from_In in H1.
        rewrite values_with_key_cons, key_eqb_neq; [reflexivity|].
        intros ->. destruct H1 as [_ H1]. apply H1. rewrite in_app_iff. cbn. tauto.
Qed.

Lemma groups_of_spec (items : list (K * X)) :
  groups_of key_eqb items
  = map (fun k => (k, values_with_key key_eqb k items))
        (distinct key_eqb (map fst items)).
Proof.
  unfold groups_of. rewrite group_fold by constructor. reflexivity.
Qed.

End GroupingFacts.

(* ================================================================== *)
(** ** Objects filled key by key                                        *)
(* ================================================================== *)

(** Two field names built from a prefix and a column clash only when the
    prefixes and the columns are the same. *)
Ltac key_clash :=
  cbn in *; intuition (subst; try discriminate; try congruence).

Section ObjectFacts.

Import Number Js Props.
Local Open Scope string_scope.
Local Open Scope list_scope.

Lemma set_fresh (o : object) (key : string) (v : value) :
  ~ In key (Object_keys o) -> set o key v = o ++ [(key, v)].
Proof.
  induction o as [|[k w] o IH]; cbn; [reflexivity|].
  intros H. destruct (String.eqb k key) eqn:E.
  - apply String.eqb_eq in E. tauto.
  - rewrite IH; tauto.
Qed.

Lemma set_fields_fresh (kvs : list (string * value)) :
  forall o : object,
    NoDup (map fst kvs) ->
    (forall k, In k (map fst kvs) -> ~ In k (Object_keys o)) ->
    fold_left set_field kvs o = o ++ kvs.
Proof.
  induction kvs as [|[k v] kvs IH]; intros o Hd Hf; cbn.
  - now rewrite app_nil_r.
  - inversion Hd as [|? ? Hk Hd']; subst.
    unfold set_field at 2. cbn [fst snd].
    rewrite set_fresh by (apply Hf; now left).
    rewrite IH; [now rewrite <- app_assoc | exact Hd' |].
    intros k' Hk'. unfold Object_keys. rewrite map_app, in_app_iff. cbn.
    intros [H|[H|[]]].
    + apply (Hf k'); [now right | exact H].
    + now subst.
Qed.

(** Columns written one after the other, [fields c] being what is written
    for the column [c]. *)
Variable fields : string -> list (string * value).
Hypothesis fields_NoDup : forall c, NoDup (map fst (fields c)).
Hypothesis fields_apart :
  forall c c' k, In k (map fst (fields c)) -> In k (map fst (fields c')) -> c = c'.

Lemma set_columns_fresh (cols : list string) :
  forall o : object,
    NoDup cols ->
    (forall c k, In c cols -> In k (map fst (fields c)) ->
                 ~ In k (Object_keys o)) ->
    fold_left (fun o c => fold_left set_field (fields c) o) cols o
    = o ++ flat_map fields cols.
Proof.
  induction cols as [|c cols IH]; intros o Hd Hf; cbn.
  - now rewrite app_nil_r.
  - inversion Hd as [|? ? Hc Hd']; subst.
    rewrite set_fields_fresh; [| apply fields_NoDup | intros k; apply Hf; now left].
    rewrite IH; [now rewrite <- app_assoc | exact Hd' |].
    intros c' k Hc' Hk. unfold Object_keys. rewrite map_app, in_app_iff.
    intros [H|H].
    + apply (Hf c' k); [now right | exact Hk | exact H].
    + assert (c = c') by (eapply fields_apart; eassumption). now subst.
Qed.

End ObjectFacts.

(* ================================================================== *)
(** ** AGGREGATE                                                        *)
(* ================================================================== *)

Section Aggregate.

Import Number Js Props.
Local Open Scope string_scope.
Local Open Scope list_scope.

Lemma firstn_incl (A : Type) (n : nat) (l : list A) (x : A) :
  In x (firstn n l) -> In x l.
Proof.
  revert l; induction n as [|n IH]; intros [|a l]; cbn; try tauto.
  intros [H|H]; [now left | right; now apply IH].
Qed.

Lemma numbers_of_In (vs : list value) (n : number) :
  In n (Sql.numbers_of vs) <-> In (VNum n) vs /\ isNaN n = false.
Proof.
  unfold Sql.numbers_of. rewrite in_flat_map. split.
  - intros (v & Hv & Hn). apply filter_In in Hv. destruct Hv as [Hv Hok].
    destruct v; cbn in Hn; try tauto. destruct Hn as [->|[]].
    split; [exact Hv | now apply negb_true_iff].
  - intros [Hv Hn]. exists (VNum n). split; [|now left].
    apply filter_In. split; [exact Hv | cbn; now rewrite Hn].
Qed.

(** A column that is classified numeric has a value that passes the filter
    of the aggregation: the sample is part of the table. *)
Lemma numeric_column_has_values (data : list Sql.row) (c : string) :
  In c (Sql.getNumericColumns data) ->
  (0 <? List.length (Sql.numbers_of (Sql.column_values data c)))%nat = true.
Proof.
  intros H. apply getNumericColumns_In in H.
  destruct H as (f & rest & _ & _ & r & Hr & Hn).
  apply is_valid_number_spec in Hn. destruct Hn as (n & Hg & Hn).
  assert (Hin : In n (Sql.numbers_of (Sql.column_values data c))).
  { apply numbers_of_In. split; [|exact Hn]. rewrite <- Hg.
    unfold Sql.column_values.
    apply (in_map (fun r0 => get r0 c)). now apply firstn_incl in Hr. }
  destruct (Sql.numbers_of (Sql.column_values data c)); [destruct Hin | reflexivity].
Qed.

Lemma getNumericColumns_NoDup (data : list Sql.row) :
  (forall r, In r data -> NoDup (Object_keys r)) ->
  NoDup (Sql.getNumericColumns data).
Proof.
  intros H. unfold Sql.getNumericColumns. destruct data as [|f rest].
  - constructor.
  - apply NoDup_filter. apply H. now left.
Qed.

Lemma aggregate_fields_NoDup (data : list Sql.row) (c : string) :
  NoDup (map fst (aggregate_fields data c)).
Proof.
  cbn. repeat constructor; intros H; key_clash.
Qed.

Lemma aggregate_fields_apart (data : list Sql.row) (c c' k : string) :
  In k (map fst (aggregate_fields data c)) ->
  In k (map fst (aggregate_fields data c')) -> c = c'.
Proof.
  cbn [aggregate_fields map fst]. intros H H'. key_clash.
Qed.

Lemma aggregate_column_fields (data : list Sql.row) (o : object) (c : string) :
  In c (Sql.getNumericColumns data) ->
  Sql.aggregate_column data o c = fold_left set_field (aggregate_fields data c) o.
Proof.
  intros H. unfold Sql.aggregate_column.
  now rewrite (numeric_column_has_values H).
Qed.

Lemma fold_left_ext_in (A B : Type) (f g : A -> B -> A) (l : list B) :
  (forall a b, In b l -> f a b = g a b) ->
  forall a, fold_left f l a = fold_left g l a.
Proof.
  induction l as [|b l IH]; intros H a; cbn; [reflexivity|].
  rewrite H by now left. apply IH. intros a' b' Hb. apply H. now right.
Qed.

(** C3 (as the code has it).  AGGREGATE returns exactly one row.  For each
    column [c] classified Numeric, in the order of the keys of the first row,
    the row carries [count_c], [sum_c], [avg_c], [min_c] and [max_c], computed
    over the values of [c] in the whole table that are of type number and not
    NaN (there is at least one); nothing else is in the row, so a column that
    is not classified Numeric contributes no field.  A numeric string is not
    counted. *)
Theorem C3_aggregate_one_row
  (query : string) (data : list Sql.row) (columns : list string) :
  (forall r, In r data -> NoDup (Object_keys r)) ->
  Sql.executeAggregateQuery query data columns
  = Sql.mkResult
      [flat_map (aggregate_fields data) (Sql.getNumericColumns data)]
      Sql.AGGREGATE
  /\ (forall c, In c (Sql.getNumericColumns data) ->
                Sql.numbers_of (Sql.column_values data c) <> [])
  /\ (forall c n,
        In n (Sql.numbers_of (Sql.column_values data c)) <->
        (exists r, In r data /\ get r c = VNum n) /\ isNaN n = false).
Proof.
  intros Hwf. split; [|split].
  - unfold Sql.executeAggregateQuery. do 2 f_equal.
    rewrite (fold_left_ext_in
               (g := fun o c => fold_left set_field (aggregate_fields data c) o)).
    + rewrite (set_columns_fresh (fields := aggregate_fields data)).
      * reflexivity.
      * apply aggregate_fields_NoDup.
      * apply aggregate_fields_apart.
      * now apply getNumericColumns_NoDup.
      * intros c k _ _ [].
    + intros o c Hc. now apply aggregate_column_fields.
  - intros c Hc E. apply numeric_column_has_values in Hc.
    rewrite E in Hc. discriminate.
  - intros c n. rewrite numbers_of_In. unfold Sql.column_values.
    rewrite in_map_iff. split.
    + intros [(r & Hg & Hr) Hn]. split; [now exists r | exact Hn].
    + intros [(r & Hr & Hg) Hn]. split; [now exists r | exact Hn].
Qed.

(** The table of the specification, [[{x:1,y:2},{x:3,y:4}]]. *)
Lemma C3_aggregate_witness :
  let data : list Sql.row :=
    [[("x", VNum (of_Z 1)); ("y", VNum (of_Z 2))];
     [("x", VNum (of_Z 3)); ("y", VNum (of_Z 4))]] in
  (forall r, In r data -> NoDup (Object_keys r))
  /\ Sql.executeAggregateQuery "SUM" data ["x"; "y"]
     = Sql.mkResult
         [flat_map (aggregate_fields data) (Sql.getNumericColumns data)]
         Sql.AGGREGATE.
Proof.
  intros data.
  assert (Hwf : forall r, In r data -> NoDup (Object_keys r)).
  { intros r [<-|[<-|[]]]; cbn; repeat constructor; cbn; intuition discriminate. }
  split; [exact Hwf|].
  exact (proj1 (C3_aggregate_one_row "SUM" ["x"; "y"] Hwf)).
Defined.

(** AGGREGATE over [[{x:1,y:2},{x:3,y:4}]] yields one row with
    [count_x=2, sum_x=4, avg_x=2, min_x=1, max_x=3] and the same for [y]. *)
Lemma aggregate_example :
  Sql.executeAggregateQuery "SUM"
    [[("x", VNum (of_Z 1)); ("y", VNum (of_Z 2))];
     [("x", VNum (of_Z 3)); ("y", VNum (of_Z 4))]] ["x"; "y"]
  = Sql.mkResult
      [[("count_x", VNum (of_Z 2)); ("sum_x", VNum (of_Z 4));
        ("avg_x", VNum (of_Z 2)); ("min_x", VNum (of_Z 1));
        ("max_x", VNum (of_Z 3));
        ("count_y", VNum (of_Z 2)); ("sum_y", VNum (of_Z 6));
        ("avg_y", VNum (of_Z 3)); ("min_y", VNum (of_Z 2));
        ("max_y", VNum (of_Z 4))]]
      Sql.AGGREGATE.
Proof. now vm_compute. Qed.

(** C3 as the specification words it fails: in [[{x:1},{x:"3"}]] two values
    of [x] parse as finite numbers, and the row reports [count_x = 1] and
    [sum_x = 1]. *)
Lemma C3_counterexample_numeric_string :
  let data : list Sql.row := [[("x", VNum (of_Z 1))]; [("x", VStr "3")]] in
  let r := hd [] (Sql.data (Sql.executeAggregateQuery "COUNT" data ["x"])) in
  List.length (filter Spec.parses_as_finite (Sql.column_values data "x")) = 2%nat
  /\ get r "count_x" = VNum (of_nat 1)
  /\ get r "count_x" <> VNum (of_nat 2)
  /\ get r "sum_x" = VNum (of_Z 1).
Proof.
  intros data r. repeat split; now vm_compute.
Qed.

End Aggregate.

(* ================================================================== *)
(** ** FILTER                                                           *)
(* ================================================================== *)

Section Filter.

Import Number Js Props.
Local Open Scope string_scope.
Local Open Scope list_scope.

Lemma split_eq (s : string) :
  Str.split "=" s
  = before_eq s :: match after_eq s with
                   | Some rest => Str.split "=" rest
                   | None => []
                   end.
Proof.
  induction s as [|c s IH]; cbn; [reflexivity|].
  destruct (Ascii.eqb c "="); [reflexivity|].
  rewrite IH. reflexivity.
Qed.

Lemma filter_predicate_spec (clause : string) (r : Sql.row) :
  Sql.filter_predicate clause r
  = match clause_literal clause with
    | Some literal =>
        match toString_opt (get r (clause_column clause)) with
        | Some s => String.eqb s literal
        | None => false
        end
    | None => true
    end.
Proof.
  unfold Sql.filter_predicate, clause_literal, clause_column.
  rewrite split_eq. destruct (after_eq clause) as [rest|]; [|reflexivity].
  rewrite split_eq.
  destruct (Str.isEmpty (before_eq clause)), (Str.isEmpty (before_eq rest));
    reflexivity.
Qed.

(** C4 (as the code has it).  The extracted clause is cut at every [=]: the
    column is the text before the first [=], the literal the text between the
    first and the second [=] (or the end), and every quote character is
    removed from the literal.  When the clause has no [=], or the column
    text or the literal text is empty, every row is kept.  Otherwise a row is
    kept if and only if its value for the column is neither null nor
    undefined and its string equals the literal (a comparison of strings). *)
Theorem C4_filter_equality_test
  (query clause : string) (data : list Sql.row) (columns : list string) :
  Sql.extractFilterCondition query = Some clause ->
  clause <> EmptyString ->
  exists kept,
    Sql.executeFilterQuery query data columns = Sql.mkResult kept Sql.FILTER
    /\ match clause_literal clause with
       | None => kept = data
       | Some literal =>
           kept = filter (fun r =>
                            match toString_opt (get r (clause_column clause)) with
                            | Some s => String.eqb s literal
                            | None => false
                            end) data
           /\ forall r, In r kept <->
                        In r data
                        /\ toString_opt (get r (clause_column clause))
                           = Some literal
       end.
Proof.
  intros He Hne. unfold Sql.executeFilterQuery. rewrite He.
  destruct clause as [|c0 clause0]; [contradiction|]. cbn [Str.isEmpty].
  set (clause := String c0 clause0) in *.
  eexists. split; [reflexivity|].
  destruct (clause_literal clause) as [literal|] eqn:El.
  - assert (Ef : filter (Sql.filter_predicate clause) data
                 = filter (fun r =>
                             match toString_opt (get r (clause_column clause)) with
                             | Some s => String.eqb s literal
                             | None => false
                             end) data).
    { apply filter_ext. intros r. now rewrite filter_predicate_spec, El. }
    split; [exact Ef|]. intros r. rewrite Ef, filter_In.
    destruct (toString_opt (get r (clause_column clause))) as [s|].
    + rewrite String.eqb_eq. split; intros [H1 H2]; split; congruence.
    + split; intros [H1 H2]; discriminate.
  - rewrite (filter_ext (Sql.filter_predicate clause) (fun _ => true)).
    + induction data as [|r d IH]; cbn; congruence.
    + intros r. now rewrite filter_predicate_spec, El.
Qed.

(** The example of the specification: the clause [status = 'active'] on
    three rows keeps the two active ones. *)
Lemma C4_filter_witness :
  let data : list Sql.row :=
    [[("status", VStr "active")]; [("status", VStr "inactive")];
     [("status", VStr "active")]] in
  Sql.extractFilterCondition "WHERE status = 'active'" = Some "status = 'active'"
  /\ "status = 'active'" <> EmptyString
  /\ Sql.executeFilterQuery "WHERE status = 'active'" data ["status"]
     = Sql.mkResult [[("status", VStr "active")]; [("status", VStr "active")]]
                    Sql.FILTER.
Proof.
  intros data.
  assert (He : Sql.extractFilterCondition "WHERE status = 'active'"
               = Some "status = 'active'") by reflexivity.
  assert (Hn : "status = 'active'" <> EmptyString) by discriminate.
  split; [exact He|]. split; [exact Hn|].
  destruct (C4_filter_equality_test data ["status"] He Hn) as (kept & E & H).
  rewrite E. f_equal. cbn in H. now destruct H as [-> _].
Defined.

(** C4 as the specification words it fails on an empty literal: for the
    clause [status =] the rule "kept if and only if the string of the value
    equals the literal" keeps no row of [[{status:'active'}]], and the code
    keeps the row. *)
Lemma C4_counterexample_empty_literal :
  let data : list Sql.row := [[("status", VStr "active")]] in
  Sql.extractFilterCondition "WHERE status =" = Some "status ="
  /\ filter (Spec.filter_keeps "status =") data = []
  /\ Sql.executeFilterQuery "WHERE status =" data ["status"]
     = Sql.mkResult data Sql.FILTER.
Proof. intros data. repeat split. Qed.

(** It also fails on a second [=]: for [a = b=c] the text after the first
    [=] is [b=c], and the code compares with [b]. *)
Lemma filter_second_equals_sign :
  let data : list Sql.row := [[("a", VStr "b")]] in
  filter (Spec.filter_keeps "a = b=c") data = []
  /\ Sql.executeFilterQuery "WHERE a = b=c" data ["a"]
     = Sql.mkResult data Sql.FILTER.
Proof. intros data. repeat split. Qed.

(** And on a quote inside the literal, which the code removes as well. *)
Lemma filter_inner_quote :
  let data : list Sql.row := [[("name", VStr "O'Brien")]] in
  filter (Spec.filter_keeps "name = 'O'Brien'") data = data
  /\ Sql.executeFilterQuery "WHERE name = 'O'Brien'" data ["name"]
     = Sql.mkResult [] Sql.FILTER.
Proof. intros data. repeat split. Qed.

End Filter.

(* ================================================================== *)
(** ** GROUP_BY                                                         *)
(* ================================================================== *)

Section GroupBy.

Import Number Js Props.
Local Open Scope string_scope.
Local Open Scope list_scope.

Lemma number_sameValueZero_eq (x y : number) :
  Number.sameValueZero x y = true <-> x = y.
Proof.
  destruct x, y; cbn; try (split; [discriminate | congruence]);
    try (split; reflexivity).
  rewrite Z.eqb_eq. split; congruence.
Qed.

(** With one zero and one NaN, SameValueZero is equality. *)
Lemma sameValueZero_eq (a b : value) :
  sameValueZero a b = true <-> a = b.
Proof.
  destruct a, b; cbn; try (split; [discriminate | congruence]);
    try (split; reflexivity).
  - rewrite Bool.eqb_true_iff. split; congruence.
  - rewrite number_sameValueZero_eq. split; congruence.
  - rewrite String.eqb_eq. split; congruence.
Qed.

Lemma fold_left_map (A B C : Type) (f : A -> C -> A) (h : B -> C)
  (l : list B) (a : A) :
  fold_left f (map h l) a = fold_left (fun a x => f a (h x)) l a.
Proof. revert a. induction l; cbn; auto. Qed.

Lemma values_with_key_map (K X : Type) (eqb : K -> K -> bool) (kf : X -> K)
  (k : K) (l : list X) :
  values_with_key eqb k (map (fun x => (kf x, x)) l)
  = filter (fun x => eqb (kf x) k) l.
Proof.
  unfold values_with_key. induction l as [|x l IH]; cbn; [reflexivity|].
  destruct (eqb (kf x) k); cbn; now rewrite IH.
Qed.

Lemma build_groups_spec (g : string) (data : list Sql.row) :
  Sql.build_groups g data
  = map (fun k => (k, rows_of_group g data k))
        (distinct sameValueZero (map (Sql.groupValue_of g) data)).
Proof.
  unfold Sql.build_groups.
  change (fold_left (Sql.add_to_group g) data [])
    with (fold_left (fun m r => group_step sameValueZero m
                                  (Sql.groupValue_of g r, r)) data []).
  rewrite <- (fold_left_map (group_step sameValueZero)
                (fun r => (Sql.groupValue_of g r, r))).
  fold (groups_of sameValueZero
          (map (fun r => (Sql.groupValue_of g r, r)) data)).
  rewrite (groups_of_spec sameValueZero_eq), map_map. cbn [fst].
  apply map_ext. intros k.
  now rewrite values_with_key_map.
Qed.

Lemma leftmost_found (A : Type) (f : string -> option A) (s : string) (a : A) :
  Str.leftmost f s = Some a -> exists s', f s' = Some a.
Proof.
  induction s as [|c s IH]; cbn.
  - destruct (f EmptyString) eqn:E; [|discriminate]. intros H. exists EmptyString. congruence.
  - destruct (f (String c s)) eqn:E.
    + intros H. exists (String c s). congruence.
    + exact IH.
Qed.

Lemma extractGroupByColumn_nonempty (query g : string) :
  Sql.extractGroupByColumn query = Some g -> Str.isEmpty g = false.
Proof.
  intros H. apply leftmost_found in H. destruct H as (s & H).
  unfold Str.group_by_at, Str.bind in H.
  repeat match type of H with
         | match ?o with Some _ => _ | None => None end = _ =>
             destruct o; [|discriminate]
         end.
  destruct (Str.word s3); [discriminate|]. now inversion H.
Qed.

Lemma group_fields_NoDup (rows : list Sql.row) (c : string) :
  NoDup (map fst (group_fields rows c)).
Proof.
  cbn. repeat constructor; intros H; key_clash.
Qed.

Lemma group_fields_apart (rows : list Sql.row) (c c' k : string) :
  In k (map fst (group_fields rows c)) ->
  In k (map fst (group_fields rows c')) -> c = c'.
Proof.
  cbn [group_fields map fst]. intros H H'. key_clash.
Qed.

Lemma group_column_fields (rows : list Sql.row) (o : object) (c : string) :
  In c (Sql.getNumericColumns rows) ->
  Sql.group_column rows o c = fold_left set_field (group_fields rows c) o.
Proof.
  intros H. unfold Sql.group_column.
  now rewrite (numeric_column_has_values H).
Qed.

(** The row of a group when no field name clashes with the group column. *)
Lemma group_row_fields (g : string) (k : value) (rows : list Sql.row) :
  (forall r, In r rows -> NoDup (Object_keys r)) ->
  (forall c, In c (Sql.getNumericColumns rows) ->
             ~ In g (map fst (group_fields rows c))) ->
  Sql.group_row g (k, rows)
  = (g, k) :: flat_map (group_fields rows) (Sql.getNumericColumns rows).
Proof.
  intros Hwf Hg. unfold Sql.group_row.
  rewrite (fold_left_ext_in
             (g := fun o c => fold_left set_field (group_fields rows c) o)).
  - rewrite (set_columns_fresh (fields := group_fields rows)).
    + reflexivity.
    + apply group_fields_NoDup.
    + apply group_fields_apart.
    + now apply getNumericColumns_NoDup.
    + intros c key Hc Hk [H|[]]. cbn in H. subst key. now apply (Hg c).
  - intros o c Hc. now apply group_column_fields.
Qed.

Lemma distinct_from_app (K : Type) (eqb : K -> K -> bool) (l1 l2 : list K) :
  forall seen,
    distinct_from eqb seen (l1 ++ l2)
    = distinct_from eqb seen l1
      ++ distinct_from eqb (seen ++ distinct_from eqb seen l1) l2.
Proof.
  induction l1 as [|a l1 IH]; intros seen; cbn.
  - now rewrite app_nil_r.
  - destruct (existsb (eqb a) seen); [apply IH|].
    cbn. rewrite IH. now rewrite <- app_assoc.
Qed.

Lemma Map_get_map (V : Type) (f : value -> V) (keys : list value) (k : value) :
  In k keys ->
  Map_get sameValueZero (map (fun k => (k, f k)) keys) k = Some (f k).
Proof.
  induction keys as [|a keys IH]; cbn; [intros []|].
  destruct (sameValueZero a k) eqn:E.
  - apply sameValueZero_eq in E. now subst.
  - intros [->|H]; [|now apply IH].
    assert (sameValueZero k k = true) by now apply sameValueZero_eq.
    congruence.
Qed.

Lemma truthy_false_iff (v : value) :
  truthy v = false <->
  v = VUndefined \/ v = VNull \/ v = VBool false \/ v = VNum (Fin 0)
  \/ v = VNum NaN \/ v = VStr EmptyString.
Proof.
  split.
  - destruct v as [| |[|]|[| | |k]|[|c s]]; cbn; try discriminate; try tauto.
    rewrite negb_false_iff, Z.eqb_eq. intros ->. tauto.
  - intros [->|[->|[->|[->|[->| ->]]]]]; reflexivity.
Qed.

Lemma executeGroupByQuery_rows
  (query g : string) (data : list Sql.row) (columns : list string) :
  Sql.extractGroupByColumn query = Some g ->
  Array_includes columns g = true ->
  Sql.executeGroupByQuery query data columns
  = Sql.mkResult
      (map (fun k => Sql.group_row g (k, rows_of_group g data k))
           (distinct sameValueZero (map (Sql.groupValue_of g) data)))
      Sql.GROUP_BY.
Proof.
  intros He Hc. unfold Sql.executeGroupByQuery. rewrite He, Hc.
  rewrite (extractGroupByColumn_nonempty He). cbn [orb negb].
  rewrite build_groups_spec, map_map. reflexivity.
Qed.

Lemma group_keys_In (g : string) (data : list Sql.row) (k : value) :
  In k (distinct sameValueZero (map (Sql.groupValue_of g) data))
  <-> exists r, In r data /\ Sql.groupValue_of g r = k.
Proof.
  unfold distinct. rewrite (distinct_from_In sameValueZero_eq).
  rewrite in_map_iff. split.
  - intros [(r & E & Hr) _]. now exists r.
  - intros (r & Hr & E). split; [now exists r | intros []].
Qed.

(** The rows of the group "Unknown": those with a falsy value for [g], and
    those with the string "Unknown" itself. *)
Lemma unknown_group_rows (g : string) (data : list Sql.row) :
  rows_of_group g data (VStr "Unknown")
  = filter (fun r => negb (truthy (get r g))
                     || sameValueZero (get r g) (VStr "Unknown")) data.
Proof.
  unfold rows_of_group. apply filter_ext. intros r.
  unfold Sql.groupValue_of, or_else.
  destruct (truthy (get r g)); reflexivity.
Qed.

(** The rows of any other group: those with that value for [g]. *)
Lemma truthy_group_rows (g : string) (data : list Sql.row) (k : value) :
  truthy k = true -> k <> VStr "Unknown" ->
  rows_of_group g data k
  = filter (fun r => sameValueZero (get r g) k) data.
Proof.
  intros Ht Hk. unfold rows_of_group. apply filter_ext. intros r.
  unfold Sql.groupValue_of, or_else.
  destruct (truthy (get r g)) eqn:E; [reflexivity|].
  destruct (sameValueZero (VStr "Unknown") k) eqn:E1.
  { apply sameValueZero_eq in E1. now elim Hk. }
  destruct (sameValueZero (get r g) k) eqn:E2; [|reflexivity].
  apply sameValueZero_eq in E2. rewrite E2 in E. congruence.
Qed.

(** X31.  Grouping as [executeGroupByQuery] does it.  When the extracted
    group column [g] is one of the declared columns, the result has exactly
    one row per distinct group key, in the order in which the keys are first
    seen.  The key of a row is what [row[g] || 'Unknown'] gives, and keys are
    compared as the [Map] compares them, as values, without conversion to a
    string.  The row of a key is built from the rows of the table that have
    this key: when no field name clashes with [g], it is the pair [g]/key
    followed by [count_c], [sum_c], [avg_c] for every column [c] classified
    numeric on these rows. *)
Theorem X31_group_by_one_row_per_key
  (query g : string) (data : list Sql.row) (columns : list string) :
  Sql.extractGroupByColumn query = Some g ->
  Array_includes columns g = true ->
  let keys := distinct sameValueZero (map (Sql.groupValue_of g) data) in
  Sql.executeGroupByQuery query data columns
  = Sql.mkResult
      (map (fun k => Sql.group_row g (k, rows_of_group g data k)) keys)
      Sql.GROUP_BY
  /\ NoDup keys
  /\ (forall k, In k keys <->
                exists r, In r data /\ Sql.groupValue_of g r = k)
  /\ (forall d1 d2, data = d1 ++ d2 ->
        exists later,
          keys = distinct sameValueZero (map (Sql.groupValue_of g) d1) ++ later)
  /\ (forall r, Sql.groupValue_of g r
                = if truthy (get r g) then get r g else VStr "Unknown")
  /\ (forall k, In k keys -> rows_of_group g data k <> [])
  /\ (forall k,
        let rows := rows_of_group g data k in
        (forall r, In r data -> NoDup (Object_keys r)) ->
        (forall c, In c (Sql.getNumericColumns rows) ->
                   ~ In g (map fst (group_fields rows c))) ->
        Sql.group_row g (k, rows)
        = (g, k) :: flat_map (group_fields rows) (Sql.getNumericColumns rows)).
Proof.
  intros He Hc keys.
  assert (Hin : forall k, In k keys <->
                  exists r, In r data /\ Sql.groupValue_of g r = k)
    by (intros k; apply group_keys_In).
  split; [|split; [|split; [|split; [|split; [|split]]]]].
  - now apply executeGroupByQuery_rows.
  - apply (distinct_from_NoDup sameValueZero_eq).
  - exact Hin.
  - intros d1 d2 ->. unfold keys, distinct. rewrite map_app, distinct_from_app.
    eexists. reflexivity.
  - reflexivity.
  - intros k Hk E. apply Hin in Hk. destruct Hk as (r & Hr & Hg).
    assert (In r (rows_of_group g data k)) as H.
    { apply filter_In. split; [exact Hr | now apply sameValueZero_eq]. }
    rewrite E in H. destruct H.
  - intros k rows Hwf Hg. apply group_row_fields; [|exact Hg].
    intros r Hr. apply Hwf. apply filter_In in Hr. tauto.
Qed.

Lemma X31_group_by_witness :
  let data : list Sql.row :=
    [[("g", VStr "a"); ("v", VNum (of_Z 1))];
     [("g", VStr "b"); ("v", VNum (of_Z 2))];
     [("g", VStr "a"); ("v", VNum (of_Z 3))]] in
  Sql.extractGroupByColumn "GROUP BY g" = Some "g"
  /\ Array_includes ["g"; "v"] "g" = true
  /\ Sql.executeGroupByQuery "GROUP BY g" data ["g"; "v"]
     = Sql.mkResult
         (map (fun k => Sql.group_row "g" (k, rows_of_group "g" data k))
              (distinct sameValueZero (map (Sql.groupValue_of "g") data)))
         Sql.GROUP_BY.
Proof.
  intros data. split; [reflexivity|]. split; [reflexivity|].
  exact (proj1 (@X31_group_by_one_row_per_key "GROUP BY g" "g" data ["g"; "v"]
                  eq_refl eq_refl)).
Defined.

(** What the query of the witness returns. *)
Lemma group_by_example :
  Sql.executeGroupByQuery "GROUP BY g"
    [[("g", VStr "a"); ("v", VNum (of_Z 1))];
     [("g", VStr "b"); ("v", VNum (of_Z 2))];
     [("g", VStr "a"); ("v", VNum (of_Z 3))]] ["g"; "v"]
  = Sql.mkResult
      [[("g", VStr "a"); ("count_v", VNum (of_Z 2)); ("sum_v", VNum (of_Z 4));
        ("avg_v", VNum (of_Z 2))];
       [("g", VStr "b"); ("count_v", VNum (of_Z 1)); ("sum_v", VNum (of_Z 2));
        ("avg_v", VNum (of_Z 2))]]
      Sql.GROUP_BY.
Proof. now vm_compute. Qed.

(** C6.  The code on the table [[{g:0},{}]] grouped by [g], a declared
    column.  The strings of the values of [g] are "0" and, for the row that
    has no value, "Unknown": two distinct ones, for which the specification
    asks two result rows, "0" first.  [executeQuery] sends the query to
    [executeGroupByQuery], and the result has a single row, the group
    "Unknown" made of both rows: [row[g] || 'Unknown'] replaces the number 0
    as it replaces a missing value. *)
Theorem C6_group_by_zero_joins_unknown :
  let data : list Sql.row := [[("g", VNum (of_Z 0))]; []] in
  Sql.extractGroupByColumn "GROUP BY g" = Some "g"
  /\ Array_includes ["g"] "g" = true
  /\ distinct String.eqb (map (Spec.group_label "g") data) = ["0"; "Unknown"]
  /\ Sql.executeQuery "GROUP BY g" data ["g"]
     = Sql.executeGroupByQuery "GROUP BY g" data ["g"]
  /\ Sql.executeGroupByQuery "GROUP BY g" data ["g"]
     = Sql.mkResult
         [[("g", VStr "Unknown"); ("count_g", VNum (of_Z 1));
           ("sum_g", VNum (of_Z 0)); ("avg_g", VNum (of_Z 0))]]
         Sql.GROUP_BY.
Proof. intros data. repeat split; now vm_compute. Qed.

(** Keys are compared as values: the number 1 and the string "1", which have
    the same string, make two groups. *)
Lemma group_by_number_and_string_apart :
  let data : list Sql.row := [[("g", VNum (of_Z 1))]; [("g", VStr "1")]] in
  List.length (distinct String.eqb (map (Spec.group_label "g") data)) = 1%nat
  /\ List.length (Sql.data (Sql.executeGroupByQuery "GROUP BY g" data ["g"]))
     = 2%nat.
Proof. intros data. split; now vm_compute. Qed.

(** C10.  When the extracted group column [g] is declared, a row whose
    value for [g] is falsy (undefined or missing, null, false, 0, NaN or the
    empty string) goes to the group "Unknown".  The result of
    [executeGroupByQuery] has exactly one row for that group, built from all
    the rows of the table whose value is falsy or is the string "Unknown"
    itself, so that a row with the value 0 and a row without a value are
    merged into the same result row; every other result row is built from
    the rows that hold one truthy value other than "Unknown".  When no field
    name clashes with [g], the row of the group starts with the pair
    [g]/"Unknown", followed by the counts, sums and averages over the merged
    rows. *)
Theorem C10_falsy_group_value_is_unknown
  (query g : string) (data : list Sql.row) (columns : list string)
  (r : Sql.row) :
  Sql.extractGroupByColumn query = Some g ->
  Array_includes columns g = true ->
  In r data ->
  truthy (get r g) = false ->
  let result := Sql.executeGroupByQuery query data columns in
  let falsy (v : value) :=
    v = VUndefined \/ v = VNull \/ v = VBool false \/ v = VNum (Fin 0)
    \/ v = VNum NaN \/ v = VStr EmptyString in
  let unknown :=
    filter (fun r' => negb (truthy (get r' g))
                      || sameValueZero (get r' g) (VStr "Unknown")) data in
  falsy (get r g)
  /\ Sql.groupValue_of g r = VStr "Unknown"
  /\ In r unknown
  /\ (forall r', In r' unknown <->
                 In r' data /\ (falsy (get r' g) \/ get r' g = VStr "Unknown"))
  /\ Sql.queryType result = Sql.GROUP_BY
  /\ (exists before after,
        Sql.data result
        = before ++ Sql.group_row g (VStr "Unknown", unknown) :: after
        /\ forall row, In row (before ++ after) ->
             exists k,
               truthy k = true /\ k <> VStr "Unknown"
               /\ row = Sql.group_row g
                          (k, filter (fun r' => sameValueZero (get r' g) k) data))
  /\ ((forall r', In r' data -> NoDup (Object_keys r')) ->
      (forall c, In c (Sql.getNumericColumns unknown) ->
                 ~ In g (map fst (group_fields unknown c))) ->
      Sql.group_row g (VStr "Unknown", unknown)
      = (g, VStr "Unknown")
        :: flat_map (group_fields unknown) (Sql.getNumericColumns unknown)).
Proof.
  intros He Hc Hr Hf. cbv zeta.
  set (unknown := filter (fun r' => negb (truthy (get r' g))
                                    || sameValueZero (get r' g) (VStr "Unknown"))
                         data).
  assert (Hu : Sql.groupValue_of g r = VStr "Unknown").
  { unfold Sql.groupValue_of, or_else. now rewrite Hf. }
  assert (Hin : forall r', In r' unknown <->
                  In r' data
                  /\ ((get r' g = VUndefined \/ get r' g = VNull
                       \/ get r' g = VBool false \/ get r' g = VNum (Fin 0)
                       \/ get r' g = VNum NaN \/ get r' g = VStr EmptyString)
                      \/ get r' g = VStr "Unknown")).
  { intros r'. unfold unknown. rewrite filter_In, orb_true_iff, negb_true_iff.
    now rewrite truthy_false_iff, sameValueZero_eq. }
  split; [now apply truthy_false_iff|]. split; [exact Hu|].
  split; [apply Hin; split; [exact Hr | left; now apply truthy_false_iff]|].
  split; [exact Hin|].
  rewrite (executeGroupByQuery_rows data He Hc). cbn [Sql.queryType Sql.data].
  split; [reflexivity|]. split.
  - set (keys := distinct sameValueZero (map (Sql.groupValue_of g) data)).
    assert (Hk : In (VStr "Unknown") keys)
      by (apply group_keys_In; now exists r).
    assert (Hnd : NoDup keys) by apply (distinct_from_NoDup sameValueZero_eq).
    assert (Hkeys : forall k, In k keys ->
                      exists r', In r' data /\ Sql.groupValue_of g r' = k)
      by (intros k; apply group_keys_In).
    destruct (in_split _ _ Hk) as (k1 & k2 & E).
    rewrite E in Hnd |- *. clearbody keys. subst keys.
    exists (map (fun k => Sql.group_row g (k, rows_of_group g data k)) k1),
           (map (fun k => Sql.group_row g (k, rows_of_group g data k)) k2).
    split.
    + rewrite map_app. cbn [map]. now rewrite unknown_group_rows.
    + intros row Hrow. rewrite <- map_app in Hrow.
      apply in_map_iff in Hrow. destruct Hrow as (k & <- & Hin').
      assert (Hne : k <> VStr "Unknown").
      { intros ->. apply NoDup_remove_2 in Hnd. now apply Hnd. }
      assert (Ht : truthy k = true).
      { destruct (Hkeys k) as (r' & _ & Hg).
        - apply in_app_iff in Hin'. apply in_app_iff.
          destruct Hin' as [H|H]; [now left | right; now right].
        - unfold Sql.groupValue_of, or_else in Hg.
          destruct (truthy (get r' g)) eqn:Et; [now rewrite <- Hg|].
          now elim Hne. }
      exists k. split; [exact Ht|]. split; [exact Hne|].
      now rewrite truthy_group_rows.
  - intros Hwf Hg. apply group_row_fields; [|exact Hg].
    intros r' Hr'. apply Hwf. apply filter_In in Hr'. tauto.
Qed.

Lemma C10_falsy_witness :
  let r0 : Sql.row := [("g", VNum (Fin 0)); ("v", VNum (of_Z 1))] in
  let r1 : Sql.row := [("v", VNum (of_Z 3))] in
  Sql.extractGroupByColumn "GROUP BY g" = Some "g"
  /\ Array_includes ["g"; "v"] "g" = true
  /\ In r0 [r0; r1]
  /\ truthy (get r0 "g") = false
  /\ exists before after,
       Sql.data (Sql.executeGroupByQuery "GROUP BY g" [r0; r1] ["g"; "v"])
       = before ++ Sql.group_row "g" (VStr "Unknown", [r0; r1]) :: after.
Proof.
  intros r0 r1.
  assert (H0 : In r0 [r0; r1]) by now left.
  split; [reflexivity|]. split; [reflexivity|]. split; [exact H0|].
  split; [reflexivity|].
  destruct (@C10_falsy_group_value_is_unknown "GROUP BY g" "g" [r0; r1]
              ["g"; "v"] r0 eq_refl eq_refl H0 eq_refl)
    as (_ & _ & _ & _ & _ & (before & after & E & _) & _).
  exists before, after. exact E.
Defined.

(** What the query of the witness returns: one row, for both rows of the
    table. *)
Lemma group_by_falsy_example :
  Sql.executeGroupByQuery "GROUP BY g"
    [[("g", VNum (Fin 0)); ("v", VNum (of_Z 1))]; [("v", VNum (of_Z 3))]]
    ["g"; "v"]
  = Sql.mkResult
      [[("g", VStr "Unknown");
        ("count_g", VNum (of_Z 1)); ("sum_g", VNum (of_Z 0));
        ("avg_g", VNum (of_Z 0));
        ("count_v", VNum (of_Z 2)); ("sum_v", VNum (of_Z 4));
        ("avg_v", VNum (of_Z 2))]]
      Sql.GROUP_BY.
Proof. now vm_compute. Qed.

End GroupBy.

(* ================================================================== *)
(** ** Rounding                                                         *)
(* ================================================================== *)

Section Rounding.

Import Number.
Local Open Scope Z_scope.

Lemma overflow_ulps_pos : 0 < overflow_ulps.
Proof. unfold overflow_ulps. apply Z.pow_pos_nonneg; lia. Qed.

Lemma one_ulps_pos : 0 < one_ulps.
Proof. unfold one_ulps. apply Z.pow_pos_nonneg; lia. Qed.

(** [rne] in terms of the quotient and the remainder. *)
Lemma rne_div_mod (a b : Z) :
  rne a b = match 2 * (a mod b) ?= b with
            | Lt => a / b
            | Gt => a / b + 1
            | Eq => if Z.even (a / b) then a / b else a / b + 1
            end.
Proof.
  unfold rne, Z.div, Z.modulo. now destruct (Z.div_eucl a b).
Qed.

(** The rounded quotient is the floor or the floor plus one. *)
Lemma rne_bounds (a b : Z) : a / b <= rne a b <= a / b + 1.
Proof.
  rewrite rne_div_mod. destruct (2 * (a mod b) ?= b); [destruct (Z.even (a / b))| |]; lia.
Qed.

Lemma rne_exact (q b : Z) : 0 < b -> rne (q * b) b = q.
Proof.
  intros Hb. rewrite rne_div_mod. rewrite Z.mod_mul, Z.div_mul by lia.
  change (2 * 0) with 0. now rewrite (proj2 (Z.compare_lt_iff 0 b) Hb).
Qed.

(** The spacing chosen by [round64] does not exceed the magnitude. *)
Lemma spacing_le (c : Z) :
  0 < c -> 0 < 2 ^ Z.max 0 (Z.log2 c - 52) <= c.
Proof.
  intros Hc. split; [apply Z.pow_pos_nonneg; lia|].
  pose proof (Z.log2_spec c Hc) as [Hl _].
  pose proof (Z.log2_nonneg c) as Hn.
  apply Z.le_trans with (2 ^ Z.log2 c); [|exact Hl].
  apply Z.pow_le_mono_r; lia.
Qed.

(** Rounding keeps the sign: a positive difference stays positive. *)
Lemma round64_gt_zero (c : Z) :
  ltb (Fin 0) (round64 c 1) = (0 <? c).
Proof.
  unfold round64. rewrite Z.div_1_r, Z.mul_1_l.
  set (m := 2 ^ Z.max 0 (Z.log2 (Z.abs c) - 52)).
  pose proof overflow_ulps_pos as Ho.
  pose proof (rne_bounds c m) as Hb.
  destruct (Z.ltb_spec 0 c) as [Hc|Hc].
  - assert (Hm : 0 < m <= c).
    { unfold m. rewrite Z.abs_eq by lia. now apply spacing_le. }
    assert (1 <= c / m) by (apply Z.div_le_lower_bound; lia).
    assert (0 < rne c m * m) by nia.
    destruct (overflow_ulps <=? Z.abs (rne c m * m)).
    + destruct (Z.ltb_spec (rne c m * m) 0); [lia | reflexivity].
    + cbn. now apply Z.ltb_lt.
  - assert (Hm : 0 < m) by (unfold m; apply Z.pow_pos_nonneg; lia).
    assert (rne c m * m <= 0).
    { destruct (Z.eq_dec c 0) as [->|Hne].
      - rewrite Z.div_0_l in Hb by lia.
        assert (E : rne 0 m = 0) by (apply (rne_exact 0 Hm)). rewrite E. lia.
      - assert (c / m < 0) by (apply Z.div_lt_upper_bound; lia). nia. }
    destruct (Z.leb_spec overflow_ulps (Z.abs (rne c m * m))).
    + destruct (Z.ltb_spec (rne c m * m) 0); [reflexivity | lia].
    + cbn. apply Z.ltb_ge. lia.
Qed.

Lemma round64_zero (b : Z) : 0 < b -> round64 0 b = Fin 0.
Proof.
  intros Hb. unfold round64. cbn [Z.abs]. rewrite Z.div_0_l by lia.
  change (Z.log2 0) with 0. change (Z.max 0 (0 - 52)) with 0.
  change (2 ^ 0) with 1. rewrite !Z.mul_1_r.
  replace (rne 0 b) with 0 by (symmetry; apply (rne_exact 0 Hb)).
  cbn [Z.mul Z.abs]. pose proof overflow_ulps_pos.
  destruct (Z.leb_spec overflow_ulps 0); [lia | reflexivity].
Qed.

(** A multiple of [2^e] with a significand below [2^53] is a binary64
    number: rounding leaves it as it is. *)
Lemma round64_exact (m e : Z) :
  0 <= e -> Z.abs m < 2 ^ 53 -> Z.abs m * 2 ^ e < overflow_ulps ->
  round64 (m * 2 ^ e) 1 = Fin (m * 2 ^ e).
Proof.
  intros He Hm Ho.
  destruct (Z.eq_dec m 0) as [->|Hne].
  { rewrite Z.mul_0_l. apply round64_zero. lia. }
  unfold round64. rewrite Z.div_1_r, Z.mul_1_l.
  assert (Hp : 0 < 2 ^ e) by (apply Z.pow_pos_nonneg; lia).
  rewrite (Z.abs_mul m (2 ^ e)), (Z.abs_eq (2 ^ e)) by lia.
  rewrite Z.log2_mul_pow2 by lia.
  assert (Hl : Z.log2 (Z.abs m) < 53) by (apply Z.log2_lt_pow2; lia).
  pose proof (Z.log2_nonneg (Z.abs m)) as Hl0.
  set (d := Z.max 0 (e + Z.log2 (Z.abs m) - 52)).
  assert (Hd : 0 <= d <= e) by (unfold d; lia).
  assert (E : m * 2 ^ e = m * 2 ^ (e - d) * 2 ^ d).
  { rewrite <- Z.mul_assoc, <- Z.pow_add_r by lia. do 2 f_equal. lia. }
  assert (Er : rne (m * 2 ^ e) (2 ^ d) * 2 ^ d = m * 2 ^ e).
  { rewrite E at 1. rewrite rne_exact by (apply Z.pow_pos_nonneg; lia).
    now rewrite <- E. }
  rewrite !Er.
  rewrite (Z.abs_mul m (2 ^ e)), (Z.abs_eq (2 ^ e)) by lia.
  destruct (Z.leb_spec overflow_ulps (Z.abs m * 2 ^ e)); [lia | reflexivity].
Qed.


Lemma of_Z_zero : of_Z 0 = Fin 0.
Proof. unfold of_Z. rewrite Z.mul_0_l. apply round64_zero. lia. Qed.


Lemma small_below_overflow (m : Z) :
  0 <= m < 2 ^ 53 -> m * 2 ^ 1074 < overflow_ulps.
Proof.
  intros Hm. apply Z.lt_le_trans with (2 ^ 53 * 2 ^ 1074).
  - apply Z.mul_lt_mono_pos_r; [apply Z.pow_pos_nonneg|]; lia.
  - now vm_compute.
Qed.




Lemma to_index_integer (q : Z) :
  0 <= q -> to_index (Fin (q * one_ulps)) = Some (Z.to_nat q).
Proof.
  intros Hq. pose proof one_ulps_pos as Ho. unfold to_index.
  rewrite Z.mod_mul, Z.div_mul by lia.
  assert (E : (0 <=? q * one_ulps) = true) by (apply Z.leb_le; nia).
  now rewrite E.
Qed.

(** *** The order on numbers *)


Lemma ltb_false_leb (x y : number) :
  isNaN x = false -> isNaN y = false -> ltb y x = false -> leb x y = true.
Proof.
  destruct x as [| | |a], y as [| | |b]; cbn; try discriminate; try reflexivity.
  intros _ _ H. apply Z.ltb_ge in H. now apply Z.leb_le.
Qed.

Lemma ltb_leb (x y : number) : ltb x y = true -> leb x y = true.
Proof.
  destruct x as [| | |a], y as [| | |b]; cbn; try discriminate; try reflexivity.
  intros H. apply Z.ltb_lt in H. apply Z.leb_le. lia.
Qed.

Lemma leb_refl (x : number) : isNaN x = false -> leb x x = true.
Proof. destruct x; cbn; try discriminate; try reflexivity. intros _. apply Z.leb_refl. Qed.

Lemma leb_trans (x y z : number) :
  leb x y = true -> leb y z = true -> leb x z = true.
Proof.
  destruct x as [| | |a], y as [| | |b], z as [| | |c]; cbn;
    try discriminate; try reflexivity.
  rewrite !Z.leb_le. lia.
Qed.

End Rounding.

(* ================================================================== *)
(** ** The chart aggregator: groups of y values                         *)
(* ================================================================== *)

Section ChartGroups.

Import Number Js Props.
Local Open Scope string_scope.
Local Open Scope list_scope.

Variables (data : list Viz.row) (xAxis yAxis : string).

Lemma fold_left_flat_map (A B C : Type) (f : A -> C -> A) (h : B -> list C)
  (l : list B) (a : A) :
  fold_left f (flat_map h l) a = fold_left (fun a x => fold_left f (h x) a) l a.
Proof.
  revert a. induction l as [|x l IH]; intros a; cbn; [reflexivity|].
  now rewrite fold_left_app, IH.
Qed.

Lemma group_y_items :
  Viz.group_y data xAxis yAxis = groups_of String.eqb (y_items data xAxis yAxis).
Proof.
  unfold Viz.group_y, groups_of, y_items. rewrite fold_left_flat_map.
  apply fold_left_ext_in. intros m r _. unfold Viz.collect_y.
  now destruct (negb (isNaN (parseFloat (get r yAxis)))).
Qed.

Lemma values_with_key_y_items (x : string) :
  values_with_key String.eqb x (y_items data xAxis yAxis)
  = y_values_of data xAxis yAxis x.
Proof.
  unfold values_with_key, y_items, y_values_of.
  induction data as [|r d IH]; cbn; [reflexivity|].
  rewrite filter_app, map_app, IH.
  destruct (String.eqb (Viz.x_label r xAxis) x) eqn:Ex; cbn;
    destruct (isNaN (parseFloat (get r yAxis))) eqn:En; cbn;
    rewrite ?Ex; reflexivity.
Qed.

(** The groups of the chart aggregator: one per distinct label, in the order
    in which the labels are first seen among the rows whose y parses, each
    with the parsed y values of its rows in the order of the table. *)
Lemma group_y_spec :
  Viz.group_y data xAxis yAxis
  = map (fun x => (x, y_values_of data xAxis yAxis x))
        (distinct String.eqb (map fst (y_items data xAxis yAxis))).
Proof.
  rewrite group_y_items, (groups_of_spec String.eqb_eq).
  apply map_ext. intros x. now rewrite values_with_key_y_items.
Qed.



Lemma y_values_nonempty (x : string) :
  In x (map fst (y_items data xAxis yAxis)) ->
  y_values_of data xAxis yAxis x <> [].
Proof.
  rewrite <- values_with_key_y_items. unfold values_with_key.
  intros H E. apply in_map_iff in H. destruct H as ([k v] & <- & Hin).
  assert (In v (map snd (filter (fun kx => String.eqb (fst kx) k)
                                (y_items data xAxis yAxis)))) as H.
  { apply in_map_iff. exists (k, v). split; [reflexivity|].
    apply filter_In. split; [exact Hin | apply String.eqb_refl]. }
  cbn [fst] in E. rewrite E in H. destruct H.
Qed.

End ChartGroups.

(* ================================================================== *)
(** ** The box plot                                                     *)
(* ================================================================== *)

Section BoxPlot.

Import Number Js Props.
Local Open Scope string_scope.
Local Open Scope list_scope.












End BoxPlot.

(* ================================================================== *)
(** ** The histogram                                                    *)
(* ================================================================== *)

Section Histogram.

Import Number Js Props.
Local Open Scope string_scope.
Local Open Scope list_scope.
Local Open Scope Z_scope.

Lemma of_Z_small (z : Z) :
  0 <= z < 2 ^ 53 -> of_Z z = Fin (z * one_ulps).
Proof.
  intros Hz. unfold of_Z, one_ulps. apply round64_exact; try lia.
  rewrite Z.abs_eq by lia. now apply small_below_overflow.
Qed.

Lemma of_nat_positive (n : nat) : (0 < n)%nat -> positive (of_nat n).
Proof.
  intros Hn. unfold positive, of_nat, of_Z. rewrite round64_gt_zero.
  apply Z.ltb_lt. pose proof one_ulps_pos. nia.
Qed.

Lemma sqrt_ulps_large (k : Z) :
  0 < k -> 2 ^ 537 <= Z.sqrt (k * one_ulps).
Proof.
  intros Hk. replace (2 ^ 537) with (Z.sqrt one_ulps) by now vm_compute.
  apply Z.sqrt_le_mono. pose proof one_ulps_pos. nia.
Qed.

Lemma Math_sqrt_positive (x : number) : positive x -> positive (Math_sqrt x).
Proof.
  unfold positive. destruct x as [| | |k]; try discriminate; [reflexivity|].
  cbn [ltb]. intros Hk. apply Z.ltb_lt in Hk. unfold Math_sqrt.
  destruct (Z.ltb_spec k 0); [lia|]. destruct (Z.eqb_spec k 0); [lia|].
  cbv zeta. set (s := Z.sqrt (k * one_ulps)).
  pose proof (sqrt_ulps_large Hk) as Hs. fold s in Hs.
  assert (Hs0 : 0 < s) by (pose proof (Z.pow_pos_nonneg 2 537); lia).
  assert (Hl : 537 <= Z.log2 s).
  { rewrite <- (Z.log2_pow2 537) by lia. now apply Z.log2_le_mono. }
  set (d := Z.log2 s - 52).
  assert (Hd : 0 < 2 ^ d <= s).
  { split; [apply Z.pow_pos_nonneg; unfold d; lia|].
    apply Z.le_trans with (2 ^ Z.log2 s); [|apply Z.log2_spec; lia].
    apply Z.pow_le_mono_r; unfold d; lia. }
  assert (Hf : 1 <= s / 2 ^ d) by (apply Z.div_le_lower_bound; lia).
  cbn [ltb]. apply Z.ltb_lt.
  destruct (k * one_ulps ?= _); [destruct (Z.even (s / 2 ^ d))| |]; nia.
Qed.

(** The ceiling of a positive number is a positive integer or the
    infinity. *)
Lemma Math_ceil_positive (x : number) :
  positive x ->
  Math_ceil x = PInf \/ exists q, 1 <= q /\ Math_ceil x = Fin (q * one_ulps).
Proof.
  unfold positive. destruct x as [| | |k]; try discriminate; [now left|].
  cbn [ltb]. intros Hk. apply Z.ltb_lt in Hk. right.
  exists (- (- k / one_ulps)). split; [|reflexivity].
  pose proof one_ulps_pos.
  assert (- k / one_ulps < 0) by (apply Z.div_lt_upper_bound; lia). lia.
Qed.

(** [binCount] is an integer from 1 to 10. *)
Lemma binCount_is_length (n : nat) :
  (0 < n)%nat ->
  exists c, 1 <= c <= 10
            /\ min2 (of_Z 10) (Math_ceil (Math_sqrt (of_nat n)))
               = Fin (c * one_ulps).
Proof.
  intros Hn. rewrite of_Z_small by (split; [lia | now vm_compute]).
  pose proof one_ulps_pos as Ho.
  destruct (Math_ceil_positive (Math_sqrt_positive (of_nat_positive Hn)))
    as [->|(q & Hq & ->)].
  - exists 10. split; [lia | reflexivity].
  - unfold min2, ltb. destruct (Z.ltb_spec (q * one_ulps) (10 * one_ulps)).
    + exists q. split; [nia | reflexivity].
    + exists 10. split; [lia | reflexivity].
Qed.

Lemma to_index_le (a q : Z) (i : nat) :
  a <= q * one_ulps -> to_index (Fin a) = Some i -> (i <= Z.to_nat q)%nat.
Proof.
  intros Ha. unfold to_index. pose proof one_ulps_pos as Ho.
  destruct (Z.leb_spec 0 a) as [Hpos|Hneg]; cbn [andb]; [|discriminate].
  destruct (a mod one_ulps =? 0); [|discriminate].
  intros E. inversion E; subst i.
  assert (0 <= a / one_ulps) by (apply Z.div_pos; lia).
  assert (a / one_ulps <= q) by (apply Z.div_le_upper_bound; lia).
  lia.
Qed.

Lemma binCount_minus_one (c : Z) :
  1 <= c <= 10 ->
  sub (Fin (c * one_ulps)) (of_Z 1) = Fin ((c - 1) * one_ulps).
Proof.
  intros Hc. rewrite of_Z_small by (split; [lia | now vm_compute]).
  unfold sub. cbn [neg add].
  replace (c * one_ulps + - (1 * one_ulps)) with ((c - 1) * 2 ^ 1074)
    by (unfold one_ulps; ring).
  unfold one_ulps. apply round64_exact; try lia.
  rewrite Z.abs_eq by lia. apply small_below_overflow. lia.
Qed.

(** The clamp keeps the index of a bin inside the array: an index at or past
    [binCount] is never written. *)
Lemma binIndex_below_binCount (min binSize value : number) (c : Z) (i : nat) :
  1 <= c <= 10 ->
  to_index (Viz.binIndex_of min binSize (Fin (c * one_ulps)) value) = Some i ->
  (i < List.length (Viz.Array_fill_zero (Fin (c * one_ulps))))%nat.
Proof.
  intros Hc. unfold Viz.binIndex_of, Viz.Array_fill_zero.
  rewrite binCount_minus_one by exact Hc.
  rewrite to_index_integer, repeat_length by lia.
  set (x := Math_floor (div (sub value min) binSize)).
  pose proof one_ulps_pos as Ho.
  assert (Hlast : forall a, a <= (c - 1) * one_ulps ->
                    to_index (Fin a) = Some i -> (i < Z.to_nat c)%nat).
  { intros a Ha H. apply (to_index_le Ha) in H. lia. }
  destruct x as [| | |a]; cbn [min2 ltb]; try discriminate.
  - apply Hlast. lia.
  - destruct (Z.ltb_spec ((c - 1) * one_ulps) a); apply Hlast; lia.
Qed.

Lemma fold_min_constant (v : number) (l : list number) :
  isNaN v = false -> Forall (fun x => x = v) l -> fold_left min2 l v = v.
Proof.
  intros Hv H. induction H as [|x l -> _ IH]; cbn [fold_left]; [reflexivity|].
  replace (min2 v v) with v; [exact IH|].
  destruct v as [| | |k]; try discriminate; try reflexivity.
  cbn. now rewrite Z.ltb_irrefl.
Qed.

Lemma fold_max_constant (v : number) (l : list number) :
  isNaN v = false -> Forall (fun x => x = v) l -> fold_left max2 l v = v.
Proof.
  intros Hv H. induction H as [|x l -> _ IH]; cbn [fold_left]; [reflexivity|].
  replace (max2 v v) with v; [exact IH|].
  destruct v as [| | |k]; try discriminate; try reflexivity.
  cbn. now rewrite Z.ltb_irrefl.
Qed.

Lemma bins_to_points_counts (min binSize : number) (bins : list number) :
  forall from, map Viz.bin_y (Viz.bins_to_points min binSize from bins) = bins.
Proof.
  induction bins as [|b bins IH]; intros from; cbn; [reflexivity|].
  now rewrite IH.
Qed.

(** The degenerate histogram.  When all the parseable values are one and the
    same finite number, the bin width is 0, the quotient [0 / 0] is NaN, the
    clamp [Math.min(NaN, binCount - 1)] is NaN as well, and the increment
    touches no bin: every count of the series is 0. *)
Lemma histogram_of_equal_values (data : list Viz.row) (xAxis : string) (k : Z) :
  Viz.parsed_values data xAxis <> [] ->
  Forall (fun v => v = Fin k) (Viz.parsed_values data xAxis) ->
  exists c,
    1 <= c <= 10
    /\ map Viz.bin_y (Viz.processHistogramData data xAxis)
       = repeat (of_Z 0) (Z.to_nat c).
Proof.
  intros Hne Hall. unfold Viz.processHistogramData.
  remember (Viz.parsed_values data xAxis) as values eqn:Ev. clear Ev.
  destruct values as [|v0 rest]; [now elim Hne|].
  set (values := v0 :: rest) in *.
  assert (Hlen : (0 < List.length values)%nat) by (cbn; lia).
  destruct (binCount_is_length Hlen) as (c & Hc & ->).
  exists c. split; [exact Hc|].
  assert (Emin : Math_min values = Fin k).
  { unfold Math_min, values in *. inversion Hall; subst. cbn [fold_left].
    change (min2 PInf (Fin k)) with (Fin k).
    apply fold_min_constant; [reflexivity | assumption]. }
  assert (Emax : Math_max values = Fin k).
  { unfold Math_max, values in *. inversion Hall; subst. cbn [fold_left].
    change (max2 NInf (Fin k)) with (Fin k).
    apply fold_max_constant; [reflexivity | assumption]. }
  rewrite Emin, Emax.
  assert (Ezero : sub (Fin k) (Fin k) = Fin 0).
  { unfold sub. cbn [neg add]. rewrite Z.add_opp_diag_r.
    apply round64_zero. lia. }
  pose proof one_ulps_pos as Ho.
  assert (Esize : div (sub (Fin k) (Fin k)) (Fin (c * one_ulps)) = Fin 0).
  { rewrite Ezero. unfold div.
    destruct (Z.eqb_spec (c * one_ulps) 0); [nia|].
    rewrite Z.mul_0_r, Z.mul_0_l. apply round64_zero. nia. }
  rewrite Esize, bins_to_points_counts.
  assert (Efold : forall bins,
            fold_left (fun bins value =>
                         Viz.increment_bin bins
                           (Viz.binIndex_of (Fin k) (Fin 0) (Fin (c * one_ulps))
                              value))
                      values bins = bins).
  { clear Hlen Emin Emax Hne. clearbody values. induction Hall as [|x l -> _ IH]; intros bins;
      cbn [fold_left]; [reflexivity|].
    unfold Viz.binIndex_of at 2. rewrite Ezero.
    change (div (Fin 0) (Fin 0)) with NaN. cbn [Math_floor min2].
    unfold Viz.increment_bin at 2. cbn [to_index]. apply IH. }
  rewrite Efold. unfold Viz.Array_fill_zero.
  now rewrite to_index_integer by lia.
Qed.

(** C1 does not hold of the code.  In the table [[{x:5}]] one value parses
    as a finite number; the series has one bin, centred on 5, and its count
    is 0 where the property asks for 1. *)
Theorem C1_histogram_single_value_is_not_counted :
  let data : list Viz.row := [[("x", VNum (of_Z 5))]] in
  Viz.parsed_values data "x" = [of_Z 5]
  /\ Viz.processHistogramData data "x" = [Viz.mkBin (of_Z 5) (of_Z 0)].
Proof. intros data. split; now vm_compute. Qed.

(** Three equal values: two bins, both empty. *)
Lemma histogram_three_equal_values :
  let r : Viz.row := [("x", VStr "5")] in
  Viz.processHistogramData [r; r; r] "x"
  = [Viz.mkBin (of_Z 5) (of_Z 0); Viz.mkBin (of_Z 5) (of_Z 0)].
Proof. intros r. now vm_compute. Qed.

(** The example of the specification: the values 1 to 10 fall in 4 bins of
    width 2.25 with the counts 3, 2, 2, 3, ten in all. *)
Lemma histogram_one_to_ten :
  Viz.processHistogramData
    (map (fun z => [("x", VNum (of_Z z))]) [1; 2; 3; 4; 5; 6; 7; 8; 9; 10]) "x"
  = [Viz.mkBin (of_ratio 17 8) (of_Z 3); Viz.mkBin (of_ratio 35 8) (of_Z 2);
     Viz.mkBin (of_ratio 53 8) (of_Z 2); Viz.mkBin (of_ratio 71 8) (of_Z 3)].
Proof. now vm_compute. Qed.

(** No value parses: the series is empty. *)
Lemma histogram_without_values (data : list Viz.row) (xAxis : string) :
  Viz.parsed_values data xAxis = [] -> Viz.processHistogramData data xAxis = [].
Proof. unfold Viz.processHistogramData. now intros ->. Qed.

End Histogram.

Section HistogramCounts.

Import Number Js Props.
Local Open Scope string_scope.
Local Open Scope list_scope.
Local Open Scope Z_scope.

(** A quotient of a non-negative numerator rounds to a non-negative number
    or overflows. *)
Lemma round64_nonneg (a b : Z) :
  0 <= a -> 0 < b ->
  round64 a b = PInf \/ exists k, 0 <= k /\ round64 a b = Fin k.
Proof.
  intros Ha Hb. unfold round64.
  set (d := Z.max 0 (Z.log2 (Z.abs a / b) - 52)).
  assert (Hd : 0 < b * 2 ^ d).
  { apply Z.mul_pos_pos; [lia | apply Z.pow_pos_nonneg; unfold d; lia]. }
  pose proof (rne_bounds a (b * 2 ^ d)) as Hr.
  assert (0 <= a / (b * 2 ^ d)) by (apply Z.div_pos; lia).
  assert (0 <= rne a (b * 2 ^ d) * 2 ^ d).
  { apply Z.mul_nonneg_nonneg; [lia | apply Z.pow_nonneg; lia]. }
  destruct (overflow_ulps <=? _).
  - destruct (Z.ltb_spec (rne a (b * 2 ^ d) * 2 ^ d) 0); [lia | now left].
  - right. eexists. split; [eassumption | reflexivity].
Qed.

Lemma fold_min_finite (l : list number) :
  forall m, Forall (fun v => isFinite v = true) l ->
    exists mn, fold_left min2 l (Fin m) = Fin mn
               /\ mn <= m /\ forall a, In (Fin a) l -> mn <= a.
Proof.
  induction l as [|v l IH]; intros m Hl; cbn [fold_left].
  - exists m. split; [reflexivity|]. split; [lia | intros a []].
  - inversion Hl as [|? ? Hv Hl']; subst.
    destruct v as [| | |a]; try discriminate Hv.
    cbn [min2 ltb]. destruct (Z.ltb_spec a m).
    + destruct (IH a Hl') as (mn & E & H1 & H2). exists mn.
      split; [exact E|]. split; [lia|]. intros a' [Ha|Ha].
      * inversion Ha; subst. lia.
      * now apply H2.
    + destruct (IH m Hl') as (mn & E & H1 & H2). exists mn.
      split; [exact E|]. split; [lia|]. intros a' [Ha|Ha].
      * inversion Ha; subst. lia.
      * now apply H2.
Qed.

Lemma Math_min_finite (l : list number) :
  l <> [] -> Forall (fun v => isFinite v = true) l ->
  exists mn, Math_min l = Fin mn /\ forall a, In (Fin a) l -> mn <= a.
Proof.
  intros Hne Hl. destruct l as [|v l]; [now elim Hne|].
  inversion Hl as [|? ? Hv Hl']; subst. destruct v as [| | |a]; try discriminate Hv.
  unfold Math_min. cbn [fold_left]. change (min2 PInf (Fin a)) with (Fin a).
  destruct (fold_min_finite a Hl') as (mn & E & H1 & H2).
  exists mn. split; [exact E|]. intros a' [Ha|Ha].
  - inversion Ha; subst. lia.
  - now apply H2.
Qed.

(** With a positive finite bin width, the index of a finite value that is
    not below the minimum is an integer from 0 to [binCount - 1]. *)
Lemma binIndex_is_a_bin (mn b c a : Z) :
  0 < b -> 1 <= c <= 10 -> mn <= a ->
  exists j, 0 <= j < c
            /\ Viz.binIndex_of (Fin mn) (Fin b) (integer c) (Fin a) = integer j.
Proof.
  intros Hb Hc Ha. unfold Viz.binIndex_of, integer.
  rewrite binCount_minus_one by exact Hc.
  pose proof one_ulps_pos as Ho.
  assert (Hsub : sub (Fin a) (Fin mn) = PInf
                 \/ exists k, 0 <= k /\ sub (Fin a) (Fin mn) = Fin k).
  { unfold sub. cbn [neg add]. apply round64_nonneg; lia. }
  assert (Hq : div (sub (Fin a) (Fin mn)) (Fin b) = PInf
               \/ exists k, 0 <= k /\ div (sub (Fin a) (Fin mn)) (Fin b) = Fin k).
  { destruct Hsub as [->|(k & Hk & ->)].
    - left. cbn [div]. destruct (Z.ltb_spec b 0); [lia | reflexivity].
    - cbn [div]. destruct (Z.eqb_spec b 0); [lia|].
      rewrite Z.sgn_pos, Z.mul_1_l, Z.abs_eq by lia.
      apply round64_nonneg; nia. }
  destruct Hq as [->|(k & Hk & ->)].
  - exists (c - 1). split; [lia|]. cbn [Math_floor min2 ltb]. reflexivity.
  - cbn [Math_floor min2 ltb].
    assert (Hf : 0 <= k / one_ulps) by (apply Z.div_pos; lia).
    destruct (Z.ltb_spec ((c - 1) * one_ulps) (k / one_ulps * one_ulps)).
    + exists (c - 1). split; [lia | reflexivity].
    + exists (k / one_ulps). split; [nia | reflexivity].
Qed.

Lemma bump_total (counts : list Z) :
  forall j, (j < List.length counts)%nat -> total (bump counts j) = total counts + 1.
Proof.
  induction counts as [|m rest IH]; intros j Hj; cbn in Hj; [lia|].
  destruct j as [|j]; cbn [bump total fold_right].
  - lia.
  - fold (total (bump rest j)). fold (total rest). rewrite IH by lia. lia.
Qed.

Lemma bump_length (counts : list Z) (j : nat) :
  List.length (bump counts j) = List.length counts.
Proof.
  revert j. induction counts as [|m rest IH]; intros [|j]; cbn; auto.
Qed.

Lemma bump_nonneg (counts : list Z) (j : nat) :
  Forall (fun m => 0 <= m) counts -> Forall (fun m => 0 <= m) (bump counts j).
Proof.
  intros H. revert j. induction H as [|m rest Hm Hrest IH]; intros [|j]; cbn;
    try constructor; auto; lia.
Qed.

Lemma total_nonneg (counts : list Z) :
  Forall (fun m => 0 <= m) counts -> 0 <= total counts.
Proof.
  intros H. induction H as [|x rest Hx Hrest IH]; cbn [total fold_right]; [lia|].
  fold (total rest). lia.
Qed.

(** [bins[j]++] on an array of small integers. *)
Lemma increment_bin_integer (counts : list Z) (j : Z) :
  Forall (fun m => 0 <= m) counts -> total counts < 2 ^ 52 -> 0 <= j ->
  Viz.increment_bin (map integer counts) (integer j)
  = map integer (bump counts (Z.to_nat j)).
Proof.
  intros Hc Ht Hj. unfold Viz.increment_bin.
  change (to_index (integer j)) with (to_index (Fin (j * one_ulps))).
  rewrite to_index_integer by exact Hj.
  generalize (Z.to_nat j) as i. clear j Hj.
  induction counts as [|m rest IH]; intros i; [destruct i; reflexivity|].
  inversion Hc as [|? ? Hm Hrest]; subst.
  cbn [total fold_right] in Ht. fold (total rest) in Ht.
  pose proof (total_nonneg Hrest).
  destruct i as [|i]; cbn [map Viz.update bump].
  - f_equal. unfold integer. rewrite of_Z_small by (split; [lia | now vm_compute]).
    cbn [add]. replace (m * one_ulps + 1 * one_ulps) with ((m + 1) * 2 ^ 1074)
      by (unfold one_ulps; ring).
    unfold one_ulps. apply round64_exact; try lia.
    rewrite Z.abs_eq by lia. apply small_below_overflow. lia.
  - f_equal. apply IH; [exact Hrest | lia].
Qed.

Lemma fold_bins (mn b c : Z) (l : list number) :
  0 < b -> 1 <= c <= 10 ->
  Forall (fun v => exists a, v = Fin a /\ mn <= a) l ->
  forall counts,
    List.length counts = Z.to_nat c ->
    Forall (fun m => 0 <= m) counts ->
    total counts + Z.of_nat (List.length l) < 2 ^ 52 ->
    exists counts',
      fold_left (fun bins value =>
                   Viz.increment_bin bins
                     (Viz.binIndex_of (Fin mn) (Fin b) (integer c) value))
                l (map integer counts)
      = map integer counts'
      /\ List.length counts' = Z.to_nat c
      /\ Forall (fun m => 0 <= m) counts'
      /\ total counts' = total counts + Z.of_nat (List.length l).
Proof.
  intros Hb Hc Hl. induction Hl as [|v l (a & -> & Ha) _ IH];
    intros counts Hlen Hpos Ht.
  - exists counts. cbn. repeat split; trivial. lia.
  - cbn [fold_left]. cbn [List.length] in Ht. rewrite Nat2Z.inj_succ in Ht.
    destruct (binIndex_is_a_bin Hb Hc Ha) as (j & Hj & ->).
    rewrite increment_bin_integer by (trivial || lia).
    assert (Hjn : (Z.to_nat j < List.length counts)%nat) by lia.
    destruct (IH (bump counts (Z.to_nat j))) as (counts' & E & H1 & H2 & H3).
    + now rewrite bump_length.
    + now apply bump_nonneg.
    + rewrite bump_total by exact Hjn. lia.
    + exists counts'. repeat split; trivial.
      rewrite H3, bump_total by exact Hjn. cbn [List.length].
      rewrite Nat2Z.inj_succ. lia.
Qed.

Lemma total_repeat_zero (n : nat) : total (repeat 0 n) = 0.
Proof. induction n; cbn; [reflexivity|]. fold (total (repeat 0 n)). lia. Qed.

(** The histogram away from the degenerate cases.  When the parseable values
    are finite and the bin width is a positive finite number, every value is
    counted in exactly one bin: the counts are non-negative integers and
    their sum is the number of parseable values. *)
Lemma histogram_counts_every_value
  (data : list Viz.row) (xAxis : string) (b : Z) :
  let values := Viz.parsed_values data xAxis in
  let binCount :=
    min2 (of_Z 10) (Math_ceil (Math_sqrt (of_nat (List.length values)))) in
  Z.of_nat (List.length values) < 2 ^ 32 ->
  Forall (fun v => isFinite v = true) values ->
  div (sub (Math_max values) (Math_min values)) binCount = Fin b ->
  0 < b ->
  exists counts,
    map Viz.bin_y (Viz.processHistogramData data xAxis) = map integer counts
    /\ Forall (fun m => 0 <= m) counts
    /\ total counts = Z.of_nat (List.length values).
Proof.
  unfold Viz.processHistogramData. cbv zeta.
  remember (Viz.parsed_values data xAxis) as values eqn:Ev. clear Ev.
  intros Hn Hfin Hsize Hb.
  destruct values as [|v0 rest].
  { exists []. split; [reflexivity|]. split; [constructor | reflexivity]. }
  remember (v0 :: rest) as values eqn:Ev.
  rewrite Hsize.
  assert (Hlen : (0 < List.length values)%nat) by (rewrite Ev; cbn; lia).
  destruct (binCount_is_length Hlen) as (c & Hc & Ec).
  rewrite Ec. fold (integer c).
  assert (Hne : values <> []) by (rewrite Ev; discriminate).
  destruct (Math_min_finite Hne Hfin) as (mn & Emin & Hmin).
  rewrite Emin, bins_to_points_counts.
  assert (Hall : Forall (fun v => exists a, v = Fin a /\ mn <= a) values).
  { apply Forall_forall. intros v Hv. rewrite Forall_forall in Hfin.
    specialize (Hfin v Hv). destruct v as [| | |a]; try discriminate Hfin.
    exists a. split; [reflexivity | now apply Hmin]. }
  assert (E0 : Viz.Array_fill_zero (integer c)
               = map integer (repeat 0 (Z.to_nat c))).
  { unfold Viz.Array_fill_zero, integer. rewrite to_index_integer by lia.
    rewrite of_Z_zero, map_repeat. now rewrite Z.mul_0_l. }
  rewrite E0.
  destruct (@fold_bins mn b c values Hb Hc Hall (repeat 0 (Z.to_nat c)))
    as (counts & E & _ & Hpos & Ht).
  - apply repeat_length.
  - apply Forall_forall. intros m Hm. apply repeat_spec in Hm. lia.
  - rewrite total_repeat_zero. pose proof (Z.pow_lt_mono_r 2 32 52). lia.
  - exists counts. split; [exact E|]. split; [exact Hpos|].
    now rewrite Ht, total_repeat_zero.
Qed.

End HistogramCounts.

(* ================================================================== *)
(** ** The query executor as a whole                                    *)
(* ================================================================== *)

Section ExecutorShape.

Import Number Js Props.
Local Open Scope string_scope.
Local Open Scope list_scope.

Lemma distinct_from_length (K : Type) (eqb : K -> K -> bool) (l : list K) :
  forall seen, (List.length (distinct_from eqb seen l) <= List.length l)%nat.
Proof.
  induction l as [|k l IH]; intros seen; cbn; [lia|].
  destruct (existsb (eqb k) seen); cbn.
  - specialize (IH seen). lia.
  - specialize (IH (seen ++ [k])). lia.
Qed.

Lemma build_groups_length (g : string) (data : list Sql.row) :
  (List.length (Sql.build_groups g data) <= List.length data)%nat
  /\ (data <> [] -> Sql.build_groups g data <> []).
Proof.
  rewrite build_groups_spec, length_map. unfold distinct. split.
  - etransitivity; [apply distinct_from_length|]. now rewrite length_map.
  - destruct data as [|r d]; [intros H; now elim H|]. intros _. discriminate.
Qed.

(** X1.  What the tag of a result says about its rows, whatever the query:
    under SELECT the table comes back as it is; under AGGREGATE there is
    exactly one row; under FILTER the rows are those of the table that pass
    one row-wise test, in the order of the table; under GROUP_BY there are
    at most as many rows as in the table, and at least one when the table is
    not empty. *)
Theorem X1_result_shape_by_tag
  (query : string) (data : list Sql.row) (columns : list string) :
  let r := Sql.executeQuery query data columns in
  match Sql.queryType r with
  | Sql.SELECT => Sql.data r = data
  | Sql.AGGREGATE => exists row, Sql.data r = [row]
  | Sql.FILTER =>
      exists keep, Sql.data r = filter keep data
                   /\ (List.length (Sql.data r) <= List.length data)%nat
  | Sql.GROUP_BY =>
      (List.length (Sql.data r) <= List.length data)%nat
      /\ (data <> [] -> Sql.data r <> [])
  end.
Proof.
  unfold Sql.executeQuery.
  destruct (_ && _); [reflexivity|].
  destruct (_ || _); [cbn; eexists; reflexivity|].
  destruct (Str.includes "GROUP BY" _).
  - unfold Sql.executeGroupByQuery.
    destruct (Sql.extractGroupByColumn query) as [g|]; [|reflexivity].
    destruct (_ || _); [reflexivity|]. cbn [Sql.queryType Sql.data].
    rewrite length_map. destruct (build_groups_length g data) as [H1 H2].
    split; [exact H1|]. intros Hne E. apply H2 in Hne.
    destruct (Sql.build_groups g data); [now elim Hne | discriminate].
  - destruct (Str.includes "WHERE" _); [|reflexivity].
    unfold Sql.executeFilterQuery.
    destruct (Sql.extractFilterCondition query) as [c|]; [|reflexivity].
    destruct (Str.isEmpty c); [reflexivity|]. cbn [Sql.queryType Sql.data].
    eexists. split; [reflexivity | apply filter_length_le].
Qed.

Lemma filter_partition_length (A : Type) (f : A -> bool) (l : list A) :
  (List.length (filter f l) + List.length (filter (fun a => negb (f a)) l)
   = List.length l)%nat.
Proof.
  induction l as [|a l IH]; cbn; [reflexivity|].
  destruct (f a); cbn; lia.
Qed.

(** The columns that are not numeric are the keys of the first row that fail
    the test of the numeric ones. *)
Lemma getCategoricalColumns_filter (first : Sql.row) (rest : list Sql.row) :
  Sql.getCategoricalColumns (first :: rest)
  = filter (fun col =>
              negb (existsb is_valid_number
                      (Sql.column_values (firstn 10 (first :: rest)) col)))
           (Object_keys first).
Proof.
  unfold Sql.getCategoricalColumns. apply filter_ext_in. intros col Hc.
  f_equal. unfold Sql.getNumericColumns.
  set (f := fun c => existsb is_valid_number
                       (Sql.column_values (firstn 10 (first :: rest)) c)).
  change (Array_includes (filter f (Object_keys first)) col = f col).
  destruct (f col) eqn:E.
  - apply Array_includes_In, filter_In. now split.
  - destruct (Array_includes (filter f (Object_keys first)) col) eqn:E';
      [|reflexivity].
    apply Array_includes_In, filter_In in E'. destruct E'. congruence.
Qed.

Lemma aggregate_throws_spec (e : engine) (data : list Sql.row) :
  Sql.aggregate_throws e data = true
  <-> exists c, In c (Sql.getNumericColumns data)
                /\ (max_arguments e
                    < List.length (Sql.numbers_of (Sql.column_values data c)))%nat.
Proof.
  unfold Sql.aggregate_throws, spread_throws. rewrite existsb_exists.
  split; intros (c & Hc & H); exists c; (split; [exact Hc|]).
  - cbv zeta in H. apply andb_true_iff in H. destruct H as [_ H].
    now apply Nat.ltb_lt in H.
  - cbv zeta. apply andb_true_iff. split; apply Nat.ltb_lt; lia.
Qed.

Lemma executeQuery_throws_spec (e : engine) (query : string)
  (data : list Sql.row) :
  let upperQuery := Str.trim (Str.toUpperCase query) in
  Sql.executeQuery_throws e query data = true
  <-> Str.includes "SELECT" upperQuery && Str.includes "FROM" upperQuery = false
      /\ Str.includes "COUNT" upperQuery || Str.includes "SUM" upperQuery
           || Str.includes "AVG" upperQuery = true
      /\ exists c, In c (Sql.getNumericColumns data)
                   /\ (max_arguments e
                       < List.length
                           (Sql.numbers_of (Sql.column_values data c)))%nat.
Proof.
  cbv zeta. unfold Sql.executeQuery_throws.
  destruct (_ && _).
  { split; [discriminate | intros [H _]; discriminate H]. }
  destruct (_ || _).
  - rewrite aggregate_throws_spec. tauto.
  - split; [discriminate | intros (_ & H & _); discriminate H].
Qed.

(** X2.  What [execute] returns.  The run fails exactly when the query goes
    to the aggregates (its upper-cased text lacks SELECT or FROM and holds
    COUNT, SUM or AVG) and some numeric column has more valid numbers than
    the engine takes as the arguments of one call: then [success] is false,
    [error] is the message of the engine and nothing else is set.  In every
    other case the run succeeds with the rows and the tag of [executeQuery]
    and with a summary in which [rowCount] is the number of result rows, the
    numeric and the categorical columns are disjoint, together they are the
    keys of the first result row, and [columnCount] is the sum of their
    numbers. *)
Theorem X2_run_fails_or_summarises
  (e : engine) (query : string) (data : list Sql.row) (columns : list string) :
  let out := Sql.execute e query data columns in
  let upperQuery := Str.trim (Str.toUpperCase query) in
  (Sql.success out = false
   <-> Str.includes "SELECT" upperQuery && Str.includes "FROM" upperQuery = false
       /\ Str.includes "COUNT" upperQuery || Str.includes "SUM" upperQuery
            || Str.includes "AVG" upperQuery = true
       /\ exists c, In c (Sql.getNumericColumns data)
                    /\ (max_arguments e
                        < List.length
                            (Sql.numbers_of (Sql.column_values data c)))%nat)
  /\ (Sql.success out = false ->
      out = Sql.mkOutput false None (Some (range_error_message e)) None None)
  /\ (Sql.success out = true ->
      exists rows s,
        rows = Sql.data (Sql.executeQuery query data columns)
        /\ Sql.result out = Some rows
        /\ Sql.out_queryType out
           = Some (Sql.queryType (Sql.executeQuery query data columns))
        /\ Sql.error out = None
        /\ Sql.summary out = Some s
        /\ Sql.rowCount s = List.length rows
        /\ Sql.columnCount s
           = (List.length (Sql.numericColumns s)
              + List.length (Sql.categoricalColumns s))%nat
        /\ (forall c, In c (Sql.numericColumns s) ->
                      ~ In c (Sql.categoricalColumns s))
        /\ (forall first rest, rows = first :: rest ->
              forall c, In c (Object_keys first) <->
                        In c (Sql.numericColumns s)
                        \/ In c (Sql.categoricalColumns s))
        /\ (rows = [] -> Sql.columnCount s = O)).
Proof.
  cbv zeta. pose proof (executeQuery_throws_spec e query data) as Hspec.
  cbv zeta in Hspec. rewrite <- Hspec. clear Hspec.
  unfold Sql.execute, Sql.execute_try.
  destruct (Sql.executeQuery_throws e query data).
  { cbn [Sql.success]. split; [tauto|]. split; [reflexivity | discriminate]. }
  destruct (Sql.executeQuery query data columns) as [rows tag].
  cbn [Sql.success Sql.result Sql.out_queryType Sql.error Sql.summary
       Sql.data Sql.queryType].
  split; [split; discriminate|]. split; [discriminate|]. intros _.
  eexists. eexists. split; [reflexivity|]. split; [reflexivity|].
  split; [reflexivity|]. split; [reflexivity|]. split; [reflexivity|].
  cbn [Sql.rowCount Sql.columnCount Sql.numericColumns Sql.categoricalColumns].
  split; [reflexivity|].
  destruct rows as [|first rest].
  - cbn. repeat split; try tauto. discriminate.
  - rewrite getCategoricalColumns_filter. unfold Sql.getNumericColumns.
    set (f := fun c => existsb is_valid_number
                         (Sql.column_values (firstn 10 (first :: rest)) c)).
    split; [symmetry; apply filter_partition_length|].
    split; [|split].
    + intros c H1 H2. apply filter_In in H1, H2.
      destruct H1 as [_ H1], H2 as [_ H2]. fold (f c) in H2.
      rewrite H1 in H2. discriminate.
    + intros f0 r0 E c. inversion E; subst f0 r0.
      rewrite !filter_In. fold (f c). destruct (f c); cbn; tauto.
    + discriminate.
Qed.

(** The aggregates of a column of four numbers, on an engine that takes
    three arguments: the run fails. *)
Lemma aggregate_of_a_long_column_fails :
  let r : Sql.row := [("x", VNum (Fin 0))] in
  Sql.execute small_engine "SUM" [r; r; r; r] ["x"]
  = Sql.mkOutput false None (Some "Maximum call stack size exceeded") None None
  /\ Sql.success (Sql.execute small_engine "SUM" [r; r; r] ["x"]) = true.
Proof. intros r. split; now vm_compute. Qed.

(** X3.  Classification reads the first ten rows and nothing else: it is the
    classification of the table cut after its tenth row, so two tables with
    the same first ten rows have the same numeric and categorical columns. *)
Theorem X3_classification_reads_ten_rows (data : list Sql.row) :
  Sql.getNumericColumns data = Sql.getNumericColumns (firstn 10 data)
  /\ Sql.getCategoricalColumns data
     = Sql.getCategoricalColumns (firstn 10 data)
  /\ forall data',
       firstn 10 data' = firstn 10 data ->
       Sql.getNumericColumns data' = Sql.getNumericColumns data
       /\ Sql.getCategoricalColumns data' = Sql.getCategoricalColumns data.
Proof.
  assert (Hn : forall d, Sql.getNumericColumns d
                         = Sql.getNumericColumns (firstn 10 d)).
  { intros [|first rest]; [reflexivity|].
    unfold Sql.getNumericColumns.
    change (firstn 10 (first :: rest)) with (first :: firstn 9 rest) at 2.
    cbv iota. change (first :: firstn 9 rest) with (firstn 10 (first :: rest)).
    now rewrite firstn_firstn. }
  assert (Hc : forall d, Sql.getCategoricalColumns d
                         = Sql.getCategoricalColumns (firstn 10 d)).
  { intros [|first rest]; [reflexivity|].
    unfold Sql.getCategoricalColumns.
    change (firstn 10 (first :: rest)) with (first :: firstn 9 rest) at 1.
    cbv iota. change (first :: firstn 9 rest) with (firstn 10 (first :: rest)).
    now rewrite <- Hn. }
  split; [apply Hn|]. split; [apply Hc|].
  intros data' E. rewrite (Hn data'), (Hc data'), E. now rewrite <- Hn, <- Hc.
Qed.

Lemma filter_idempotent (A : Type) (f : A -> bool) (l : list A) :
  filter f (filter f l) = filter f l.
Proof.
  induction l as [|a l IH]; cbn; [reflexivity|].
  destruct (f a) eqn:E; cbn; rewrite ?E, IH; reflexivity.
Qed.

(** X4.  FILTER keeps rows of the table only, and filtering its own result
    again with the same query changes nothing. *)
Theorem X4_filter_is_idempotent
  (query : string) (data : list Sql.row) (columns : list string) :
  let once := Sql.executeFilterQuery query data columns in
  Sql.executeFilterQuery query (Sql.data once) columns = once
  /\ (forall r, In r (Sql.data once) -> In r data)
  /\ (List.length (Sql.data once) <= List.length data)%nat.
Proof.
  unfold Sql.executeFilterQuery.
  destruct (Sql.extractFilterCondition query) as [c|];
    [|cbn; repeat split; auto].
  destruct (Str.isEmpty c); [cbn; repeat split; auto|].
  cbn [Sql.data]. rewrite filter_idempotent. split; [reflexivity|].
  split; [|apply filter_length_le].
  intros r H. apply filter_In in H. tauto.
Qed.

End ExecutorShape.

(* ================================================================== *)
(** ** What the two regular expressions extract                         *)
(* ================================================================== *)

Section Extraction.

Import Number Js Props Shapes.
Local Open Scope list_scope.
Local Open Scope string_scope.

Lemma word_all_word (s : string) : all_word (Str.word s) = true.
Proof.
  induction s as [|c s IH]; cbn; [reflexivity|].
  destruct (Str.is_word c) eqn:E; cbn; [now rewrite E | reflexivity].
Qed.

Lemma extractGroupByColumn_word (query g : string) :
  Sql.extractGroupByColumn query = Some g -> all_word g = true.
Proof.
  intros H. apply leftmost_found in H. destruct H as (s & H).
  unfold Str.group_by_at, Str.bind in H.
  repeat match type of H with
         | match ?o with Some _ => _ | None => None end = _ =>
             destruct o; [|discriminate]
         end.
  pose proof (word_all_word s3) as Hw.
  destruct (Str.word s3); [discriminate|]. inversion H; subst. exact Hw.
Qed.

(** X5.  The identifier that GROUP BY extracts is a non-empty run of word
    characters.  Hence a table none of whose declared columns is made of
    word characters only (a name with a space, a dash, a dot, ...) cannot be
    grouped: every GROUP BY on it hands the table back under SELECT. *)
Theorem X5_group_by_needs_a_word_column
  (query : string) (data : list Sql.row) (columns : list string) :
  (forall g, Sql.extractGroupByColumn query = Some g ->
             Str.isEmpty g = false /\ all_word g = true)
  /\ ((forall c, In c columns -> all_word c = false) ->
      Sql.executeGroupByQuery query data columns = Sql.mkResult data Sql.SELECT).
Proof.
  split.
  - intros g H. split;
      [now apply extractGroupByColumn_nonempty in H
      | now apply extractGroupByColumn_word in H].
  - intros Hc. unfold Sql.executeGroupByQuery.
    destruct (Sql.extractGroupByColumn query) as [g|] eqn:E; [|reflexivity].
    destruct (Array_includes columns g) eqn:Ei.
    + apply Array_includes_In, Hc in Ei.
      apply extractGroupByColumn_word in E. congruence.
    + now rewrite orb_true_r.
Qed.

Lemma is_word_not_space (c : ascii) : Str.is_word c = true -> Str.is_space c = false.
Proof.
  unfold Str.is_word, Str.is_space, Str.is_lower, Str.is_upper, Str.is_digit.
  generalize (Str.code c). intros n. 
  rewrite !orb_true_iff, !andb_true_iff, !N.leb_le, !N.eqb_eq.
  intros H. apply orb_false_iff. split.
  - apply andb_false_iff. destruct (N.leb_spec 9 n); [right|now left].
    apply N.leb_gt. lia.
  - apply N.eqb_neq. lia.
Qed.

Lemma word_app (g rest : string) :
  all_word g = true -> starts_with_word rest = false ->
  Str.word (g ++ rest) = g.
Proof.
  intros Hg Hr. induction g as [|c g IH];
    cbn [append Str.word all_word] in *.
  - destruct rest as [|c r]; [reflexivity|].
    cbn [starts_with_word Str.word] in *. now rewrite Hr.
  - apply andb_true_iff in Hg. destruct Hg as [Hc Hg].
    now rewrite Hc, IH.
Qed.

Lemma leftmost_at_start (A : Type) (f : string -> option A) (s : string) (a : A) :
  f s = Some a -> Str.leftmost f s = Some a.
Proof. intros H. destruct s; cbn; now rewrite H. Qed.

(** The text before the first place where the pattern matches is passed
    over. *)
Lemma leftmost_after (A : Type) (f : string -> option A) (before s : string) :
  matched_inside f before s = false ->
  Str.leftmost f (before ++ s) = Str.leftmost f s.
Proof.
  induction before as [|c before IH]; [reflexivity|].
  cbn [matched_inside]. intros H. apply orb_false_iff in H.
  destruct H as [H1 H2]. cbn [append Str.leftmost].
  change (String c (before ++ s)) with (String c before ++ s).
  destruct (f (String c before ++ s)); [discriminate H1|]. now apply IH.
Qed.

Lemma upper_char_idempotent (c : ascii) :
  Str.upper_char (Str.upper_char c) = Str.upper_char c.
Proof.
  unfold Str.upper_char. destruct (Str.is_lower c) eqn:E; [|now rewrite E].
  assert (El : Str.is_lower (ascii_of_N (Str.code c - 32)) = false).
  { unfold Str.is_lower, Str.code in *.
    apply andb_true_iff in E. destruct E as [E1 E2].
    apply N.leb_le in E1, E2.
    assert (Hlt : (N_of_ascii c < 256)%N) by apply N_ascii_bounded.
    rewrite N_ascii_embedding by lia.
    apply andb_false_iff. left. apply N.leb_gt. lia. }
  now rewrite El.
Qed.

Lemma lit_ci_upper (kw s : string) :
  Str.lit_ci (Str.toUpperCase kw) (kw ++ s) = Some s.
Proof.
  induction kw as [|c kw IH]; [reflexivity|].
  cbn [Str.toUpperCase append Str.lit_ci].
  now rewrite upper_char_idempotent, Ascii.eqb_refl.
Qed.

Lemma space_not_lower (c : ascii) : Str.is_space c = true -> Str.is_lower c = false.
Proof.
  unfold Str.is_space, Str.is_lower. generalize (Str.code c). intros n.
  rewrite orb_true_iff, andb_true_iff, !N.leb_le, N.eqb_eq. intros H.
  apply andb_false_iff. left. apply N.leb_gt. lia.
Qed.

(** A keyword whose upper case starts with a character that is no space does
    not start with a space. *)
Lemma keyword_no_space (kw s : string) (a : ascii) (p : string) :
  Str.toUpperCase kw = String a p -> Str.is_space a = false ->
  starts_with_space (kw ++ s) = false.
Proof.
  destruct kw as [|c kw]; [discriminate|]. cbn [Str.toUpperCase append].
  intros H Ha. inversion H as [[Hc Hp]]. cbn [starts_with_space].
  destruct (Str.is_space c) eqn:E; [|reflexivity].
  unfold Str.upper_char in Hc. rewrite (space_not_lower E) in Hc.
  congruence.
Qed.

Lemma trimStart_no_space (s : string) :
  starts_with_space (Str.trimStart s) = false.
Proof.
  induction s as [|c s IH]; [reflexivity|]. cbn [Str.trimStart].
  destruct (Str.is_space c) eqn:E; [exact IH | exact E].
Qed.

Lemma trimStart_fixed (s : string) :
  starts_with_space s = false -> Str.trimStart s = s.
Proof. destruct s as [|c s]; [reflexivity|]. cbn. now intros ->. Qed.

Lemma trimStart_spaces (sp s : string) :
  all_space sp = true -> starts_with_space s = false ->
  Str.trimStart (sp ++ s) = s.
Proof.
  intros Hsp Hs. induction sp as [|c sp IH]; [now apply trimStart_fixed|].
  cbn [all_space] in Hsp. apply andb_true_iff in Hsp. destruct Hsp as [Hc Hsp].
  cbn [append Str.trimStart]. rewrite Hc. now apply IH.
Qed.

Lemma spaces1_app (sp s : string) :
  all_space sp = true -> Str.isEmpty sp = false ->
  starts_with_space s = false ->
  Str.spaces1 (sp ++ s) = Some s.
Proof.
  intros Hsp Hne Hs. destruct sp as [|c sp]; [discriminate|].
  cbn [all_space] in Hsp. apply andb_true_iff in Hsp. destruct Hsp as [Hc Hsp].
  cbn [append Str.spaces1]. rewrite Hc. f_equal. now apply trimStart_spaces.
Qed.

Lemma word_no_space (g s : string) :
  all_word g = true -> Str.isEmpty g = false ->
  starts_with_space (g ++ s) = false.
Proof.
  destruct g as [|c g]; [discriminate|]. cbn [all_word]. intros H _.
  apply andb_true_iff in H. cbn [append starts_with_space].
  now apply is_word_not_space.
Qed.

(** X6.  Reading back what was written: in a query that has, after a text
    in which the pattern matches nowhere, the keyword GROUP in any case,
    one or more spaces, the keyword BY in any case, one or more spaces,
    a non-empty identifier [g] made of word characters, and then anything
    that does not go on with a word character, the identifier extracted is
    [g]. *)
Theorem X6_group_by_reads_back (before kw1 sp1 kw2 sp2 g rest : string) :
  Str.toUpperCase kw1 = "GROUP" ->
  Str.toUpperCase kw2 = "BY" ->
  all_space sp1 = true -> Str.isEmpty sp1 = false ->
  all_space sp2 = true -> Str.isEmpty sp2 = false ->
  all_word g = true -> Str.isEmpty g = false ->
  starts_with_word rest = false ->
  matched_inside Str.group_by_at before
    (kw1 ++ sp1 ++ kw2 ++ sp2 ++ g ++ rest) = false ->
  Sql.extractGroupByColumn (before ++ kw1 ++ sp1 ++ kw2 ++ sp2 ++ g ++ rest)
  = Some g.
Proof.
  intros Hk1 Hk2 Hs1 Hn1 Hs2 Hn2 Hg Hne Hr Hb.
  unfold Sql.extractGroupByColumn. rewrite (leftmost_after Hb).
  apply leftmost_at_start. unfold Str.group_by_at.
  rewrite <- Hk1 at 1. rewrite lit_ci_upper. cbn [Str.bind].
  rewrite spaces1_app;
    [|exact Hs1 | exact Hn1 | now apply (keyword_no_space _ Hk2)].
  cbn [Str.bind]. rewrite <- Hk2 at 1. rewrite lit_ci_upper. cbn [Str.bind].
  rewrite spaces1_app; [|exact Hs2 | exact Hn2 | now apply word_no_space].
  cbn [Str.bind]. rewrite (word_app Hg Hr).
  destruct g; [discriminate Hne | reflexivity].
Qed.

Lemma X6_group_by_witness :
  let before := "SELECT region, total FROM t " in
  let rest := " ORDER BY x" in
  Str.toUpperCase "group" = "GROUP"
  /\ Str.toUpperCase "By" = "BY"
  /\ all_space " " = true /\ Str.isEmpty " " = false
  /\ all_space "  " = true /\ Str.isEmpty "  " = false
  /\ all_word "region_1" = true /\ Str.isEmpty "region_1" = false
  /\ starts_with_word rest = false
  /\ matched_inside Str.group_by_at before
       ("group" ++ " " ++ "By" ++ "  " ++ "region_1" ++ rest) = false
  /\ Sql.extractGroupByColumn
       (before ++ "group" ++ " " ++ "By" ++ "  " ++ "region_1" ++ rest)
     = Some "region_1".
Proof.
  intros before rest. repeat (split; [reflexivity|]).
  exact (@X6_group_by_reads_back before "group" " " "By" "  " "region_1" rest
           eq_refl eq_refl eq_refl eq_refl eq_refl eq_refl eq_refl eq_refl
           eq_refl eq_refl).
Defined.

Lemma lazy_capture_exact (clause tail : string) :
  Str.isEmpty clause = false ->
  has_line_terminator clause = false ->
  tail_inside clause tail = false ->
  Str.where_tail tail = true ->
  Str.lazy_capture (clause ++ tail) = Some clause.
Proof.
  intros Hne Hlt Hin Ht. induction clause as [|c rest IH]; [discriminate|].
  cbn [has_line_terminator] in Hlt. apply orb_false_iff in Hlt.
  destruct Hlt as [Hc Hlt]. cbn [append Str.lazy_capture]. rewrite Hc.
  destruct rest as [|c' rest'].
  - cbn [append]. now rewrite Ht.
  - cbn [tail_inside] in Hin. apply orb_false_iff in Hin.
    destruct Hin as [Hw Hin]. rewrite Hw.
    rewrite IH; [reflexivity | reflexivity | exact Hlt | exact Hin].
Qed.

Lemma trimEnd_fixed (s : string) :
  last_not_space s = true -> Str.trimEnd s = s.
Proof.
  induction s as [|c s IH]; [discriminate|].
  destruct s as [|c' s'].
  - cbn. intros H. apply negb_true_iff in H. now rewrite H.
  - intros H. change (last_not_space (String c' s') = true) in H.
    change (Str.trimEnd (String c (String c' s')))
      with (match Str.trimEnd (String c' s') with
            | EmptyString =>
                if Str.is_space c then EmptyString else String c EmptyString
            | t => String c t
            end).
    now rewrite (IH H).
Qed.

Lemma spaces_then_capture_app (sp s w : string) :
  all_space sp = true -> Str.isEmpty sp = false ->
  starts_with_space s = false ->
  Str.lazy_capture s = Some w ->
  Str.spaces_then_capture (sp ++ s) = Some w.
Proof.
  intros Hsp Hne Hs Hw. induction sp as [|c sp IH]; [discriminate|].
  cbn [all_space] in Hsp. apply andb_true_iff in Hsp. destruct Hsp as [Hc Hsp].
  cbn [append Str.spaces_then_capture]. rewrite Hc.
  destruct sp as [|c' sp'].
  - cbn [append]. destruct s as [|a s']; [now rewrite Hw|].
    cbn [starts_with_space] in Hs. cbn [Str.spaces_then_capture].
    now rewrite Hs, Hw.
  - now rewrite (IH Hsp eq_refl).
Qed.

(** X7.  Reading back a WHERE clause: in a query that has, after a text in
    which the pattern matches nowhere, the keyword WHERE in any case, one or
    more spaces, and a clause that starts and ends with a character that is
    not a space and holds no line break and no inner place where [GROUP BY]
    or [ORDER BY] starts after spaces, followed by nothing or by such a
    keyword, the condition extracted is the clause itself. *)
Theorem X7_where_reads_back (before kw sp clause tail : string) :
  Str.toUpperCase kw = "WHERE" ->
  all_space sp = true -> Str.isEmpty sp = false ->
  starts_with_space clause = false ->
  last_not_space clause = true ->
  has_line_terminator clause = false ->
  tail_inside clause tail = false ->
  Str.where_tail tail = true ->
  matched_inside Str.where_at before (kw ++ sp ++ clause ++ tail) = false ->
  Sql.extractFilterCondition (before ++ kw ++ sp ++ clause ++ tail)
  = Some clause.
Proof.
  intros Hk Hsp Hne Hs Hl Hlt Hin Ht Hb. unfold Sql.extractFilterCondition.
  rewrite (leftmost_after Hb).
  assert (Hc : Str.isEmpty clause = false) by (now destruct clause).
  assert (Hs' : starts_with_space (clause ++ tail) = false).
  { destruct clause; [discriminate Hc | exact Hs]. }
  assert (E : Str.where_at (kw ++ sp ++ clause ++ tail) = Some clause).
  { unfold Str.where_at. rewrite <- Hk at 1. rewrite lit_ci_upper.
    cbn [Str.bind]. apply spaces_then_capture_app; trivial.
    now apply lazy_capture_exact. }
  rewrite (leftmost_at_start E). cbn [option_map]. f_equal.
  unfold Str.trim. rewrite (trimStart_fixed Hs). now apply trimEnd_fixed.
Qed.

Lemma X7_where_witness :
  let before := "select * from t " in
  let clause := "status = 'active'" in
  let tail := " GROUP BY region" in
  Str.toUpperCase "Where" = "WHERE"
  /\ all_space "  " = true /\ Str.isEmpty "  " = false
  /\ starts_with_space clause = false
  /\ last_not_space clause = true
  /\ has_line_terminator clause = false
  /\ tail_inside clause tail = false
  /\ Str.where_tail tail = true
  /\ matched_inside Str.where_at before ("Where" ++ "  " ++ clause ++ tail)
     = false
  /\ Sql.extractFilterCondition (before ++ "Where" ++ "  " ++ clause ++ tail)
     = Some clause.
Proof.
  intros before clause tail. repeat (split; [reflexivity|]).
  exact (@X7_where_reads_back before "Where" "  " clause tail
           eq_refl eq_refl eq_refl eq_refl eq_refl eq_refl eq_refl eq_refl
           eq_refl).
Defined.

End Extraction.

(* ================================================================== *)
(** ** Extremes of a column                                             *)
(* ================================================================== *)

Section Extremes.

Import Number Js Props.
Local Open Scope string_scope.
Local Open Scope list_scope.

Lemma get_set (o : object) (k k' : string) (v : value) :
  get (set o k v) k' = if String.eqb k k' then v else get o k'.
Proof.
  induction o as [|[k0 w] o IH]; cbn.
  - reflexivity.
  - destruct (String.eqb k0 k) eqn:E; cbn.
    + apply String.eqb_eq in E. subst k0.
      now destruct (String.eqb k k').
    + rewrite IH. destruct (String.eqb k k') eqn:E'; [|reflexivity].
      apply String.eqb_eq in E'. subst k'. now rewrite E.
Qed.

Lemma min2_cases (x y : number) :
  isNaN x = false -> isNaN y = false ->
  (min2 x y = x \/ min2 x y = y)
  /\ leb (min2 x y) x = true /\ leb (min2 x y) y = true.
Proof.
  intros Hx Hy.
  assert (E : min2 x y = if ltb y x then y else x)
    by (destruct x, y; try discriminate; reflexivity).
  rewrite E. destruct (ltb y x) eqn:L.
  - split; [now right|]. split; [now apply ltb_leb | now apply leb_refl].
  - split; [now left|]. split; [now apply leb_refl | now apply ltb_false_leb].
Qed.

Lemma max2_cases (x y : number) :
  isNaN x = false -> isNaN y = false ->
  (max2 x y = x \/ max2 x y = y)
  /\ leb x (max2 x y) = true /\ leb y (max2 x y) = true.
Proof.
  intros Hx Hy.
  assert (E : max2 x y = if ltb x y then y else x)
    by (destruct x, y; try discriminate; reflexivity).
  rewrite E. destruct (ltb x y) eqn:L.
  - split; [now right|]. split; [now apply ltb_leb | now apply leb_refl].
  - split; [now left|]. split; [now apply leb_refl | now apply ltb_false_leb].
Qed.

Lemma fold_min2 (l : list number) :
  Forall (fun v => isNaN v = false) l ->
  forall acc, isNaN acc = false ->
    let r := fold_left min2 l acc in
    (r = acc \/ In r l) /\ leb r acc = true
    /\ forall v, In v l -> leb r v = true.
Proof.
  induction 1 as [|x l Hx Hl IH]; intros acc Hacc; cbn [fold_left].
  - split; [now left|]. split; [now apply leb_refl | intros v []].
  - destruct (min2_cases Hacc Hx) as (Hc & H1 & H2).
    assert (Hm : isNaN (min2 acc x) = false)
      by (destruct Hc as [-> | ->]; assumption).
    destruct (IH _ Hm) as (Hr & Hle & Hall). cbv zeta in *.
    split; [|split].
    + destruct Hr as [Hr|Hr]; [|right; now right].
      rewrite Hr. destruct Hc as [-> | ->]; [now left | right; now left].
    + eapply leb_trans; eassumption.
    + intros v [<-|Hv]; [eapply leb_trans; eassumption | now apply Hall].
Qed.

Lemma fold_max2 (l : list number) :
  Forall (fun v => isNaN v = false) l ->
  forall acc, isNaN acc = false ->
    let r := fold_left max2 l acc in
    (r = acc \/ In r l) /\ leb acc r = true
    /\ forall v, In v l -> leb v r = true.
Proof.
  induction 1 as [|x l Hx Hl IH]; intros acc Hacc; cbn [fold_left].
  - split; [now left|]. split; [now apply leb_refl | intros v []].
  - destruct (max2_cases Hacc Hx) as (Hc & H1 & H2).
    assert (Hm : isNaN (max2 acc x) = false)
      by (destruct Hc as [-> | ->]; assumption).
    destruct (IH _ Hm) as (Hr & Hle & Hall). cbv zeta in *.
    split; [|split].
    + destruct Hr as [Hr|Hr]; [|right; now right].
      rewrite Hr. destruct Hc as [-> | ->]; [now left | right; now left].
    + eapply leb_trans; eassumption.
    + intros v [<-|Hv]; [eapply leb_trans; eassumption | now apply Hall].
Qed.

(** [Math.min] of a non-empty list without NaN is its least element. *)
Lemma Math_min_least (l : list number) :
  l <> [] -> Forall (fun v => isNaN v = false) l ->
  In (Math_min l) l /\ forall v, In v l -> leb (Math_min l) v = true.
Proof.
  intros Hne Hl. unfold Math_min.
  destruct (fold_min2 Hl (acc := PInf) eq_refl) as (Hr & _ & Hall).
  cbv zeta in *. split; [|exact Hall].
  destruct Hr as [Hr|Hr]; [|exact Hr].
  destruct l as [|v l]; [now elim Hne|].
  specialize (Hall v (or_introl eq_refl)). rewrite Hr in *.
  destruct v; try discriminate Hall. now left.
Qed.

Lemma Math_max_greatest (l : list number) :
  l <> [] -> Forall (fun v => isNaN v = false) l ->
  In (Math_max l) l /\ forall v, In v l -> leb v (Math_max l) = true.
Proof.
  intros Hne Hl. unfold Math_max.
  destruct (fold_max2 Hl (acc := NInf) eq_refl) as (Hr & _ & Hall).
  cbv zeta in *. split; [|exact Hall].
  destruct Hr as [Hr|Hr]; [|exact Hr].
  destruct l as [|v l]; [now elim Hne|].
  specialize (Hall v (or_introl eq_refl)). rewrite Hr in *.
  destruct v; try discriminate Hall. now left.
Qed.

Lemma numbers_of_not_NaN (vs : list value) :
  Forall (fun v => isNaN v = false) (Sql.numbers_of vs).
Proof.
  apply Forall_forall. intros n H. now apply numbers_of_In in H.
Qed.

Lemma numbers_of_length (vs : list value) :
  (List.length (Sql.numbers_of vs) <= List.length vs)%nat.
Proof.
  unfold Sql.numbers_of. induction vs as [|v vs IH]; cbn; [lia|].
  destruct (is_valid_number v) eqn:E; cbn; [|lia].
  apply is_valid_number_spec in E. destruct E as (n & -> & _). cbn. lia.
Qed.

Variable data : list Sql.row.

(** What one round of the loop of [executeAggregateQuery] leaves under the
    keys of the column [c]. *)
Lemma get_aggregate_column (o : object) (c' c : string) :
  In c' (Sql.getNumericColumns data) ->
  let values := Sql.numbers_of (Sql.column_values data c) in
  let o' := Sql.aggregate_column data o c' in
  get o' ("count_" ++ c)
  = (if String.eqb c' c then VNum (of_nat (List.length values))
     else get o ("count_" ++ c))
  /\ get o' ("min_" ++ c)
     = (if String.eqb c' c then VNum (Math_min values) else get o ("min_" ++ c))
  /\ get o' ("max_" ++ c)
     = (if String.eqb c' c then VNum (Math_max values) else get o ("max_" ++ c)).
Proof.
  intros H. cbv zeta. unfold Sql.aggregate_column.
  rewrite (numeric_column_has_values H). rewrite !get_set.
  cbn [String.eqb append Ascii.eqb Bool.eqb andb].
  destruct (String.eqb c' c) eqn:E.
  - apply String.eqb_eq in E. subst c'. now repeat split.
  - now repeat split.
Qed.

Lemma get_aggregate_fold (cols : list string) (c : string) :
  (forall c', In c' cols -> In c' (Sql.getNumericColumns data)) ->
  In c cols ->
  forall o,
    let values := Sql.numbers_of (Sql.column_values data c) in
    let o' := fold_left (Sql.aggregate_column data) cols o in
    get o' ("count_" ++ c) = VNum (of_nat (List.length values))
    /\ get o' ("min_" ++ c) = VNum (Math_min values)
    /\ get o' ("max_" ++ c) = VNum (Math_max values).
Proof.
  cbv zeta. induction cols as [|c' cols IH]; intros Hn Hc o; [destruct Hc|].
  cbn [fold_left].
  destruct (in_dec string_dec c cols) as [Hin|Hout].
  - apply IH; [|exact Hin]. intros c0 H0. apply Hn. now right.
  - destruct Hc as [->|Hc]; [|contradiction].
    assert (Hkeep : forall cs o0,
               (forall c', In c' cs -> In c' (Sql.getNumericColumns data)) ->
               ~ In c cs ->
               let o' := fold_left (Sql.aggregate_column data) cs o0 in
               get o' ("count_" ++ c) = get o0 ("count_" ++ c)
               /\ get o' ("min_" ++ c) = get o0 ("min_" ++ c)
               /\ get o' ("max_" ++ c) = get o0 ("max_" ++ c)).
    { clear. induction cs as [|c1 cs IHc]; intros o0 Hn Hout; cbn [fold_left].
      - now repeat split.
      - cbv zeta in *.
        destruct (IHc (Sql.aggregate_column data o0 c1)) as (E1 & E2 & E3).
        { intros c0 H0. apply Hn. now right. }
        { intros H0. apply Hout. now right. }
        rewrite E1, E2, E3.
        destruct (@get_aggregate_column o0 c1 c) as (G1 & G2 & G3).
        { apply Hn. now left. }
        assert (En : String.eqb c1 c = false).
        { apply String.eqb_neq. intros ->. apply Hout. now left. }
        rewrite En in *. now repeat split. }
    destruct (Hkeep cols (Sql.aggregate_column data o c)) as (E1 & E2 & E3).
    { intros c0 H0. apply Hn. now right. }
    { exact Hout. }
    cbv zeta in *. rewrite E1, E2, E3.
    destruct (@get_aggregate_column o c c) as (G1 & G2 & G3).
    { apply Hn. now left. }
    rewrite String.eqb_refl in *. now repeat split.
Qed.

(** X8.  For every numeric column [c], the row of an AGGREGATE result gives
    under [min_c] and [max_c] two of the column's valid numbers, the least
    and the greatest of them, and under [count_c] how many there are, at
    least one and at most one per row. *)
Theorem X8_aggregate_extremes_are_column_values (query : string)
  (columns : list string) (c : string) :
  In c (Sql.getNumericColumns data) ->
  let values := Sql.numbers_of (Sql.column_values data c) in
  exists row mn mx,
    Sql.data (Sql.executeAggregateQuery query data columns) = [row]
    /\ get row ("min_" ++ c) = VNum mn
    /\ get row ("max_" ++ c) = VNum mx
    /\ In mn values /\ In mx values
    /\ (forall v, In v values -> le mn v /\ le v mx)
    /\ le mn mx
    /\ get row ("count_" ++ c) = VNum (of_nat (List.length values))
    /\ (1 <= List.length values <= List.length data)%nat.
Proof.
  intros Hc. cbv zeta.
  set (values := Sql.numbers_of (Sql.column_values data c)).
  assert (Hpos : (0 < List.length values)%nat).
  { apply Nat.ltb_lt. now apply numeric_column_has_values. }
  assert (Hne : values <> []).
  { intros E. rewrite E in Hpos. cbn in Hpos. lia. }
  assert (Hnn : Forall (fun v => isNaN v = false) values)
    by apply numbers_of_not_NaN.
  destruct (Math_min_least Hne Hnn) as (Hmin & Hleast).
  destruct (Math_max_greatest Hne Hnn) as (Hmax & Hgreatest).
  destruct (@get_aggregate_fold (Sql.getNumericColumns data) c
              (fun _ H => H) Hc []) as (G1 & G2 & G3).
  exists (fold_left (Sql.aggregate_column data) (Sql.getNumericColumns data) []),
         (Math_min values), (Math_max values).
  split; [reflexivity|]. split; [exact G2|]. split; [exact G3|].
  split; [exact Hmin|]. split; [exact Hmax|].
  split; [intros v Hv; split; [now apply Hleast | now apply Hgreatest]|].
  split; [now apply Hleast|]. split; [exact G1|].
  split; [lia|].
  etransitivity; [apply numbers_of_length|].
  unfold Sql.column_values. now rewrite length_map.
Qed.

End Extremes.

Section ExtremesExamples.

Import Number Js Props.
Local Open Scope string_scope.
Local Open Scope list_scope.

Lemma X8_aggregate_extremes_witness :
  let data := [[("x", VNum (Fin 3))]; [("x", VStr "n/a")]; [("x", VNum (Fin 1))]] in
  In "x" (Sql.getNumericColumns data)
  /\ exists row mn mx,
       Sql.data (Sql.executeAggregateQuery "SELECT MIN(x)" data ["x"]) = [row]
       /\ get row "min_x" = VNum mn
       /\ get row "max_x" = VNum mx
       /\ In mn (Sql.numbers_of (Sql.column_values data "x"))
       /\ In mx (Sql.numbers_of (Sql.column_values data "x"))
       /\ (forall v, In v (Sql.numbers_of (Sql.column_values data "x")) ->
             le mn v /\ le v mx)
       /\ le mn mx
       /\ get row "count_x"
          = VNum (of_nat (List.length
                            (Sql.numbers_of (Sql.column_values data "x"))))
       /\ (1 <= List.length (Sql.numbers_of (Sql.column_values data "x"))
           <= List.length data)%nat.
Proof.
  cbv zeta.
  assert (H : In "x" (Sql.getNumericColumns
                        [[("x", VNum (Fin 3))]; [("x", VStr "n/a")];
                         [("x", VNum (Fin 1))]])) by (left; reflexivity).
  split; [exact H|].
  exact (@X8_aggregate_extremes_are_column_values _ "SELECT MIN(x)" ["x"] "x" H).
Defined.

End ExtremesExamples.

(* ================================================================== *)
(** ** Partition into groups                                            *)
(* ================================================================== *)

Section Partition.

Import Js Props.

Variables A K : Type.
Variable key_eqb : K -> K -> bool.
Hypothesis key_eqb_eq : forall a b, key_eqb a b = true <-> a = b.
Variable key_of : A -> K.

Lemma filter_split_perm (f : A -> bool) (l : list A) :
  Permutation ((filter f l ++ filter (fun a => negb (f a)) l)%list) l.
Proof.
  induction l as [|a l IH]; cbn; [constructor|].
  destruct (f a); cbn.
  - now constructor.
  - etransitivity; [symmetry; apply Permutation_middle|]. now constructor.
Qed.

Lemma filter_filter_other (k k' : K) (l : list A) :
  k' <> k ->
  filter (fun a => key_eqb (key_of a) k')
         (filter (fun a => negb (key_eqb (key_of a) k)) l)
  = filter (fun a => key_eqb (key_of a) k') l.
Proof.
  intros Hne. induction l as [|a l IH]; cbn; [reflexivity|].
  destruct (key_eqb (key_of a) k) eqn:E; cbn.
  - apply key_eqb_eq in E. rewrite IH.
    destruct (key_eqb (key_of a) k') eqn:E'; [|reflexivity].
    apply key_eqb_eq in E'. congruence.
  - now rewrite IH.
Qed.

(** Filtering a list by each of its keys, once per key, loses and repeats
    nothing. *)
Lemma concat_filters_perm (keys : list K) :
  NoDup keys ->
  forall l : list A,
    (forall a, In a l -> In (key_of a) keys) ->
    Permutation
      (List.concat (map (fun k => filter (fun a => key_eqb (key_of a) k) l) keys))
      l.
Proof.
  intros Hd. induction Hd as [|k ks Hk Hd IH]; intros l Hl; cbn.
  - destruct l as [|a l]; [constructor | destruct (Hl a); now left].
  - etransitivity; [|apply (filter_split_perm
                              (fun a => key_eqb (key_of a) k))].
    apply Permutation_app_head.
    set (l' := filter (fun a => negb (key_eqb (key_of a) k)) l).
    assert (E : map (fun k' => filter (fun a => key_eqb (key_of a) k') l) ks
                = map (fun k' => filter (fun a => key_eqb (key_of a) k') l') ks).
    { apply map_ext_in. intros k' Hk'. unfold l'.
      rewrite filter_filter_other; [reflexivity|]. intros ->. contradiction. }
    rewrite E. apply IH. intros a Ha. unfold l' in Ha.
    apply filter_In in Ha. destruct Ha as [Ha Hne].
    destruct (Hl a Ha) as [Hk'|Hk']; [|exact Hk'].
    apply negb_true_iff in Hne.
    assert (key_eqb (key_of a) k = true) by now apply key_eqb_eq.
    congruence.
Qed.

End Partition.

Section GroupPartition.

Import Number Js Props.
Local Open Scope string_scope.
Local Open Scope list_scope.

(** X9.  Grouping loses no row and repeats none: the groups of the map, put
    end to end, are a permutation of the table; their keys are pairwise
    distinct, no group is empty, and every row of a group has the key of
    the group as its group value. *)
Theorem X9_groups_partition_the_table (g : string) (data : list Sql.row) :
  let groups := Sql.build_groups g data in
  Permutation (List.concat (map snd groups)) data
  /\ NoDup (map fst groups)
  /\ (forall k rows, In (k, rows) groups ->
        rows <> [] /\ forall r, In r rows -> Sql.groupValue_of g r = k)
  /\ (forall k rows, In (k, rows) groups ->
        forall r, In r data -> Sql.groupValue_of g r = k -> In r rows).
Proof.
  cbv zeta. rewrite build_groups_spec, !map_map. cbn [fst snd].
  set (keys := distinct sameValueZero (map (Sql.groupValue_of g) data)).
  assert (Hk : NoDup keys) by apply (distinct_from_NoDup sameValueZero_eq).
  assert (Hin : forall k, In k keys <->
                  exists r, In r data /\ Sql.groupValue_of g r = k).
  { intros k. unfold keys, distinct. rewrite (distinct_from_In sameValueZero_eq).
    rewrite in_map_iff. split.
    - intros [(r & E & Hr) _]. now exists r.
    - intros (r & Hr & E). split; [now exists r | intros []]. }
  split; [|split; [|split]].
  - apply (@concat_filters_perm _ _ _ sameValueZero_eq (Sql.groupValue_of g) _ Hk).
    intros r Hr. apply Hin. now exists r.
  - now rewrite map_id.
  - intros k rows H. apply in_map_iff in H. destruct H as (k' & E & Hk').
    inversion E; subst k' rows. split.
    + apply Hin in Hk'. destruct Hk' as (r & Hr & Hg). intros E'.
      assert (In r (rows_of_group g data k)) as H
        by (apply filter_In; split; [exact Hr | now apply sameValueZero_eq]).
      rewrite E' in H. destruct H.
    + intros r Hr. apply filter_In in Hr. now apply sameValueZero_eq.
  - intros k rows H r Hr Hg. apply in_map_iff in H.
    destruct H as (k' & E & Hk'). inversion E; subst k' rows.
    apply filter_In. split; [exact Hr | now apply sameValueZero_eq].
Qed.

End GroupPartition.

(* ================================================================== *)
(** ** The series of the charts                                         *)
(* ================================================================== *)

Section ChartSeries.

Import Number Js Props.
Local Open Scope string_scope.
Local Open Scope list_scope.

Variable data : list Viz.row.
Variables xAxis yAxis : string.

Lemma y_items_length :
  List.length (y_items data xAxis yAxis)
  = List.length
      (filter (fun r => negb (isNaN (parseFloat (get r yAxis)))) data).
Proof.
  unfold y_items. induction data as [|r d IH]; cbn; [reflexivity|].
  rewrite length_app, IH.
  now destruct (negb (isNaN (parseFloat (get r yAxis)))).
Qed.

Lemma y_items_labels :
  map fst (y_items data xAxis yAxis)
  = map (fun r => Viz.x_label r xAxis)
        (filter (fun r => negb (isNaN (parseFloat (get r yAxis)))) data).
Proof.
  unfold y_items. induction data as [|r d IH]; cbn; [reflexivity|].
  rewrite map_app, IH.
  now destruct (negb (isNaN (parseFloat (get r yAxis)))).
Qed.

Lemma y_values_of_length (x : string) :
  List.length (y_values_of data xAxis yAxis x)
  = List.length
      (filter (fun r => String.eqb (Viz.x_label r xAxis) x)
              (filter (fun r => negb (isNaN (parseFloat (get r yAxis)))) data)).
Proof.
  unfold y_values_of. induction data as [|r d IH]; cbn; [reflexivity|].
  destruct (String.eqb (Viz.x_label r xAxis) x) eqn:Ex; cbn;
    destruct (isNaN (parseFloat (get r yAxis))) eqn:En; cbn;
    rewrite ?Ex; cbn; now rewrite ?IH.
Qed.

Lemma values_with_key_lengths (K X : Type) (eqb : K -> K -> bool)
  (Heq : forall a b, eqb a b = true <-> a = b) (items : list (K * X)) :
  list_sum (map (fun k => List.length (values_with_key eqb k items))
                (distinct eqb (map fst items)))
  = List.length items.
Proof.
  assert (Hd : NoDup (distinct eqb (map fst items)))
    by apply (distinct_from_NoDup Heq).
  assert (Hin : forall kx, In kx items ->
                  In (fst kx) (distinct eqb (map fst items))).
  { intros kx H. unfold distinct. apply (distinct_from_In Heq).
    split; [now apply in_map | intros []]. }
  pose proof (Permutation_length
                (@concat_filters_perm _ _ eqb Heq fst _ Hd items Hin)) as E.
  rewrite length_concat, map_map in E. rewrite <- E. f_equal.
  apply map_ext. intros k. unfold values_with_key. now rewrite length_map.
Qed.

(** X10.  The points of a bar or line chart partition the rows whose y
    parses: there is one point per label of such a row, in the order in
    which the labels are first seen, no label twice; the count of a point is
    the number of these rows with its label, at least one; and the counts
    add up to the number of rows whose y parses. *)
Theorem X10_categorical_counts_partition_the_rows :
  let points := Viz.processCategoricalData data xAxis yAxis in
  let parseable :=
    filter (fun r => negb (isNaN (parseFloat (get r yAxis)))) data in
  map Viz.cat_x points
  = distinct String.eqb (map (fun r => Viz.x_label r xAxis) parseable)
  /\ NoDup (map Viz.cat_x points)
  /\ (forall p, In p points ->
        (1 <= Viz.cat_count p)%nat
        /\ Viz.cat_count p
           = List.length
               (filter (fun r => String.eqb (Viz.x_label r xAxis) (Viz.cat_x p))
                       parseable))
  /\ list_sum (map Viz.cat_count points) = List.length parseable
  /\ (List.length points <= List.length parseable <= List.length data)%nat.
Proof.
  cbv zeta.
  set (parseable := filter (fun r => negb (isNaN (parseFloat (get r yAxis)))) data).
  assert (Ek : map fst (y_items data xAxis yAxis)
               = map (fun r => Viz.x_label r xAxis) parseable)
    by apply y_items_labels.
  assert (Ev : forall x,
             List.length (y_values_of data xAxis yAxis x)
             = List.length
                 (filter (fun r => String.eqb (Viz.x_label r xAxis) x) parseable))
    by (intros x; apply y_values_of_length).
  assert (Ep : map Viz.cat_x (Viz.processCategoricalData data xAxis yAxis)
               = distinct String.eqb (map fst (y_items data xAxis yAxis))).
  { unfold Viz.processCategoricalData. rewrite group_y_spec, !map_map.
    cbn. apply map_id. }
  assert (Ec : map Viz.cat_count (Viz.processCategoricalData data xAxis yAxis)
               = map (fun x => List.length (y_values_of data xAxis yAxis x))
                     (distinct String.eqb (map fst (y_items data xAxis yAxis)))).
  { unfold Viz.processCategoricalData. now rewrite group_y_spec, !map_map. }
  assert (Hsum : list_sum (map Viz.cat_count
                             (Viz.processCategoricalData data xAxis yAxis))
                 = List.length parseable).
  { rewrite Ec. unfold parseable. rewrite <- y_items_length.
    rewrite <- (values_with_key_lengths String.eqb_eq).
    f_equal. apply map_ext. intros x. now rewrite values_with_key_y_items. }
  split; [now rewrite Ep, Ek|].
  split; [rewrite Ep; apply (distinct_from_NoDup String.eqb_eq)|].
  split; [|split; [exact Hsum|]].
  - intros p Hp. unfold Viz.processCategoricalData in Hp.
    rewrite group_y_spec, map_map in Hp. apply in_map_iff in Hp.
    destruct Hp as (x & <- & Hx). cbn [Viz.cat_count Viz.cat_x].
    split; [|apply Ev].
    unfold distinct in Hx. apply (distinct_from_In String.eqb_eq) in Hx.
    pose proof (y_values_nonempty (proj1 Hx)) as Hne.
    destruct (y_values_of data xAxis yAxis x); [now elim Hne | cbn; lia].
  - split; [|apply filter_length_le].
    rewrite <- (length_map Viz.cat_x), Ep, Ek.
    etransitivity; [apply distinct_from_length|]. now rewrite length_map.
Qed.

Lemma Map_set_keys (V : Type) (m : jsmap string V) (k : string) (v : V) :
  map fst (Map_set String.eqb m k v)
  = if Map_has String.eqb m k then map fst m else map fst m ++ [k].
Proof.
  induction m as [|[k' w] m IH]; cbn; [reflexivity|].
  destruct (String.eqb k' k) eqn:E; cbn; [reflexivity|].
  rewrite IH. now destruct (Map_has String.eqb m k).
Qed.

Lemma pie_keys (rows : list Viz.row) :
  forall m : jsmap string number,
    map fst (fold_left (Viz.add_to_slice xAxis yAxis) rows m)
    = map fst m
      ++ distinct_from String.eqb (map fst m)
           (map (fun r => Viz.x_label r xAxis) rows).
Proof.
  induction rows as [|r rows IH]; intros m; cbn [fold_left map distinct_from].
  - now rewrite app_nil_r.
  - rewrite IH. unfold Viz.add_to_slice. rewrite Map_set_keys.
    destruct (Map_has String.eqb m (Viz.x_label r xAxis)) eqn:Eh;
      destruct (existsb (String.eqb (Viz.x_label r xAxis)) (map fst m)) eqn:Ee.
    + reflexivity.
    + apply (Map_has_In String.eqb_eq) in Eh.
      apply (existsb_key_In String.eqb_eq) in Eh. congruence.
    + apply (existsb_key_In String.eqb_eq) in Ee.
      apply (Map_has_In String.eqb_eq) in Ee. congruence.
    + now rewrite <- app_assoc.
Qed.

Lemma pie_labels :
  map Viz.label (Viz.processPieData data xAxis yAxis)
  = distinct String.eqb (map (fun r => Viz.x_label r xAxis) data).
Proof.
  unfold Viz.processPieData. rewrite map_map.
  change (distinct String.eqb (map (fun r => Viz.x_label r xAxis) data))
    with (map fst (@nil (string * number))
          ++ distinct_from String.eqb (map fst (@nil (string * number)))
               (map (fun r => Viz.x_label r xAxis) data)).
  rewrite <- (pie_keys data []). apply map_ext. now intros [l v].
Qed.

(** X12.  A pie chart has one slice per label of the table, in the order in
    which the labels are first seen and no label twice.  Every row counts,
    also one whose y does not parse: each label of the bar chart of the same
    table is the label of a slice, and a table with a row has a slice. *)
Theorem X12_pie_has_a_slice_per_label :
  let slices := Viz.processPieData data xAxis yAxis in
  map Viz.label slices
  = distinct String.eqb (map (fun r => Viz.x_label r xAxis) data)
  /\ NoDup (map Viz.label slices)
  /\ (forall r, In r data -> In (Viz.x_label r xAxis) (map Viz.label slices))
  /\ (forall p, In p (Viz.processCategoricalData data xAxis yAxis) ->
        In (Viz.cat_x p) (map Viz.label slices))
  /\ (List.length slices <= List.length data)%nat.
Proof.
  cbv zeta.
  assert (E : map Viz.label (Viz.processPieData data xAxis yAxis)
              = distinct String.eqb (map (fun r => Viz.x_label r xAxis) data))
    by apply pie_labels.
  assert (Hall : forall r, In r data ->
            In (Viz.x_label r xAxis)
               (map Viz.label (Viz.processPieData data xAxis yAxis))).
  { intros r Hr. rewrite E. unfold distinct.
    apply (distinct_from_In String.eqb_eq). split; [|intros []].
    now apply (in_map (fun r0 => Viz.x_label r0 xAxis)). }
  split; [exact E|].
  split; [rewrite E; apply (distinct_from_NoDup String.eqb_eq)|].
  split; [exact Hall|]. split.
  - intros p Hp. unfold Viz.processCategoricalData in Hp.
    rewrite group_y_spec, map_map in Hp. apply in_map_iff in Hp.
    destruct Hp as (x & <- & Hx). cbn [Viz.cat_x].
    unfold distinct in Hx. apply (distinct_from_In String.eqb_eq) in Hx.
    destruct Hx as [Hx _]. apply in_map_iff in Hx.
    destruct Hx as ([x' v] & Ex & Hin). cbn in Ex. subst x'.
    unfold y_items in Hin. apply in_flat_map in Hin.
    destruct Hin as (r & Hr & Hin).
    destruct (negb (isNaN (parseFloat (get r yAxis)))); [|destruct Hin].
    destruct Hin as [Hin|[]]. inversion Hin. now apply Hall.
  - rewrite <- (length_map Viz.label), E.
    etransitivity; [apply distinct_from_length|]. now rewrite length_map.
Qed.

End ChartSeries.

(* ================================================================== *)
(** ** Sizes of the series                                              *)
(* ================================================================== *)

Section SeriesSize.

Import Number Js Props Shapes.
Local Open Scope string_scope.
Local Open Scope list_scope.
Local Open Scope Z_scope.

Lemma update_length (A : Type) (f : A -> A) (l : list A) :
  forall i, List.length (Viz.update l i f) = List.length l.
Proof. induction l as [|a l IH]; intros [|i]; cbn; auto. Qed.

Lemma increment_bin_length (bins : list number) (binIndex : number) :
  List.length (Viz.increment_bin bins binIndex) = List.length bins.
Proof.
  unfold Viz.increment_bin. destruct (to_index binIndex); [|reflexivity].
  apply update_length.
Qed.

Lemma fold_increment_length (A : Type) (index_of : A -> number) (l : list A) :
  forall bins,
    List.length (fold_left (fun bins value =>
                              Viz.increment_bin bins (index_of value)) l bins)
    = List.length bins.
Proof.
  induction l as [|v l IH]; intros bins; cbn [fold_left]; [reflexivity|].
  now rewrite IH, increment_bin_length.
Qed.

Lemma Array_fill_zero_integer (c : Z) :
  0 <= c ->
  Viz.Array_fill_zero (integer c) = map integer (repeat 0 (Z.to_nat c)).
Proof.
  intros Hc. unfold Viz.Array_fill_zero, integer.
  rewrite to_index_integer by exact Hc.
  rewrite of_Z_zero, map_repeat. now rewrite Z.mul_0_l.
Qed.

(** A histogram of at least one value has between one and ten bins. *)
Lemma histogram_length (data : list Viz.row) (xAxis : string) :
  Viz.parsed_values data xAxis <> [] ->
  exists c, 1 <= c <= 10
            /\ List.length (Viz.processHistogramData data xAxis) = Z.to_nat c.
Proof.
  intros Hne. unfold Viz.processHistogramData.
  remember (Viz.parsed_values data xAxis) as values eqn:Ev. clear Ev.
  destruct values as [|v0 rest]; [now elim Hne|].
  remember (v0 :: rest) as values eqn:Ev.
  assert (Hlen : (0 < List.length values)%nat) by (rewrite Ev; cbn; lia).
  destruct (binCount_is_length Hlen) as (c & Hc & Ec).
  cbv zeta. rewrite Ec. fold (integer c). exists c. split; [exact Hc|].
  rewrite <- (length_map Viz.bin_y), bins_to_points_counts.
  rewrite fold_increment_length, Array_fill_zero_integer by lia.
  now rewrite length_map, repeat_length.
Qed.

Lemma parsed_values_length (data : list Viz.row) (xAxis : string) :
  (List.length (Viz.parsed_values data xAxis) <= List.length data)%nat.
Proof.
  unfold Viz.parsed_values. etransitivity; [apply filter_length_le|].
  now rewrite length_map.
Qed.

(** X13.  No chart has more elements than the table has rows, except that a
    histogram has at most ten bins, however few the rows; an empty table
    gives an empty series under every chart type, and a chart type that is
    none of the six known ones gives the table back. *)
Theorem X13_series_never_outgrows_the_table
  (data : list Viz.row) (xAxis yAxis chartType : string) :
  let series := Viz.processDataForChart data xAxis yAxis chartType in
  (chartType <> "histogram" ->
     (chart_size series <= List.length data)%nat)
  /\ (chartType = "histogram" -> (chart_size series <= 10)%nat)
  /\ (data = [] -> chart_size series = O)
  /\ (~ In chartType ["bar"; "line"; "scatter"; "pie"; "histogram"; "box"] ->
      series = Viz.Raw data).
Proof.
  cbv zeta.
  assert (Hcat : (List.length (Viz.processCategoricalData data xAxis yAxis)
                  <= List.length data)%nat).
  { unfold Viz.processCategoricalData. rewrite length_map, group_y_spec, length_map.
    etransitivity; [apply distinct_from_length|]. rewrite length_map.
    rewrite y_items_length. apply filter_length_le. }
  assert (Hbox : (List.length (Viz.processBoxData data xAxis yAxis)
                  <= List.length data)%nat).
  { unfold Viz.processBoxData. rewrite length_map.
    unfold Viz.processCategoricalData in Hcat. now rewrite length_map in Hcat. }
  assert (Hsc : (List.length (Viz.processScatterData data xAxis yAxis)
                 <= List.length data)%nat).
  { unfold Viz.processScatterData. etransitivity; [apply filter_length_le|].
    now rewrite length_map. }
  assert (Hpie : (List.length (Viz.processPieData data xAxis yAxis)
                  <= List.length data)%nat).
  { unfold Viz.processPieData. rewrite length_map, <- (length_map fst).
    rewrite (pie_keys xAxis yAxis data []). cbn [map app].
    etransitivity; [apply distinct_from_length|]. now rewrite length_map. }
  assert (Hhist : (List.length (Viz.processHistogramData data xAxis) <= 10)%nat
                  /\ (data = [] -> Viz.processHistogramData data xAxis = [])).
  { split.
    - destruct (Viz.parsed_values data xAxis) eqn:E.
      + rewrite histogram_without_values by exact E. cbn. lia.
      + destruct (@histogram_length data xAxis) as (c & Hc & ->); [|lia].
        rewrite E. discriminate.
    - intros ->. reflexivity. }
  unfold Viz.processDataForChart.
  destruct (String.eqb chartType "bar") eqn:E1.
  { apply String.eqb_eq in E1. subst chartType. cbn [orb chart_size].
    split; [intros _; exact Hcat|]. split; [discriminate|].
    split; [intros ->; reflexivity|].
    intros H. elim H. now left. }
  destruct (String.eqb chartType "line") eqn:E2.
  { apply String.eqb_eq in E2. subst chartType. cbn [orb chart_size].
    split; [intros _; exact Hcat|]. split; [discriminate|].
    split; [intros ->; reflexivity|].
    intros H. elim H. right. now left. }
  cbn [orb].
  destruct (String.eqb chartType "scatter") eqn:E3.
  { apply String.eqb_eq in E3. subst chartType. cbn [chart_size].
    split; [intros _; exact Hsc|]. split; [discriminate|].
    split; [intros ->; reflexivity|].
    intros H. elim H. right. right. now left. }
  destruct (String.eqb chartType "pie") eqn:E4.
  { apply String.eqb_eq in E4. subst chartType. cbn [chart_size].
    split; [intros _; exact Hpie|]. split; [discriminate|].
    split; [intros ->; reflexivity|].
    intros H. elim H. right. right. right. now left. }
  destruct (String.eqb chartType "histogram") eqn:E5.
  { apply String.eqb_eq in E5. subst chartType. cbn [chart_size].
    split; [intros H; now elim H|]. split; [intros _; apply Hhist|].
    split; [intros E; now rewrite (proj2 Hhist E)|].
    intros H. elim H. right. right. right. right. now left. }
  destruct (String.eqb chartType "box") eqn:E6.
  { apply String.eqb_eq in E6. subst chartType. cbn [chart_size].
    split; [intros _; exact Hbox|]. split; [discriminate|].
    split; [intros ->; reflexivity|].
    intros H. elim H. right. right. right. right. right. now left. }
  cbn [chart_size]. split; [intros _; lia|].
  split; [intros ->; discriminate E5|].
  split; [now intros ->|reflexivity].
Qed.

Lemma bump_total_le (counts : list Z) :
  forall j, total counts <= total (bump counts j) <= total counts + 1.
Proof.
  induction counts as [|m rest IH]; intros j; cbn [bump total fold_right].
  - destruct j; cbn; lia.
  - destruct j as [|j]; cbn [total fold_right].
    + lia.
    + fold (total (bump rest j)). fold (total rest). specialize (IH j). lia.
Qed.

(** [bins[i]++] on an array of small integers, for an index of any size. *)
Lemma update_integer (counts : list Z) :
  Forall (fun m => 0 <= m) counts -> total counts < 2 ^ 52 ->
  forall i,
    Viz.update (map integer counts) i (fun count => add count (of_Z 1))
    = map integer (bump counts i).
Proof.
  intros Hc. induction Hc as [|m rest Hm Hrest IH]; intros Ht i;
    [destruct i; reflexivity|].
  cbn [total fold_right] in Ht. fold (total rest) in Ht.
  pose proof (total_nonneg Hrest).
  destruct i as [|i]; cbn [map Viz.update bump].
  - f_equal. unfold integer. rewrite of_Z_small by (split; [lia | now vm_compute]).
    cbn [add]. replace (m * one_ulps + 1 * one_ulps) with ((m + 1) * 2 ^ 1074)
      by (unfold one_ulps; ring).
    unfold one_ulps. apply round64_exact; try lia.
    rewrite Z.abs_eq by lia. apply small_below_overflow. lia.
  - f_equal. apply IH. lia.
Qed.

Lemma fold_bins_any (A : Type) (index_of : A -> number) (l : list A) :
  forall counts,
    Forall (fun m => 0 <= m) counts ->
    total counts + Z.of_nat (List.length l) < 2 ^ 52 ->
    exists counts',
      fold_left (fun bins value => Viz.increment_bin bins (index_of value))
                l (map integer counts)
      = map integer counts'
      /\ List.length counts' = List.length counts
      /\ Forall (fun m => 0 <= m) counts'
      /\ total counts <= total counts'
         <= total counts + Z.of_nat (List.length l).
Proof.
  induction l as [|v l IH]; intros counts Hpos Ht.
  - exists counts. cbn. repeat split; trivial; lia.
  - cbn [fold_left]. cbn [List.length] in Ht. rewrite Nat2Z.inj_succ in Ht.
    unfold Viz.increment_bin at 2.
    destruct (to_index (index_of v)) as [i|].
    + rewrite update_integer by (trivial || lia).
      pose proof (bump_total_le counts i) as Hb.
      destruct (IH (bump counts i)) as (counts' & E & H1 & H2 & H3).
      * now apply bump_nonneg.
      * lia.
      * exists counts'. rewrite bump_length in H1. repeat split; trivial.
        -- lia.
        -- cbn [List.length]. rewrite Nat2Z.inj_succ. lia.
    + destruct (IH counts) as (counts' & E & H1 & H2 & H3); [trivial | lia |].
      exists counts'. repeat split; trivial; try lia.
      cbn [List.length]. rewrite Nat2Z.inj_succ. lia.
Qed.

(** X14.  Whatever the values, a histogram counts no value twice and makes
    up none: its counts are non-negative integers whose sum is at most the
    number of parseable values; there are at most ten bins, and at least one
    when a value parses. *)
Theorem X14_histogram_counts_are_bounded
  (data : list Viz.row) (xAxis : string) :
  Z.of_nat (List.length data) < 2 ^ 32 ->
  exists counts,
    map Viz.bin_y (Viz.processHistogramData data xAxis) = map integer counts
    /\ Forall (fun m => 0 <= m) counts
    /\ total counts <= Z.of_nat (List.length (Viz.parsed_values data xAxis))
    /\ (List.length counts <= 10)%nat
    /\ (Viz.parsed_values data xAxis <> [] -> (1 <= List.length counts)%nat).
Proof.
  intros Hn. pose proof (parsed_values_length data xAxis) as Hle.
  unfold Viz.processHistogramData.
  remember (Viz.parsed_values data xAxis) as values eqn:Ev. clear Ev.
  destruct values as [|v0 rest].
  { exists []. cbn. repeat split; try constructor; try lia.
    intros H. now elim H. }
  remember (v0 :: rest) as values eqn:Ev.
  assert (Hlen : (0 < List.length values)%nat) by (rewrite Ev; cbn; lia).
  destruct (binCount_is_length Hlen) as (c & Hc & Ec).
  cbv zeta. rewrite Ec. fold (integer c).
  rewrite bins_to_points_counts, Array_fill_zero_integer by lia.
  destruct (@fold_bins_any number
              (Viz.binIndex_of (Math_min values)
                 (div (sub (Math_max values) (Math_min values)) (integer c))
                 (integer c))
              values (repeat 0 (Z.to_nat c)))
    as (counts & E & H1 & H2 & H3).
  - apply Forall_forall. intros m Hm. apply repeat_spec in Hm. lia.
  - rewrite total_repeat_zero. pose proof (Z.pow_lt_mono_r 2 32 52). lia.
  - exists counts. rewrite total_repeat_zero in H3.
    rewrite repeat_length in H1.
    split; [exact E|]. split; [exact H2|]. split; [lia|]. split; lia.
Qed.

End SeriesSize.

Section SeriesSizeExamples.

Import Number Js Props Shapes.
Local Open Scope string_scope.
Local Open Scope list_scope.
Local Open Scope Z_scope.

Lemma X14_histogram_witness :
  let data : list Viz.row := [[("x", VStr "1")]; [("x", VStr "n/a")]] in
  Z.of_nat (List.length data) < 2 ^ 32
  /\ exists counts,
       map Viz.bin_y (Viz.processHistogramData data "x") = map integer counts
       /\ Forall (fun m => 0 <= m) counts
       /\ total counts <= Z.of_nat (List.length (Viz.parsed_values data "x"))
       /\ (List.length counts <= 10)%nat
       /\ (Viz.parsed_values data "x" <> [] -> (1 <= List.length counts)%nat).
Proof.
  cbv zeta.
  assert (H : Z.of_nat (List.length [[("x", VStr "1")]; [("x", VStr "n/a")]])
              < 2 ^ 32) by reflexivity.
  split; [exact H|].
  exact (@X14_histogram_counts_are_bounded _ "x" H).
Defined.

End SeriesSizeExamples.

(* ================================================================== *)
(** ** Advice, configuration and the run of the chart tool              *)
(* ================================================================== *)

Section ChartAdvice.

Import Number Js Props Shapes.
Local Open Scope string_scope.
Local Open Scope list_scope.

Ltac chart_type_cases chartType :=
  destruct (String.eqb chartType "bar") eqn:?Ebar;
  destruct (String.eqb chartType "line") eqn:?Eline;
  destruct (String.eqb chartType "scatter") eqn:?Escatter;
  destruct (String.eqb chartType "pie") eqn:?Epie;
  try (repeat match goal with
              | H : String.eqb _ _ = true |- _ => apply String.eqb_eq in H
              end; congruence).

(** X15.  At most two pieces of advice come back: at most one about the
    chart type, the four being for four different types, and at most one
    about outliers.  The declared columns play no part.  On an empty table a
    line chart and a scatter plot are still advised against, and nothing
    else is said. *)
Theorem X15_at_most_two_pieces_of_advice
  (data : list Viz.row) (columns : list string) (chartType xAxis yAxis : string) :
  let advice := Viz.generateRecommendations data columns chartType xAxis yAxis in
  (List.length advice <= 2)%nat
  /\ (~ In chartType ["bar"; "line"; "scatter"; "pie"] ->
      (List.length advice <= 1)%nat)
  /\ (forall columns',
        Viz.generateRecommendations data columns' chartType xAxis yAxis = advice)
  /\ (data = [] ->
      advice
      = if String.eqb chartType "line"
        then ["Consider using a bar chart for categorical X-axis data"]
        else if String.eqb chartType "scatter"
        then ["Scatter plots work best with numeric data on both axes"]
        else []).
Proof.
  cbv zeta. split; [|split; [|split; [reflexivity|]]].
  - unfold Viz.generateRecommendations. cbv zeta.
    set (xIs := existsb is_valid_number (map (fun r => get r xAxis) data)).
    set (yIs := existsb is_valid_number (map (fun r => get r yAxis) data)).
    rewrite !length_app.
    match goal with
    | |- context [if yIs then ?t else []] => set (r5 := if yIs then t else [])
    end.
    assert (H5 : (List.length r5 <= 1)%nat).
    { unfold r5. destruct yIs; [|cbn; lia].
      destruct (0 <? _)%nat; [|cbn; lia].
      destruct (0 <? _)%nat; cbn [List.length]; lia. }
    clearbody r5.
    chart_type_cases chartType;
      destruct xIs, yIs, (10 <? List.length data)%nat;
      cbn [andb orb negb List.length]; lia.
  - intros Hno. unfold Viz.generateRecommendations. cbv zeta.
    set (xIs := existsb is_valid_number (map (fun r => get r xAxis) data)).
    set (yIs := existsb is_valid_number (map (fun r => get r yAxis) data)).
    rewrite !length_app.
    match goal with
    | |- context [if yIs then ?t else []] => set (r5 := if yIs then t else [])
    end.
    assert (H5 : (List.length r5 <= 1)%nat).
    { unfold r5. destruct yIs; [|cbn; lia].
      destruct (0 <? _)%nat; [|cbn; lia].
      destruct (0 <? _)%nat; cbn [List.length]; lia. }
    clearbody r5.
    assert (E1 : String.eqb chartType "bar" = false).
    { apply String.eqb_neq. intros ->. apply Hno. now left. }
    assert (E2 : String.eqb chartType "line" = false).
    { apply String.eqb_neq. intros ->. apply Hno. right. now left. }
    assert (E3 : String.eqb chartType "scatter" = false).
    { apply String.eqb_neq. intros ->. apply Hno. right. right. now left. }
    assert (E4 : String.eqb chartType "pie" = false).
    { apply String.eqb_neq. intros ->. apply Hno. right. right. right. now left. }
    rewrite E1, E2, E3, E4. cbn [andb List.length]. lia.
  - intros ->. unfold Viz.generateRecommendations. cbn [map existsb].
    cbv zeta. cbn [negb andb orb List.length Nat.ltb Nat.leb].
    rewrite !andb_false_r, !andb_true_r. cbn [app].
    chart_type_cases chartType; reflexivity.
Qed.

Lemma distinct_repeat (l : string) (n : nat) :
  distinct String.eqb (repeat l (S n)) = [l].
Proof.
  unfold distinct. cbn [repeat distinct_from existsb app]. f_equal.
  induction n as [|n IH]; cbn [repeat distinct_from existsb]; [reflexivity|].
  now rewrite String.eqb_refl.
Qed.

(** X16.  The advice against a pie chart is given exactly when the table has
    more than ten rows.  It is the rows that are counted, not the slices: a
    table of eleven or more rows with one and the same label gets the advice
    for a pie of a single slice. *)
Theorem X16_pie_advice_counts_rows
  (data : list Viz.row) (columns : list string) (xAxis yAxis : string) :
  let advice :=
    "Pie charts become hard to read with more than 10 categories. Consider a bar chart instead." in
  (In advice (Viz.generateRecommendations data columns "pie" xAxis yAxis)
   <-> (10 < List.length data)%nat)
  /\ forall (r : Viz.row) (n : nat),
       (10 < n)%nat ->
       In advice (Viz.generateRecommendations (repeat r n) columns "pie"
                    xAxis yAxis)
       /\ List.length (Viz.processPieData (repeat r n) xAxis yAxis) = 1%nat.
Proof.
  cbv zeta.
  assert (Hiff : forall d,
            In "Pie charts become hard to read with more than 10 categories. Consider a bar chart instead."
               (Viz.generateRecommendations d columns "pie" xAxis yAxis)
            <-> (10 < List.length d)%nat).
  { intros d. unfold Viz.generateRecommendations. cbv zeta.
    change (String.eqb "pie" "bar") with false.
    change (String.eqb "pie" "line") with false.
    change (String.eqb "pie" "scatter") with false.
    change (String.eqb "pie" "pie") with true.
    cbn [andb app].
    destruct (Nat.ltb_spec 10 (List.length d)) as [Hlt|Hge].
    - split; [intros _; exact Hlt | intros _; now left].
    - split; [|lia]. cbn [app]. intros H.
      destruct (existsb is_valid_number (map (fun r => get r yAxis) d));
        [|destruct H].
      destruct (0 <? _)%nat; [|destruct H].
      destruct (0 <? _)%nat; [|destruct H].
      destruct H as [H|[]]. discriminate H. }
  split; [apply Hiff|].
  intros r n Hn. split.
  - apply Hiff. rewrite repeat_length. exact Hn.
  - rewrite <- (length_map Viz.label).
    rewrite (pie_labels (repeat r n) xAxis yAxis). destruct n as [|n]; [lia|].
    rewrite map_repeat, distinct_repeat. reflexivity.
Qed.

End ChartAdvice.

Section ChartRun.

Import Number Js Props Shapes.
Local Open Scope string_scope.
Local Open Scope list_scope.

Lemma of_Z_truthy (z : Z) :
  (0 < z < 2 ^ 53)%Z -> truthy (VNum (of_Z z)) = true.
Proof.
  intros Hz. rewrite of_Z_small by lia. cbn [truthy].
  pose proof one_ulps_pos. apply negb_true_iff, Z.eqb_neq. nia.
Qed.

(** X17.  [execute] succeeds exactly when both axes are among the declared
    columns and the series can be computed: the one series that cannot is a
    histogram of more parseable values than the engine takes as the
    arguments of one call, where the spread into [Math.min] throws.  On
    success the series is the one of [processDataForChart], the
    configuration repeats the chart type, carries that series and labels the
    axes with the column names, the advice is set and no error is reported.
    On failure only the error is set: the message about the X axis, else the
    one about the Y axis, else the message of the engine. *)
Theorem X17_chart_run_succeeds_iff_axes_and_series (e : engine) (i : Viz.input) :
  let out := Viz.execute e i in
  let series :=
    Viz.processDataForChart (Viz.in_data i) (Viz.in_xAxis i) (Viz.in_yAxis i)
      (Viz.in_chartType i) in
  let declared c := In c (Viz.in_columns i) in
  let too_long :=
    Viz.in_chartType i = "histogram"
    /\ (max_arguments e
        < List.length (Viz.parsed_values (Viz.in_data i) (Viz.in_xAxis i)))%nat in
  (Viz.success out = true
   <-> declared (Viz.in_xAxis i) /\ declared (Viz.in_yAxis i) /\ ~ too_long)
  /\ (Viz.success out = true ->
      Viz.chartData out = Some series
      /\ Viz.error out = None
      /\ Viz.recommendations out
         = Some (Viz.generateRecommendations (Viz.in_data i) (Viz.in_columns i)
                   (Viz.in_chartType i) (Viz.in_xAxis i) (Viz.in_yAxis i))
      /\ exists config,
           Viz.chartConfig out = Some config
           /\ Viz.config_type config = Viz.in_chartType i
           /\ Viz.config_data config = series
           /\ Viz.xAxis_label (Viz.config_opts config) = Viz.in_xAxis i
           /\ Viz.yAxis_label (Viz.config_opts config) = Viz.in_yAxis i)
  /\ (Viz.success out = false ->
      exists message,
        out = Viz.mkOutput false None None (Some message) None
        /\ (~ declared (Viz.in_xAxis i) ->
            message
            = ("X-axis column '" ++ Viz.in_xAxis i ++ "' not found in data")%string)
        /\ (declared (Viz.in_xAxis i) -> ~ declared (Viz.in_yAxis i) ->
            message
            = ("Y-axis column '" ++ Viz.in_yAxis i ++ "' not found in data")%string)
        /\ (declared (Viz.in_xAxis i) -> declared (Viz.in_yAxis i) ->
            message = range_error_message e)).
Proof.
  cbv zeta. unfold Viz.execute, Viz.execute_try. cbv zeta.
  setoid_rewrite <- Array_includes_In.
  assert (Hthrow :
            Viz.processDataForChart_throws e (Viz.in_data i) (Viz.in_xAxis i)
              (Viz.in_chartType i) = true
            <-> Viz.in_chartType i = "histogram"
                /\ (max_arguments e
                    < List.length
                        (Viz.parsed_values (Viz.in_data i) (Viz.in_xAxis i)))%nat).
  { unfold Viz.processDataForChart_throws, spread_throws.
    rewrite andb_true_iff, String.eqb_eq, Nat.ltb_lt. tauto. }
  destruct (Array_includes (Viz.in_columns i) (Viz.in_xAxis i)) eqn:Ex;
    cbn [negb].
  - destruct (Array_includes (Viz.in_columns i) (Viz.in_yAxis i)) eqn:Ey;
      cbn [negb].
    + destruct (Viz.processDataForChart_throws e (Viz.in_data i)
                  (Viz.in_xAxis i) (Viz.in_chartType i)) eqn:Et;
        cbn [Viz.success Viz.chartData Viz.error Viz.recommendations
             Viz.chartConfig].
      * split; [split; [discriminate|]|].
        { intros (_ & _ & H). exfalso. apply H, Hthrow. reflexivity. }
        split; [discriminate|]. intros _. eexists. split; [reflexivity|].
        split; [intros H; now elim H|]. split; [intros _ H; now elim H|].
        reflexivity.
      * split.
        { split; [|reflexivity]. intros _. split; [reflexivity|].
          split; [reflexivity|]. intros H. apply Hthrow in H. discriminate H. }
        split; [|discriminate]. intros _.
        split; [reflexivity|]. split; [reflexivity|]. split; [reflexivity|].
        eexists. split; [reflexivity|].
        unfold Viz.generateChartConfig. cbv zeta.
        cbn [Viz.config_type Viz.config_data].
        split; [reflexivity|]. split; [reflexivity|].
        cbn [Viz.config_opts].
        destruct (String.eqb (Viz.in_chartType i) "bar");
          [split; reflexivity|].
        destruct (String.eqb (Viz.in_chartType i) "line");
          [split; reflexivity|].
        destruct (String.eqb (Viz.in_chartType i) "scatter");
          [split; reflexivity|].
        destruct (String.eqb (Viz.in_chartType i) "pie");
          [split; reflexivity|].
        destruct (String.eqb (Viz.in_chartType i) "histogram");
          split; reflexivity.
    + cbn [Viz.success].
      split; [split; [discriminate | intros (_ & H & _); discriminate H]|].
      split; [discriminate|]. intros _. eexists. split; [reflexivity|].
      split; [intros H; now elim H|]. split; [reflexivity|].
      intros _ H. discriminate H.
  - cbn [Viz.success].
    split; [split; [discriminate | intros (H & _); discriminate H]|].
    split; [discriminate|]. intros _. eexists. split; [reflexivity|].
    split; [reflexivity|]. split; intros H; discriminate H.
Qed.

(** A histogram of four values on an engine that takes three arguments:
    the run fails; with three values it succeeds. *)
Lemma histogram_of_a_long_column_fails :
  let r : Viz.row := [("x", VNum (Fin 0)); ("y", VNum (Fin 0))] in
  let i data :=
    Viz.mkInput data ["x"; "y"] "histogram" "x" "y" None None in
  Viz.execute small_engine (i [r; r; r; r])
  = Viz.mkOutput false None None (Some "Maximum call stack size exceeded") None
  /\ Viz.success (Viz.execute small_engine (i [r; r; r])) = true.
Proof. intros r i. split; now vm_compute. Qed.

(** X18.  A configuration is never left without a title, a colour, a width
    or a height: an absent or empty title becomes the capitalised chart type
    followed by [Chart], an absent or empty colour the default blue, an
    absent, zero or NaN width or height 800 and 600.  The legend is on
    unless it is switched off; and the options of one chart type are set for
    that type only. *)
Theorem X18_configuration_fills_the_defaults
  (chartType : string) (series : Viz.chart_data) (xAxis yAxis : string)
  (title : option string) (options : Viz.input_options) :
  let o := Viz.config_opts
             (Viz.generateChartConfig chartType series xAxis yAxis title options) in
  Str.isEmpty (Viz.title o) = false
  /\ Str.isEmpty (Viz.color o) = false
  /\ truthy (VNum (Viz.width o)) = true
  /\ truthy (VNum (Viz.height o)) = true
  /\ (Viz.showLegend o = false <-> Viz.opt_showLegend options = Some false)
  /\ (Viz.barWidth o <> None <-> chartType = "bar" \/ chartType = "histogram")
  /\ (Viz.lineWidth o <> None <-> chartType = "line")
  /\ (Viz.showPoints o <> None <-> chartType = "line")
  /\ (Viz.pointSize o <> None <-> chartType = "scatter")
  /\ (Viz.showPercentages o <> None <-> chartType = "pie").
Proof.
  cbv zeta.
  assert (Ht : Str.isEmpty
                 (if Str.isEmpty (match title with Some t => t | None => "" end)
                  then (Viz.capitalize chartType ++ " Chart")%string
                  else match title with Some t => t | None => "" end) = false).
  { destruct (Str.isEmpty (match title with Some t => t | None => "" end)) eqn:E;
      [|exact E].
    now destruct chartType. }
  assert (Hc : Str.isEmpty
                 (match Viz.opt_color options with
                  | Some c => if Str.isEmpty c then "#3B82F6" else c
                  | None => "#3B82F6"
                  end) = false).
  { destruct (Viz.opt_color options) as [c|]; [|reflexivity].
    destruct (Str.isEmpty c) eqn:E; [reflexivity | exact E]. }
  assert (Hw : truthy (VNum (match Viz.opt_width options with
                             | Some w => if truthy (VNum w) then w else of_Z 800
                             | None => of_Z 800
                             end)) = true).
  { assert (H8 : truthy (VNum (of_Z 800)) = true)
      by (apply of_Z_truthy; split; [lia | now vm_compute]).
    destruct (Viz.opt_width options) as [w|]; [|exact H8].
    destruct (truthy (VNum w)) eqn:E; [exact E | exact H8]. }
  assert (Hh : truthy (VNum (match Viz.opt_height options with
                             | Some h => if truthy (VNum h) then h else of_Z 600
                             | None => of_Z 600
                             end)) = true).
  { assert (H6 : truthy (VNum (of_Z 600)) = true)
      by (apply of_Z_truthy; split; [lia | now vm_compute]).
    destruct (Viz.opt_height options) as [h|]; [|exact H6].
    destruct (truthy (VNum h)) eqn:E; [exact E | exact H6]. }
  assert (Hl : (match Viz.opt_showLegend options with
                | Some false => false
                | _ => true
                end) = false <-> Viz.opt_showLegend options = Some false).
  { destruct (Viz.opt_showLegend options) as [[|]|]; split;
      (reflexivity || discriminate). }
  unfold Viz.generateChartConfig. cbv zeta. cbn [Viz.config_opts].
  destruct (String.eqb chartType "bar") eqn:E1.
  { apply String.eqb_eq in E1. subst chartType.
    cbn [Viz.title Viz.color Viz.width Viz.height Viz.showLegend Viz.barWidth
         Viz.lineWidth Viz.showPoints Viz.pointSize Viz.showPercentages].
    split; [exact Ht|]. split; [exact Hc|]. split; [exact Hw|].
    split; [exact Hh|]. split; [exact Hl|].
    split; [split; [intros _; now left | discriminate]|]. split; [split; [intros H; now elim H | discriminate]|]. split; [split; [intros H; now elim H | discriminate]|].
    split; [split; [intros H; now elim H | discriminate]|]. split; [intros H; now elim H | discriminate]. }
  destruct (String.eqb chartType "line") eqn:E2.
  { apply String.eqb_eq in E2. subst chartType.
    cbn [Viz.title Viz.color Viz.width Viz.height Viz.showLegend Viz.barWidth
         Viz.lineWidth Viz.showPoints Viz.pointSize Viz.showPercentages].
    split; [exact Ht|]. split; [exact Hc|]. split; [exact Hw|].
    split; [exact Hh|]. split; [exact Hl|].
    split; [split; [intros H; now elim H | intros [H|H]; discriminate H]|]. split; [split; [reflexivity | discriminate]|]. split; [split; [reflexivity | discriminate]|].
    split; [split; [intros H; now elim H | discriminate]|]. split; [intros H; now elim H | discriminate]. }
  destruct (String.eqb chartType "scatter") eqn:E3.
  { apply String.eqb_eq in E3. subst chartType.
    cbn [Viz.title Viz.color Viz.width Viz.height Viz.showLegend Viz.barWidth
         Viz.lineWidth Viz.showPoints Viz.pointSize Viz.showPercentages].
    split; [exact Ht|]. split; [exact Hc|]. split; [exact Hw|].
    split; [exact Hh|]. split; [exact Hl|].
    split; [split; [intros H; now elim H | intros [H|H]; discriminate H]|]. split; [split; [intros H; now elim H | discriminate]|]. split; [split; [intros H; now elim H | discriminate]|].
    split; [split; [reflexivity | discriminate]|]. split; [intros H; now elim H | discriminate]. }
  destruct (String.eqb chartType "pie") eqn:E4.
  { apply String.eqb_eq in E4. subst chartType.
    cbn [Viz.title Viz.color Viz.width Viz.height Viz.showLegend Viz.barWidth
         Viz.lineWidth Viz.showPoints Viz.pointSize Viz.showPercentages].
    split; [exact Ht|]. split; [exact Hc|]. split; [exact Hw|].
    split; [exact Hh|]. split; [exact Hl|].
    split; [split; [intros H; now elim H | intros [H|H]; discriminate H]|]. split; [split; [intros H; now elim H | discriminate]|]. split; [split; [intros H; now elim H | discriminate]|].
    split; [split; [intros H; now elim H | discriminate]|]. split; [reflexivity | discriminate]. }
  destruct (String.eqb chartType "histogram") eqn:E5.
  { apply String.eqb_eq in E5. subst chartType.
    cbn [Viz.title Viz.color Viz.width Viz.height Viz.showLegend Viz.barWidth
         Viz.lineWidth Viz.showPoints Viz.pointSize Viz.showPercentages].
    split; [exact Ht|]. split; [exact Hc|]. split; [exact Hw|].
    split; [exact Hh|]. split; [exact Hl|].
    split; [split; [intros _; now right | discriminate]|]. split; [split; [intros H; now elim H | discriminate]|]. split; [split; [intros H; now elim H | discriminate]|].
    split; [split; [intros H; now elim H | discriminate]|]. split; [intros H; now elim H | discriminate]. }
  apply String.eqb_neq in E1, E2, E3, E4, E5.
  cbn [Viz.title Viz.color Viz.width Viz.height Viz.showLegend Viz.barWidth
         Viz.lineWidth Viz.showPoints Viz.pointSize Viz.showPercentages].
  split; [exact Ht|]. split; [exact Hc|]. split; [exact Hw|].
    split; [exact Hh|]. split; [exact Hl|].
  split; [split; [intros H; now elim H | tauto]|].
  split; [split; [intros H; now elim H | intros H; contradiction]|].
  split; [split; [intros H; now elim H | intros H; contradiction]|].
  split; [split; [intros H; now elim H | intros H; contradiction]|].
  split; [intros H; now elim H | intros H; contradiction].
Qed.

End ChartRun.

(* ================================================================== *)
(** ** Reading and cleaning a file                                      *)
(* ================================================================== *)

Section Trimming.

Import Js Props Shapes.
Local Open Scope string_scope.

Lemma trimEnd_cons (c : ascii) (s : string) :
  Str.trimEnd (String c s)
  = match Str.trimEnd s with
    | EmptyString => if Str.is_space c then EmptyString else String c EmptyString
    | t => String c t
    end.
Proof. reflexivity. Qed.

Lemma trimEnd_no_space (s : string) :
  starts_with_space s = false -> starts_with_space (Str.trimEnd s) = false.
Proof.
  destruct s as [|c s]; [reflexivity|]. intros H. rewrite trimEnd_cons.
  cbn [starts_with_space] in H.
  destruct (Str.trimEnd s); [rewrite H|]; exact H.
Qed.

Lemma trimEnd_idempotent (s : string) :
  Str.trimEnd (Str.trimEnd s) = Str.trimEnd s.
Proof.
  induction s as [|c s IH]; [reflexivity|]. rewrite trimEnd_cons.
  destruct (Str.trimEnd s) as [|c' t] eqn:E.
  - destruct (Str.is_space c) eqn:Ec; [reflexivity|].
    rewrite trimEnd_cons. cbn [Str.trimEnd]. now rewrite Ec.
  - rewrite trimEnd_cons, IH. reflexivity.
Qed.

Lemma trim_idempotent (s : string) : Str.trim (Str.trim s) = Str.trim s.
Proof.
  unfold Str.trim.
  rewrite (trimStart_fixed (trimEnd_no_space (trimStart_no_space s))).
  apply trimEnd_idempotent.
Qed.

Lemma cleaned_value_idempotent (v : value) :
  cleaned_value (cleaned_value v) = cleaned_value v.
Proof.
  destruct v as [| | | |s]; try reflexivity. cbn [cleaned_value].
  destruct (Str.isEmpty (Str.trim s)) eqn:E; [reflexivity|].
  cbn [cleaned_value]. now rewrite trim_idempotent, E.
Qed.

Lemma cleaned_value_not_empty (v : value) (s : string) :
  cleaned_value v = VStr s -> Str.isEmpty s = false /\ trimmed s.
Proof.
  destruct v as [| | | |s0]; try discriminate. cbn [cleaned_value].
  destruct (Str.isEmpty (Str.trim s0)) eqn:E; [discriminate|].
  intros H. inversion H; subst s. split; [exact E | apply trim_idempotent].
Qed.

End Trimming.

Section Objects.

Import Js Props Shapes.
Local Open Scope string_scope.
Local Open Scope list_scope.

Lemma get_set_same (o : object) (k : string) (v : value) :
  get (set o k v) k = v.
Proof. rewrite get_set. now rewrite String.eqb_refl. Qed.

Lemma set_set (o : object) (k : string) (v v' : value) :
  set (set o k v) k v' = set o k v'.
Proof.
  induction o as [|[k0 w] o IH]; cbn.
  - now rewrite String.eqb_refl.
  - destruct (String.eqb k0 k) eqn:E; cbn; rewrite E; [reflexivity|].
    now rewrite IH.
Qed.

Lemma set_keys (o : object) (k : string) (v : value) :
  forall c, In c (Object_keys (set o k v)) <-> In c (Object_keys o) \/ c = k.
Proof.
  intros c. induction o as [|[k0 w] o IH]; cbn.
  - intuition.
  - destruct (String.eqb k0 k) eqn:E; cbn.
    + apply String.eqb_eq in E. subst k0. intuition.
    + rewrite IH. intuition.
Qed.

Lemma set_keys_NoDup (o : object) (k : string) (v : value) :
  NoDup (Object_keys o) -> NoDup (Object_keys (set o k v)).
Proof.
  induction o as [|[k0 w] o IH]; cbn; intros H.
  - constructor; [intros [] | constructor].
  - inversion H as [|? ? Hn Hd]; subst.
    destruct (String.eqb k0 k) eqn:E; cbn; [now constructor|].
    constructor; [|now apply IH].
    intros Hin. apply set_keys in Hin. destruct Hin as [Hin|Hin]; [tauto|].
    subst k0. now rewrite String.eqb_refl in E.
Qed.

Lemma set_values (Q : value -> Prop) (o : object) (k : string) (v : value) :
  Forall (fun kv => Q (snd kv)) o -> Q v ->
  Forall (fun kv => Q (snd kv)) (set o k v).
Proof.
  intros Ho Hv. induction Ho as [|[k0 w] o Hw Ho IH]; cbn.
  - now repeat constructor.
  - destruct (String.eqb k0 k); constructor; trivial.
Qed.

Lemma get_In (o : object) (k : string) :
  In k (Object_keys o) -> In (k, get o k) o.
Proof.
  induction o as [|[k0 w] o IH]; cbn; [intros []|].
  destruct (String.eqb k0 k) eqn:E.
  - apply String.eqb_eq in E. subst k0. intros _. now left.
  - intros [->|H]; [now rewrite String.eqb_refl in E | right; now apply IH].
Qed.

Lemma get_absent (o : object) (k : string) :
  ~ In k (Object_keys o) -> get o k = VUndefined.
Proof.
  induction o as [|[k0 w] o IH]; cbn; [reflexivity|]. intros H.
  destruct (String.eqb k0 k) eqn:E.
  - apply String.eqb_eq in E. tauto.
  - apply IH. tauto.
Qed.

Lemma get_map_values (f : value -> value) (o : object) (k : string) :
  f VUndefined = VUndefined ->
  get (map (fun kv => (fst kv, f (snd kv))) o) k = f (get o k).
Proof.
  intros Hf. induction o as [|[k0 w] o IH]; cbn; [now rewrite Hf|].
  now destruct (String.eqb k0 k).
Qed.

Lemma assign_fresh (o : object) (k : string) (v : value) :
  k <> "__proto__" -> ~ In k (Object_keys o) ->
  Dpt.assign o k v = o ++ [(k, v)].
Proof.
  intros Hk H. unfold Dpt.assign. apply String.eqb_neq in Hk. rewrite Hk.
  now apply set_fresh.
Qed.

Lemma assign_keys (o : object) (k : string) (v : value) :
  forall c, In c (Object_keys (Dpt.assign o k v))
            <-> In c (Object_keys o) \/ (c = k /\ k <> "__proto__").
Proof.
  intros c. unfold Dpt.assign. destruct (String.eqb k "__proto__") eqn:E.
  - apply String.eqb_eq in E. intuition.
  - apply String.eqb_neq in E. rewrite set_keys. intuition.
Qed.

Lemma assign_keys_NoDup (o : object) (k : string) (v : value) :
  NoDup (Object_keys o) -> NoDup (Object_keys (Dpt.assign o k v)).
Proof.
  unfold Dpt.assign. destruct (String.eqb k "__proto__"); [trivial|].
  apply set_keys_NoDup.
Qed.

Lemma assign_values (Q : value -> Prop) (o : object) (k : string) (v : value) :
  Forall (fun kv => Q (snd kv)) o -> Q v ->
  Forall (fun kv => Q (snd kv)) (Dpt.assign o k v).
Proof.
  unfold Dpt.assign. destruct (String.eqb k "__proto__"); [trivial|].
  apply set_values.
Qed.

Lemma without_proto_fixed (o : object) :
  ~ In "__proto__" (Object_keys o) -> without_proto o = o.
Proof.
  unfold without_proto.
  induction o as [|[k v] o IH]; cbn [filter fst Object_keys map In];
    [reflexivity|]. intros H.
  destruct (String.eqb k "__proto__") eqn:E.
  - apply String.eqb_eq in E. tauto.
  - cbn [negb]. rewrite IH; [reflexivity|]. unfold Object_keys. tauto.
Qed.

Lemma without_proto_keys (o : object) (c : string) :
  In c (Object_keys (without_proto o))
  <-> In c (Object_keys o) /\ c <> "__proto__".
Proof.
  unfold without_proto, Object_keys. rewrite !in_map_iff. split.
  - intros ([k v] & <- & H). apply filter_In in H. destruct H as [H E].
    cbn [fst] in *. apply negb_true_iff, String.eqb_neq in E.
    split; [now exists (k, v) | exact E].
  - intros [([k v] & <- & H) E]. exists (k, v). split; [reflexivity|].
    apply filter_In. split; [exact H|]. cbn [fst] in *.
    now apply negb_true_iff, String.eqb_neq.
Qed.

Lemma NoDup_map_injective (A B : Type) (f : A -> B) (l : list A) :
  (forall a b, f a = f b -> a = b) -> NoDup l -> NoDup (map f l).
Proof.
  intros Hf H. induction H as [|a l Ha Hl IH]; cbn; constructor; [|exact IH].
  intros Hin. apply in_map_iff in Hin. destruct Hin as (b & E & Hb).
  apply Hf in E. now subst b.
Qed.

End Objects.

Section Digits.

Import Js Props Shapes.
Local Open Scope string_scope.
Local Open Scope Z_scope.

Lemma digit_val_char (d : Z) : 0 <= d < 10 -> digit_val (digit_char d) = d.
Proof.
  intros Hd. unfold digit_val, digit_char, Str.code.
  rewrite N_ascii_embedding by lia. lia.
Qed.

Lemma digits_fuel_value (fuel : nat) :
  forall z acc,
    0 <= z < 2 ^ Z.of_nat fuel ->
    digits_value (digits_fuel fuel z acc)
    = z * 10 ^ Z.of_nat (String.length acc) + digits_value acc.
Proof.
  induction fuel as [|f IH]; intros z acc Hz.
  - cbn in Hz. cbn [digits_fuel]. replace z with 0 by lia. lia.
  - cbn [digits_fuel]. cbv zeta.
    assert (Hm : 0 <= z mod 10 < 10) by (apply Z.mod_pos_bound; lia).
    destruct (Z.ltb_spec z 10) as [Hlt|Hge].
    + cbn [digits_value]. rewrite (digit_val_char Hm), Z.mod_small by lia.
      reflexivity.
    + rewrite Nat2Z.inj_succ, Z.pow_succ_r in Hz by lia.
      rewrite IH.
      * cbn [digits_value String.length].
        rewrite (digit_val_char Hm), Nat2Z.inj_succ, Z.pow_succ_r by lia.
        rewrite (Z.div_mod z 10) at 3 by lia. ring.
      * split; [apply Z.div_pos; lia|].
        apply Z.div_lt_upper_bound; lia.
Qed.

Lemma Z_to_string_value (z : Z) : 0 <= z -> digits_value (Z_to_string z) = z.
Proof.
  intros Hz. unfold Z_to_string.
  destruct (Z.ltb_spec z 0); [lia|]. unfold Z_digits.
  rewrite digits_fuel_value; [cbn; lia|].
  split; [exact Hz|]. rewrite Nat2Z.inj_succ, Z2Nat.id by apply Z.log2_nonneg.
  destruct (Z.eq_dec z 0) as [->|Hne]; [now vm_compute|].
  apply Z.log2_spec. lia.
Qed.

Lemma generated_columns_NoDup (n : nat) : NoDup (Dpt.generated_columns n).
Proof.
  unfold Dpt.generated_columns. apply NoDup_map_injective; [|apply seq_NoDup].
  intros a b H. cbn [append] in H. inversion H as [E].
  apply (f_equal digits_value) in E.
  rewrite !Z_to_string_value in E by lia. lia.
Qed.

Lemma generated_columns_ordinary (n : nat) :
  ~ In "__proto__" (Dpt.generated_columns n).
Proof.
  unfold Dpt.generated_columns. intros H. apply in_map_iff in H.
  destruct H as (i & E & _). discriminate E.
Qed.

Lemma generated_columns_length (n : nat) :
  List.length (Dpt.generated_columns n) = n.
Proof. unfold Dpt.generated_columns. now rewrite length_map, length_seq. Qed.

End Digits.

Section Reading.

Import Js Props Shapes.
Local Open Scope string_scope.
Local Open Scope list_scope.

Lemma split_skip_nonempty (sep : string) (s : string) :
  forall skip, Dpt.split_skip sep skip s <> [].
Proof.
  induction s as [|c s IH]; intros skip; cbn [Dpt.split_skip]; [discriminate|].
  destruct skip as [|k]; [|apply IH].
  destruct (Str.strip_prefix sep (String c s)); [discriminate|].
  destruct (Dpt.split_skip sep 0 s); discriminate.
Qed.

Lemma split_length (sep s : string) : (1 <= List.length (Dpt.split sep s))%nat.
Proof.
  unfold Dpt.split. pose proof (@split_skip_nonempty sep s 0) as H.
  destruct (Dpt.split_skip sep 0 s); [now elim H | cbn; lia].
Qed.

(** On a separator of one character the two models of [split] agree. *)
Lemma split_one_character (c : ascii) (s : string) :
  Dpt.split (String c EmptyString) s = Str.split c s.
Proof.
  unfold Dpt.split. induction s as [|a s IH]; [reflexivity|].
  cbn [Dpt.split_skip Str.strip_prefix Str.split String.length Nat.sub].
  rewrite (Ascii.eqb_sym c a). destruct (Ascii.eqb a c).
  - now rewrite IH.
  - now rewrite IH.
Qed.

Lemma lines_length (c : ascii) (s : string) :
  List.length (Str.split c s) = S (occurrences c s).
Proof.
  induction s as [|a s IH]; [reflexivity|]. cbn [Str.split occurrences].
  destruct (Ascii.eqb a c); cbn [List.length Nat.add]; [now rewrite IH|].
  destruct (Str.split c s); cbn in *; lia.
Qed.

Lemma cell_trimmed (values : list string) (i : nat) : trimmed (Dpt.cell values i).
Proof.
  unfold Dpt.cell, trimmed. destruct (nth_error values i) as [v|]; [|reflexivity].
  cbv zeta. destruct (Str.isEmpty (Str.trim v)); [reflexivity|].
  apply trim_idempotent.
Qed.

(** A row after the columns from [index] on have been written. *)
Lemma fill_row_fresh (values : list string) (cols : list string) :
  forall index (r : Dpt.row),
    NoDup cols ->
    ~ In "__proto__" cols ->
    (forall c, In c cols -> ~ In c (Object_keys r)) ->
    Dpt.fill_row values cols index r
    = r ++ map (fun ci => (fst ci, VStr (Dpt.cell values (snd ci))))
               (combine cols (seq index (List.length cols))).
Proof.
  induction cols as [|c cols IH]; intros index r Hd Hp Hf; cbn.
  - now rewrite app_nil_r.
  - inversion Hd as [|? ? Hn Hd']; subst.
    assert (Hc : c <> "__proto__") by (intros ->; apply Hp; now left).
    rewrite IH; [|exact Hd'| |].
    + rewrite assign_fresh by (trivial || apply Hf; now left).
      now rewrite <- app_assoc.
    + intros H. apply Hp. now right.
    + intros c' Hc' Hin. apply assign_keys in Hin.
      destruct Hin as [Hin|[-> _]].
      * apply (Hf c'); [now right | exact Hin].
      * contradiction.
Qed.

Lemma fill_row_keys (values : list string) (cols : list string) :
  forall index (r : Dpt.row) c,
    In c (Object_keys (Dpt.fill_row values cols index r))
    <-> In c (Object_keys r) \/ (In c cols /\ c <> "__proto__").
Proof.
  induction cols as [|c0 cols IH]; intros index r c; cbn.
  - tauto.
  - rewrite IH, assign_keys. split.
    + intros [[H|[-> H]]|[H1 H2]]; auto.
    + intros [H|[[->|H1] H2]]; auto.
Qed.

Lemma fill_row_NoDup (values : list string) (cols : list string) :
  forall index (r : Dpt.row),
    NoDup (Object_keys r) ->
    NoDup (Object_keys (Dpt.fill_row values cols index r)).
Proof.
  induction cols as [|c0 cols IH]; intros index r H; cbn; [exact H|].
  apply IH. now apply assign_keys_NoDup.
Qed.

Lemma fill_row_values (values : list string) (cols : list string) :
  forall index (r : Dpt.row),
    Forall (fun kv => exists s, snd kv = VStr s /\ trimmed s) r ->
    Forall (fun kv => exists s, snd kv = VStr s /\ trimmed s)
           (Dpt.fill_row values cols index r).
Proof.
  induction cols as [|c0 cols IH]; intros index r H; cbn; [exact H|].
  apply IH.
  apply (assign_values (Q := fun v => exists s, v = VStr s /\ trimmed s));
    [exact H|].
  eexists. split; [reflexivity | apply cell_trimmed].
Qed.

(** What is known of every row read from a line, whatever the columns. *)
Lemma parse_line_row (delim : string) (cols : list string) (line : string) :
  let r := Dpt.parse_line delim cols line in
  NoDup (Object_keys r)
  /\ (forall c, In c (Object_keys r) <-> In c cols /\ c <> "__proto__")
  /\ Forall (fun kv => exists s, snd kv = VStr s /\ trimmed s) r.
Proof.
  cbv zeta. unfold Dpt.parse_line. split; [|split].
  - apply fill_row_NoDup. constructor.
  - intros c. rewrite fill_row_keys. cbn. tauto.
  - apply fill_row_values. constructor.
Qed.

Lemma parse_line_NoDup (delim : string) (cols : list string) (line : string) :
  NoDup cols -> ~ In "__proto__" cols ->
  Dpt.parse_line delim cols line
  = map (fun ci => (fst ci, VStr (Dpt.cell (Dpt.split delim line) (snd ci))))
        (combine cols (seq 0 (List.length cols))).
Proof.
  intros H Hp. unfold Dpt.parse_line.
  rewrite fill_row_fresh; [reflexivity | exact H | exact Hp | intros c _ []].
Qed.

End Reading.

Section Cleaning.

Import Js Props Shapes.
Local Open Scope string_scope.
Local Open Scope list_scope.

Lemma clean_entry_fresh (o : Dpt.row) (k : string) (v : value) :
  k <> "__proto__" -> ~ In k (Object_keys o) ->
  Dpt.clean_entry o (k, v) = o ++ [(k, cleaned_value v)].
Proof.
  intros Hk H. unfold Dpt.clean_entry, Dpt.assign.
  apply String.eqb_neq in Hk. rewrite Hk.
  destruct v as [| | | |s]; rewrite get_set_same;
    try (now rewrite set_fresh by exact H).
  cbn [cleaned_value]. destruct (Str.trim s) as [|c t] eqn:E; cbn [Str.isEmpty].
  - rewrite set_set. now rewrite set_fresh by exact H.
  - now rewrite set_fresh by exact H.
Qed.

Lemma clean_entry_proto (o : Dpt.row) (v : value) :
  Dpt.clean_entry o ("__proto__", v) = o.
Proof.
  unfold Dpt.clean_entry, Dpt.assign.
  change (String.eqb "__proto__" "__proto__") with true.
  destruct v; cbv iota; now destruct (get o "__proto__") as [| | | |[|? ?]].
Qed.

Lemma clean_fold_fresh (r : Dpt.row) :
  forall o : Dpt.row,
    NoDup (Object_keys r) ->
    (forall k, In k (Object_keys r) -> ~ In k (Object_keys o)) ->
    fold_left Dpt.clean_entry r o
    = o ++ map (fun kv => (fst kv, cleaned_value (snd kv))) (without_proto r).
Proof.
  induction r as [|[k v] r IH]; intros o Hd Hf; cbn [fold_left].
  - cbn. now rewrite app_nil_r.
  - cbn in Hd. inversion Hd as [|? ? Hn Hd']; subst.
    unfold without_proto. cbn [filter fst].
    destruct (String.eqb k "__proto__") eqn:E; cbn [negb].
    + apply String.eqb_eq in E. subst k. rewrite clean_entry_proto.
      apply IH; [exact Hd'|]. intros k' Hk'. apply Hf. now right.
    + apply String.eqb_neq in E.
      rewrite clean_entry_fresh by (trivial || apply Hf; now left).
      rewrite IH; [cbn [map fst snd]; now rewrite <- app_assoc | exact Hd'|].
      intros k' Hk' Hin. unfold Object_keys in Hin.
      rewrite map_app, in_app_iff in Hin. cbn in Hin.
      destruct Hin as [Hin|[->|[]]].
      * apply (Hf k'); [now right | exact Hin].
      * contradiction.
Qed.

Lemma clean_row_NoDup (r : Dpt.row) :
  NoDup (Object_keys r) ->
  Dpt.clean_row r
  = map (fun kv => (fst kv, cleaned_value (snd kv))) (without_proto r).
Proof.
  intros H. unfold Dpt.clean_row.
  rewrite clean_fold_fresh; [reflexivity | exact H | intros k _ []].
Qed.

Lemma cleaned_keys (r : Dpt.row) :
  Object_keys (map (fun kv => (fst kv, cleaned_value (snd kv))) r)
  = Object_keys r.
Proof. unfold Object_keys. rewrite map_map. reflexivity. Qed.

Lemma without_proto_NoDup (r : Dpt.row) :
  NoDup (Object_keys r) -> NoDup (Object_keys (without_proto r)).
Proof.
  induction r as [|[k v] r IH]; [trivial|]. intros H.
  cbn in H. inversion H as [|? ? Hn Hd]; subst.
  unfold without_proto. cbn [filter fst].
  destruct (String.eqb k "__proto__"); cbn [negb]; [now apply IH|].
  cbn [Object_keys map fst]. constructor; [|now apply IH]. intros Hin.
  apply (without_proto_keys r k) in Hin. tauto.
Qed.

Lemma without_proto_cleaned (r : Dpt.row) :
  without_proto (map (fun kv => (fst kv, cleaned_value (snd kv)))
                     (without_proto r))
  = map (fun kv => (fst kv, cleaned_value (snd kv))) (without_proto r).
Proof.
  apply without_proto_fixed. rewrite cleaned_keys. intros H.
  apply without_proto_keys in H. tauto.
Qed.

(** The row read from a line owns no key [__proto__]: cleaning it goes
    through all its cells. *)
Lemma clean_parsed_row (delim : string) (cols : list string) (line : string) :
  Dpt.clean_row (Dpt.parse_line delim cols line)
  = map (fun kv => (fst kv, cleaned_value (snd kv)))
        (Dpt.parse_line delim cols line).
Proof.
  destruct (parse_line_row delim cols line) as (Hd & Hk & _).
  rewrite (clean_row_NoDup Hd), without_proto_fixed; [reflexivity|].
  intros H. apply Hk in H. tauto.
Qed.

(** X19.  Cleaning a table whose rows are objects (no key twice) keeps the
    rows, their keys and the order of both, a key [__proto__] apart, which no
    cleaned row has; under every key of a cleaned row stands the value of the
    row, except that a string is trimmed and that the empty string which may
    result becomes [null]: no empty and no untrimmed string is left.
    Cleaning a second time changes nothing. *)
Theorem X19_cleaning_trims_and_nulls (data : list Dpt.row) :
  Forall (fun r => NoDup (Object_keys r)) data ->
  let cleaned := Dpt.cleanData data in
  cleaned
  = map (fun r => map (fun kv => (fst kv, cleaned_value (snd kv)))
                      (without_proto r))
        data
  /\ (forall i r, nth_error data i = Some r ->
        exists r',
          nth_error cleaned i = Some r'
          /\ (forall key, In key (Object_keys r')
                          <-> In key (Object_keys r) /\ key <> "__proto__")
          /\ (forall key, In key (Object_keys r') ->
                          get r' key = cleaned_value (get r key)))
  /\ (forall r' key s, In r' cleaned -> get r' key = VStr s ->
        Str.isEmpty s = false /\ trimmed s)
  /\ Dpt.cleanData cleaned = cleaned.
Proof.
  intros Hd. cbv zeta.
  assert (E : Dpt.cleanData data
              = map (fun r => map (fun kv => (fst kv, cleaned_value (snd kv)))
                                  (without_proto r))
                    data).
  { unfold Dpt.cleanData. apply map_ext_in. intros r Hr.
    apply clean_row_NoDup. rewrite Forall_forall in Hd. now apply Hd. }
  assert (Hget : forall (r : Dpt.row) key,
             NoDup (Object_keys r) -> key <> "__proto__" ->
             get (without_proto r) key = get r key).
  { intros r key _ Hk. induction r as [|[k v] r IH]; [reflexivity|].
    unfold without_proto. cbn [filter fst get].
    destruct (String.eqb k "__proto__") eqn:Ek; cbn [negb get].
    - apply String.eqb_eq in Ek. subst k.
      destruct (String.eqb "__proto__" key) eqn:E'; [|exact IH].
      apply String.eqb_eq in E'. congruence.
    - destruct (String.eqb k key); [reflexivity | exact IH]. }
  split; [exact E|]. rewrite E. split; [|split].
  - intros i r Hi.
    exists (map (fun kv => (fst kv, cleaned_value (snd kv))) (without_proto r)).
    split; [|split].
    + now apply (map_nth_error
                   (fun r => map (fun kv => (fst kv, cleaned_value (snd kv)))
                                 (without_proto r))).
    + intros key. rewrite cleaned_keys. apply without_proto_keys.
    + intros key Hkey. rewrite cleaned_keys in Hkey.
      apply without_proto_keys in Hkey. destruct Hkey as [_ Hkey].
      rewrite get_map_values by reflexivity. f_equal. apply Hget; [|exact Hkey].
      rewrite Forall_forall in Hd. apply Hd. now apply nth_error_In in Hi.
  - intros r' key s Hr' Hs. apply in_map_iff in Hr'.
    destruct Hr' as (r & <- & Hr).
    rewrite get_map_values in Hs by reflexivity.
    now apply cleaned_value_not_empty in Hs.
  - unfold Dpt.cleanData. rewrite map_map. apply map_ext_in. intros r Hr.
    rewrite clean_row_NoDup.
    + rewrite without_proto_cleaned, map_map. apply map_ext. intros [k v]. cbn.
      now rewrite cleaned_value_idempotent.
    + rewrite cleaned_keys. apply without_proto_NoDup.
      rewrite Forall_forall in Hd. now apply Hd.
Qed.

End Cleaning.

Section FileRun.

Import Js Props Shapes.
Local Open Scope string_scope.
Local Open Scope list_scope.

Variable e : engine.
Variable json_branch :
  string -> string + (list (option Dpt.row) * list string).

(** X20.  When the options are left out, or do not set [hasHeader] to true,
    no line is taken as a header: the columns are named [Column_1] to
    [Column_k], [k] being the number of fields of the first line and never
    0; there is one row per line, the first line included, hence one more
    than there are line feeds in the content, even for an empty content;
    and every row has exactly these columns, in this order, holding the
    trimmed field of its rank, or the empty string where the line is
    shorter. *)
Theorem X20_csv_without_header_option
  (content : string) (o : option Dpt.options_t) :
  (forall opts, o = Some opts -> Dpt.hasHeader opts <> Some true) ->
  let out := Dpt.execute e json_branch (Dpt.mkInput content Dpt.csv o) in
  let lines := Str.split "010" content in
  let delim :=
    Dpt.delimiter_of (match o with Some opts => opts | None => Dpt.no_options end) in
  let k := List.length (Dpt.split delim (hd "" lines)) in
  Dpt.success out = true
  /\ Dpt.error out = None
  /\ Dpt.columns out = Some (Dpt.generated_columns k)
  /\ (1 <= k)%nat
  /\ Dpt.rowCount out = Some (S (occurrences "010" content))
  /\ Dpt.data out
     = Some (map (fun line =>
                    map (fun i => (("Column_" ++ Z_to_string (Z.of_nat i + 1))%string,
                                   VStr (Dpt.cell (Dpt.split delim line) i)))
                        (seq 0 k))
                 lines).
Proof.
  intros Ho. cbv zeta. unfold Dpt.execute, Dpt.execute_try.
  cbn [Dpt.fileType Dpt.fileContent Dpt.options].
  set (opts := match o with Some opts => opts | None => Dpt.no_options end).
  assert (Hh : match Dpt.hasHeader opts with Some true => true | _ => false end
               = false).
  { unfold opts. destruct o as [opts'|]; [|reflexivity].
    specialize (Ho opts' eq_refl).
    destruct (Dpt.hasHeader opts') as [[|]|]; [now elim Ho | reflexivity..]. }
  unfold Dpt.parse_csv. cbv zeta. rewrite Hh. cbn [andb].
  cbn [Dpt.success Dpt.error Dpt.columns Dpt.rowCount Dpt.data].
  split; [reflexivity|]. split; [reflexivity|]. split; [reflexivity|].
  split; [apply split_length|].
  split; [now rewrite length_map, lines_length|].
  f_equal. apply map_ext. intros line.
  rewrite parse_line_NoDup
    by (apply generated_columns_NoDup || apply generated_columns_ordinary).
  rewrite generated_columns_length. unfold Dpt.generated_columns.
  generalize (List.length
                (Dpt.split (Dpt.delimiter_of opts)
                   (hd "" (Str.split "010" content)))) as n.
  intros n. generalize 0%nat as from.
  induction n as [|n IH]; intros from; cbn [seq map combine]; [reflexivity|].
  now rewrite IH.
Qed.

(** X21.  With [hasHeader] set to true the first line gives the columns, its
    trimmed fields, and every later line gives a row: there are as many rows
    as line feeds in the content, none for a content of one line.  The keys
    of a row are the columns, a column [__proto__] apart, which gives no key;
    and under each of its keys the row holds a trimmed string. *)
Theorem X21_csv_with_header
  (content : string) (enc delim_opt : option string) :
  let o := Dpt.mkOptions enc (Some true) delim_opt in
  let out := Dpt.execute e json_branch (Dpt.mkInput content Dpt.csv (Some o)) in
  let lines := Str.split "010" content in
  let delim := Dpt.delimiter_of o in
  let cols := map Str.trim (Dpt.split delim (hd "" lines)) in
  Dpt.success out = true
  /\ Dpt.columns out = Some cols
  /\ Dpt.rowCount out = Some (occurrences "010" content)
  /\ exists rows,
       Dpt.data out = Some rows
       /\ rows = map (Dpt.parse_line delim cols) (tl lines)
       /\ (forall r, In r rows ->
             (forall c, In c (Object_keys r)
                        <-> In c cols /\ c <> "__proto__")
             /\ (forall c, In c (Object_keys r) ->
                   exists s, get r c = VStr s /\ trimmed s)).
Proof.
  cbv zeta. unfold Dpt.execute, Dpt.execute_try.
  cbn [Dpt.fileType Dpt.fileContent Dpt.options].
  unfold Dpt.parse_csv. cbv zeta. cbn [Dpt.hasHeader].
  assert (Hl : (0 <? List.length (Str.split "010" content))%nat = true).
  { rewrite lines_length. reflexivity. }
  rewrite Hl. cbn [andb Dpt.success Dpt.columns Dpt.rowCount Dpt.data].
  split; [reflexivity|]. split; [reflexivity|]. split.
  { rewrite length_map. pose proof (lines_length "010" content) as E.
    destruct (Str.split "010" content); cbn in *; [discriminate | f_equal; lia]. }
  eexists. split; [reflexivity|]. split; [reflexivity|].
  intros r Hr. apply in_map_iff in Hr. destruct Hr as (line & <- & _).
  destruct (parse_line_row
              (Dpt.delimiter_of (Dpt.mkOptions enc (Some true) delim_opt))
              (map Str.trim
                 (Dpt.split
                    (Dpt.delimiter_of (Dpt.mkOptions enc (Some true) delim_opt))
                    (hd "" (Str.split "010" content))))
              line) as (Hd & Hk & Hv).
  split; [exact Hk|].
  intros c Hc. apply get_In in Hc.
  rewrite Forall_forall in Hv. exact (Hv _ Hc).
Qed.

(** X22.  Reading a CSV content never fails, and what it reads needs no
    trimming: every row is an object whose keys are the columns (a column
    [__proto__] apart) and whose values are trimmed strings, so that the
    cleaned table is the table with [null] in the place of every empty
    string. *)
Theorem X22_csv_cleaning_only_nulls_empty_cells
  (content : string) (o : option Dpt.options_t) :
  let out := Dpt.execute e json_branch (Dpt.mkInput content Dpt.csv o) in
  exists rows cols,
    Dpt.success out = true
    /\ Dpt.data out = Some rows
    /\ Dpt.columns out = Some cols
    /\ Dpt.rowCount out = Some (List.length rows)
    /\ (forall r, In r rows ->
          NoDup (Object_keys r)
          /\ (forall c, In c (Object_keys r)
                        <-> In c cols /\ c <> "__proto__")
          /\ forall c, In c (Object_keys r) ->
                       exists s, get r c = VStr s /\ trimmed s)
    /\ Dpt.cleanedData out
       = Some (map (map (fun kv =>
                           (fst kv,
                            match snd kv with
                            | VStr EmptyString => VNull
                            | v => v
                            end)))
                   rows).
Proof.
  cbv zeta. unfold Dpt.execute, Dpt.execute_try.
  cbn [Dpt.fileType Dpt.fileContent Dpt.options].
  set (opts := match o with Some opts => opts | None => Dpt.no_options end).
  assert (Hrows : exists cols lines,
             Dpt.parse_csv content opts
             = (map (Dpt.parse_line (Dpt.delimiter_of opts) cols) lines, cols)).
  { unfold Dpt.parse_csv. cbv zeta. destruct (_ && _); eexists; eexists; reflexivity. }
  destruct Hrows as (cols & lines & ->).
  cbn [Dpt.success Dpt.data Dpt.columns Dpt.rowCount Dpt.cleanedData].
  exists (map (Dpt.parse_line (Dpt.delimiter_of opts) cols) lines), cols.
  split; [reflexivity|]. split; [reflexivity|]. split; [reflexivity|].
  split; [reflexivity|]. split.
  - intros r Hr. apply in_map_iff in Hr. destruct Hr as (line & <- & _).
    destruct (parse_line_row (Dpt.delimiter_of opts) cols line) as (Hd & Hk & Hv).
    split; [exact Hd|]. split; [exact Hk|].
    intros c Hc. apply get_In in Hc.
    rewrite Forall_forall in Hv. exact (Hv _ Hc).
  - f_equal. unfold Dpt.cleanData. rewrite !map_map. apply map_ext. intros line.
    destruct (parse_line_row (Dpt.delimiter_of opts) cols line) as (_ & _ & Hv).
    rewrite clean_parsed_row. apply map_ext_in. intros [k v] Hin.
    rewrite Forall_forall in Hv. destruct (Hv _ Hin) as (s & E & Hs).
    cbn [fst snd] in *. subst v. cbn [cleaned_value]. unfold trimmed in Hs.
    rewrite Hs. now destruct s.
Qed.

End FileRun.

Section FileRunExamples.

Import Number Js Props Shapes.
Local Open Scope string_scope.
Local Open Scope list_scope.

Lemma X20_csv_witness :
  let json_branch : string -> string + (list (option Dpt.row) * list string) :=
    fun _ => inl "Failed to parse JSON" in
  let content := String "a" (String "," (String "b" (String "010" "1, 2"))) in
  (forall opts, @None Dpt.options_t = Some opts -> Dpt.hasHeader opts <> Some true)
  /\ Dpt.rowCount (Dpt.execute small_engine json_branch (Dpt.mkInput content Dpt.csv None))
     = Some (S (occurrences "010" content)).
Proof.
  cbv zeta.
  assert (H : forall opts, @None Dpt.options_t = Some opts ->
                Dpt.hasHeader opts <> Some true)
    by (intros opts E; discriminate E).
  split; [exact H|].
  exact (proj1 (proj2 (proj2 (proj2 (proj2
          (@X20_csv_without_header_option small_engine
             (fun _ => inl "Failed to parse JSON")
             (String "a" (String "," (String "b" (String "010" "1, 2"))))
             None H)))))).
Defined.

(** A document read as an array with an element [null]: the branch
    succeeds, [cleanData] throws, the run fails. *)
Lemma json_null_element_fails (content : string) (r : Dpt.row)
  (cols : list string) :
  Dpt.execute small_engine (fun _ => inr ([Some r; None], cols))
    (Dpt.mkInput content Dpt.json None)
  = Dpt.mkOutput false None None None
      (Some "Cannot convert undefined or null to object") None.
Proof. reflexivity. Qed.

Lemma X19_cleaning_witness :
  let data : list Dpt.row :=
    [[("name", VStr " Ada "); ("city", VStr "  "); ("age", VNum (Fin 0))]] in
  Forall (fun r => NoDup (Object_keys r)) data
  /\ Dpt.cleanData (Dpt.cleanData data) = Dpt.cleanData data.
Proof.
  cbv zeta.
  assert (H : Forall (fun r => NoDup (Object_keys r))
                [[("name", VStr " Ada "); ("city", VStr "  ");
                  ("age", VNum (Fin 0))]]).
  { constructor; [|constructor]. cbn.
    repeat constructor; cbn; intuition discriminate. }
  split; [exact H|].
  exact (proj2 (proj2 (proj2 (X19_cleaning_trims_and_nulls H)))).
Defined.

End FileRunExamples.

(* ================================================================== *)
(** ** The dispatch of a query                                          *)
(* ================================================================== *)

Section Dispatch.

Import Number Js Props Shapes.
Local Open Scope string_scope.
Local Open Scope list_scope.

Variable query : string.
Variable data : list Sql.row.
Variable columns : list string.

Lemma group_by_tag :
  Sql.queryType (Sql.executeGroupByQuery query data columns) = Sql.GROUP_BY
  <-> exists g, Sql.extractGroupByColumn query = Some g /\ In g columns.
Proof.
  unfold Sql.executeGroupByQuery.
  destruct (Sql.extractGroupByColumn query) as [g|] eqn:E.
  - rewrite (extractGroupByColumn_nonempty E). cbn [orb].
    destruct (Array_includes columns g) eqn:Ei; cbn [negb Sql.queryType].
    + apply Array_includes_In in Ei. split; [intros _; now exists g | reflexivity].
    + split; [discriminate|]. intros (g' & Eg & Hin). inversion Eg; subst g'.
      apply Array_includes_In in Hin. congruence.
  - cbn. split; [discriminate | intros (g & Eg & _); discriminate Eg].
Qed.

Lemma filter_tag :
  Sql.queryType (Sql.executeFilterQuery query data columns) = Sql.FILTER
  <-> exists c, Sql.extractFilterCondition query = Some c
                /\ Str.isEmpty c = false.
Proof.
  unfold Sql.executeFilterQuery.
  destruct (Sql.extractFilterCondition query) as [c|] eqn:E.
  - destruct (Str.isEmpty c) eqn:Ec; cbn [Sql.queryType].
    + split; [discriminate|]. intros (c' & Eq & H). inversion Eq; subst c'.
      congruence.
    + split; [intros _; now exists c | reflexivity].
  - cbn. split; [discriminate | intros (c & Eq & _); discriminate Eq].
Qed.

(** X24.  The tag of a result, read off the upper-cased and trimmed query.
    It is AGGREGATE exactly when the text lacks SELECT or FROM and holds
    COUNT, SUM or AVG.  It is GROUP_BY exactly when, besides, none of these
    three occurs, the text holds [GROUP BY] with a single space, and the
    identifier extracted from the query is a declared column.  It is FILTER
    exactly when none of the above keywords occurs, the text holds WHERE and
    a non-empty condition is extracted.  In every other case it is SELECT. *)
Theorem X24_tag_of_a_query :
  let upperQuery := Str.trim (Str.toUpperCase query) in
  let plain :=
    Str.includes "SELECT" upperQuery && Str.includes "FROM" upperQuery in
  let aggregate :=
    Str.includes "COUNT" upperQuery || Str.includes "SUM" upperQuery
    || Str.includes "AVG" upperQuery in
  let tag := Sql.queryType (Sql.executeQuery query data columns) in
  (tag = Sql.AGGREGATE <-> plain = false /\ aggregate = true)
  /\ (tag = Sql.GROUP_BY
      <-> plain = false /\ aggregate = false
          /\ Str.includes "GROUP BY" upperQuery = true
          /\ exists g, Sql.extractGroupByColumn query = Some g /\ In g columns)
  /\ (tag = Sql.FILTER
      <-> plain = false /\ aggregate = false
          /\ Str.includes "GROUP BY" upperQuery = false
          /\ Str.includes "WHERE" upperQuery = true
          /\ exists c, Sql.extractFilterCondition query = Some c
                       /\ Str.isEmpty c = false).
Proof.
  cbv zeta. unfold Sql.executeQuery. cbv zeta.
  pose proof group_by_tag as Hg. pose proof filter_tag as Hf.
  assert (Hg' : Sql.queryType (Sql.executeGroupByQuery query data columns)
                <> Sql.AGGREGATE
                /\ Sql.queryType (Sql.executeGroupByQuery query data columns)
                   <> Sql.FILTER).
  { unfold Sql.executeGroupByQuery.
    destruct (Sql.extractGroupByColumn query); [destruct (_ || _)|];
      split; discriminate. }
  assert (Hf' : Sql.queryType (Sql.executeFilterQuery query data columns)
                <> Sql.AGGREGATE
                /\ Sql.queryType (Sql.executeFilterQuery query data columns)
                   <> Sql.GROUP_BY).
  { unfold Sql.executeFilterQuery.
    destruct (Sql.extractFilterCondition query) as [c|];
      [destruct (Str.isEmpty c)|]; split; discriminate. }
  destruct (Str.includes "SELECT" _ && Str.includes "FROM" _).
  { cbn [Sql.executeSelectQuery Sql.queryType].
    repeat split; try discriminate; intros [H _]; discriminate H. }
  destruct (Str.includes "COUNT" _ || Str.includes "SUM" _
            || Str.includes "AVG" _).
  { cbn [Sql.executeAggregateQuery Sql.queryType].
    split; [tauto|].
    split; (split; [discriminate | intros (_ & H & _); discriminate H]). }
  destruct (Str.includes "GROUP BY" _).
  { split; [split; [intros H; now apply Hg' in H | intros [_ H]; discriminate H]|].
    split; [rewrite Hg; tauto|].
    split; [intros H; now apply Hg' in H|].
    intros (_ & _ & H & _); discriminate H. }
  destruct (Str.includes "WHERE" _).
  { split; [split; [intros H; now apply Hf' in H | intros [_ H]; discriminate H]|].
    split; [split; [intros H; now apply Hf' in H
                   | intros (_ & _ & H & _); discriminate H]|].
    rewrite Hf. tauto. }
  cbn [Sql.queryType].
  split; [split; [discriminate | intros [_ H]; discriminate H]|].
  split; (split; [discriminate|]).
  - intros (_ & _ & H & _); discriminate H.
  - intros (_ & _ & _ & H & _); discriminate H.
Qed.

End Dispatch.

(* ================================================================== *)
(** ** Points and slices                                                *)
(* ================================================================== *)

Section PointsAndSlices.

Import Number Js Props Shapes.
Local Open Scope string_scope.
Local Open Scope list_scope.

Variable data : list Viz.row.
Variables xAxis yAxis : string.

(** X25.  The points of a scatter plot are the rows whose two coordinates
    both parse, in the order of the table, each with its two parsed
    coordinates: no coordinate of a point is NaN, and a table all of whose
    rows parse gives one point per row. *)
Theorem X25_scatter_keeps_the_parseable_rows :
  let parses (r : Viz.row) :=
    negb (isNaN (parseFloat (get r xAxis)))
    && negb (isNaN (parseFloat (get r yAxis))) in
  let points := Viz.processScatterData data xAxis yAxis in
  points
  = map (fun r => Viz.mkScatter (parseFloat (get r xAxis))
                                (parseFloat (get r yAxis)))
        (filter parses data)
  /\ (forall p, In p points ->
        isNaN (Viz.scatter_x p) = false /\ isNaN (Viz.scatter_y p) = false)
  /\ (forallb parses data = true -> List.length points = List.length data).
Proof.
  cbv zeta.
  assert (E : Viz.processScatterData data xAxis yAxis
              = map (fun r => Viz.mkScatter (parseFloat (get r xAxis))
                                            (parseFloat (get r yAxis)))
                    (filter (fun r =>
                               negb (isNaN (parseFloat (get r xAxis)))
                               && negb (isNaN (parseFloat (get r yAxis))))
                            data)).
  { unfold Viz.processScatterData. induction data as [|r d IH]; [reflexivity|].
    cbn [map filter Viz.scatter_x Viz.scatter_y].
    destruct (negb (isNaN (parseFloat (get r xAxis)))
              && negb (isNaN (parseFloat (get r yAxis)))); cbn [map];
      now rewrite IH. }
  split; [exact E|]. split.
  - intros p Hp. unfold Viz.processScatterData in Hp.
    apply filter_In in Hp. destruct Hp as [_ Hp].
    apply andb_true_iff in Hp. destruct Hp as [H1 H2].
    now rewrite negb_true_iff in H1, H2.
  - intros Hall. rewrite E, length_map. clear E.
    induction data as [|r d IH]; [reflexivity|].
    cbn [forallb] in Hall. apply andb_true_iff in Hall.
    destruct Hall as [Hr Hd]. cbn [filter]. rewrite Hr. cbn [List.length].
    now rewrite IH.
Qed.

Lemma Map_get_set (V : Type) (m : jsmap string V) (k k' : string) (v : V) :
  Map_get String.eqb (Map_set String.eqb m k v) k'
  = if String.eqb k k' then Some v else Map_get String.eqb m k'.
Proof.
  induction m as [|[k0 w] m IH]; cbn.
  - reflexivity.
  - destruct (String.eqb k0 k) eqn:E; cbn.
    + apply String.eqb_eq in E. subst k0. now destruct (String.eqb k k').
    + rewrite IH. destruct (String.eqb k k') eqn:E'; [|reflexivity].
      apply String.eqb_eq in E'. subst k'. now rewrite E.
Qed.

Lemma Map_get_In (V : Type) (m : jsmap string V) (k : string) (v : V) :
  NoDup (map fst m) -> In (k, v) m -> Map_get String.eqb m k = Some v.
Proof.
  induction m as [|[k0 w] m IH]; cbn; [intros _ []|].
  intros Hd [E|Hin]; inversion Hd as [|? ? Hn Hd']; subst.
  - inversion E; subst. now rewrite String.eqb_refl.
  - destruct (String.eqb k0 k) eqn:E.
    + apply String.eqb_eq in E. subst k0. elim Hn.
      apply in_map_iff. now exists (k, v).
    + now apply IH.
Qed.

(** The value kept for a label after the rows, from the value kept before. *)
Lemma slice_value_fold (l : string) (rows : list Viz.row) :
  forall m : jsmap string number,
    Map_get String.eqb (fold_left (Viz.add_to_slice xAxis yAxis) rows m) l
    = fold_left (fun kept y => Some (slice_step kept y))
                (map (fun r => parseFloat (get r yAxis))
                     (filter (fun r => String.eqb (Viz.x_label r xAxis) l) rows))
                (Map_get String.eqb m l).
Proof.
  induction rows as [|r rows IH]; intros m; [reflexivity|].
  cbn [fold_left filter]. rewrite IH. unfold Viz.add_to_slice.
  rewrite Map_get_set.
  destruct (String.eqb (Viz.x_label r xAxis) l) eqn:E; [|reflexivity].
  apply String.eqb_eq in E. subst l. cbn [map fold_left]. reflexivity.
Qed.

Lemma slice_step_zero (ys : list number) :
  Forall (fun y => Viz.number_or_zero y = of_Z 0) ys ->
  forall kept, match kept with
               | Some v => Viz.number_or_zero v = of_Z 0
               | None => True
               end ->
    ys <> [] ->
    fold_left (fun kept y => Some (slice_step kept y)) ys kept
    = Some (of_Z 0).
Proof.
  assert (Hz : add (of_Z 0) (of_Z 0) = of_Z 0).
  { rewrite of_Z_zero. cbn [add]. apply round64_zero. lia. }
  assert (Hn : Viz.number_or_zero (of_Z 0) = of_Z 0).
  { rewrite of_Z_zero. reflexivity. }
  induction 1 as [|y ys Hy Hys IH]; intros kept Hk Hne; [now elim Hne|].
  cbn [fold_left].
  assert (E : slice_step kept y = of_Z 0).
  { unfold slice_step. rewrite Hy. destruct kept as [v|]; [rewrite Hk|]; exact Hz. }
  rewrite E. destruct ys as [|y' ys']; [reflexivity|].
  apply IH; [exact Hn | discriminate].
Qed.

(** X26.  The value of a pie slice is the running sum of the parsed y values
    of the rows with its label, in the order of the table, a y value that
    does not parse counting as 0 and a running sum that has become NaN
    starting again from 0.  In particular a label none of whose rows has a
    y value other than 0 or NaN gets a slice of value 0, where the bar chart
    of the same table may have no point at all. *)
Theorem X26_pie_slice_is_a_running_sum (p : Viz.pie_slice) :
  In p (Viz.processPieData data xAxis yAxis) ->
  let ys :=
    map (fun r => parseFloat (get r yAxis))
        (filter (fun r => String.eqb (Viz.x_label r xAxis) (Viz.label p)) data) in
  ys <> []
  /\ Some (Viz.value p)
     = fold_left (fun kept y => Some (slice_step kept y)) ys None
  /\ (Forall (fun y => Viz.number_or_zero y = of_Z 0) ys ->
      Viz.value p = of_Z 0).
Proof.
  intros Hp. cbv zeta.
  set (m := fold_left (Viz.add_to_slice xAxis yAxis) data []).
  assert (Hd : NoDup (map fst m)).
  { unfold m. rewrite (pie_keys xAxis yAxis data []). cbn [map app].
    apply (distinct_from_NoDup String.eqb_eq). }
  unfold Viz.processPieData in Hp. fold m in Hp. apply in_map_iff in Hp.
  destruct Hp as ([l v] & <- & Hin). cbn [Viz.label Viz.value].
  pose proof (Map_get_In Hd Hin) as Hg. unfold m in Hg.
  rewrite slice_value_fold in Hg. cbn [Map_get] in Hg.
  assert (Hne : map (fun r => parseFloat (get r yAxis))
                    (filter (fun r => String.eqb (Viz.x_label r xAxis) l) data)
                <> []).
  { intros E. rewrite E in Hg. discriminate Hg. }
  split; [exact Hne|]. split; [now rewrite Hg|].
  intros Hall. rewrite (slice_step_zero Hall (kept := None) I Hne) in Hg.
  now inversion Hg.
Qed.

End PointsAndSlices.

Section PointsAndSlicesExamples.

Import Number Js Props Shapes.
Local Open Scope string_scope.
Local Open Scope list_scope.

Lemma X26_pie_slice_witness :
  let data : list Viz.row :=
    [[("k", VStr "a"); ("y", VStr "n/a")]; [("k", VStr "a"); ("y", VNull)]] in
  let p := Viz.mkPie "a" (Fin 0) in
  In p (Viz.processPieData data "k" "y")
  /\ Viz.processCategoricalData data "k" "y" = []
  /\ Some (Viz.value p)
     = fold_left (fun kept y => Some (slice_step kept y))
         (map (fun r => parseFloat (get r "y"))
              (filter (fun r => String.eqb (Viz.x_label r "k") (Viz.label p))
                      data))
         None.
Proof.
  cbv zeta.
  assert (H : In (Viz.mkPie "a" (Fin 0))
                (Viz.processPieData
                   [[("k", VStr "a"); ("y", VStr "n/a")];
                    [("k", VStr "a"); ("y", VNull)]] "k" "y")).
  { vm_compute. left. reflexivity. }
  split; [exact H|]. split; [now vm_compute|].
  exact (proj1 (proj2 (X26_pie_slice_is_a_running_sum H))).
Defined.

End PointsAndSlicesExamples.

(* ================================================================== *)
(** ** Line ends                                                        *)
(* ================================================================== *)

Section LineEnds.

Import Js Props Shapes.
Local Open Scope list_scope.
Local Open Scope string_scope.

Lemma trimEnd_app_space (s : string) (c : ascii) :
  Str.is_space c = true ->
  Str.trimEnd (s ++ String c EmptyString) = Str.trimEnd s.
Proof.
  intros Hc. induction s as [|a s IH]; cbn [append].
  - cbn. now rewrite Hc.
  - now rewrite !trimEnd_cons, IH.
Qed.

Lemma trimStart_app (s t : string) :
  Str.isEmpty (Str.trimStart s) = false ->
  Str.trimStart (s ++ t) = Str.trimStart s ++ t.
Proof.
  induction s as [|a s IH]; [discriminate|]. cbn [append Str.trimStart].
  destruct (Str.is_space a); [exact IH | reflexivity].
Qed.

Lemma trimStart_app_space (s : string) (c : ascii) :
  Str.is_space c = true -> Str.isEmpty (Str.trimStart s) = true ->
  Str.trimStart (s ++ String c EmptyString) = EmptyString.
Proof.
  intros Hc. induction s as [|a s IH]; cbn [append Str.trimStart].
  - now rewrite Hc.
  - destruct (Str.is_space a); [exact IH | discriminate].
Qed.

Lemma trim_app_space (s : string) (c : ascii) :
  Str.is_space c = true -> Str.trim (s ++ String c EmptyString) = Str.trim s.
Proof.
  intros Hc. unfold Str.trim.
  destruct (Str.isEmpty (Str.trimStart s)) eqn:E.
  - rewrite (trimStart_app_space Hc E).
    destruct (Str.trimStart s); [reflexivity | discriminate].
  - rewrite (trimStart_app _ E). now apply trimEnd_app_space.
Qed.

Lemma append_to_last_cons (p : string) (rest : list string) (c : ascii) :
  rest <> [] -> append_to_last (p :: rest) c = p :: append_to_last rest c.
Proof. destruct rest; [intros H; now elim H | reflexivity]. Qed.

Lemma append_to_last_length (l : list string) (c : ascii) :
  List.length (append_to_last l c) = List.length l.
Proof.
  induction l as [|p [|q rest] IH]; [reflexivity..|].
  change (S (List.length (append_to_last (q :: rest) c))
          = S (List.length (q :: rest))). now rewrite IH.
Qed.

Lemma append_to_last_trim (l : list string) (c : ascii) :
  Str.is_space c = true ->
  map Str.trim (append_to_last l c) = map Str.trim l.
Proof.
  intros Hc. induction l as [|p [|q rest] IH]; [reflexivity| |].
  - cbn. now rewrite trim_app_space.
  - change (Str.trim p :: map Str.trim (append_to_last (q :: rest) c)
            = Str.trim p :: map Str.trim (q :: rest)). now rewrite IH.
Qed.

Lemma append_to_last_cell (l : list string) (c : ascii) (i : nat) :
  Str.is_space c = true -> Dpt.cell (append_to_last l c) i = Dpt.cell l i.
Proof.
  intros Hc. unfold Dpt.cell.
  assert (E : option_map Str.trim (nth_error (append_to_last l c) i)
              = option_map Str.trim (nth_error l i)).
  { rewrite <- !nth_error_map. now rewrite append_to_last_trim. }
  destruct (nth_error (append_to_last l c) i), (nth_error l i);
    cbn in E; try discriminate E; [|reflexivity].
  inversion E as [E']. cbv zeta. now rewrite E'.
Qed.

Lemma fill_row_cells (values values' : list string) (cols : list string) :
  (forall i, Dpt.cell values i = Dpt.cell values' i) ->
  forall index r,
    Dpt.fill_row values cols index r = Dpt.fill_row values' cols index r.
Proof.
  intros H. induction cols as [|c cols IH]; intros index r; cbn; [reflexivity|].
  now rewrite H, IH.
Qed.

Lemma strip_prefix_length (sep s rest : string) :
  Str.strip_prefix sep s = Some rest ->
  (String.length sep <= String.length s)%nat.
Proof.
  revert s. induction sep as [|a sep IH]; intros s; cbn; [lia|].
  destruct s as [|b s]; [discriminate|].
  destruct (Ascii.eqb a b); [|discriminate]. intros H. apply IH in H. cbn. lia.
Qed.

(** A separator without the character [c] matches at the start of a text
    followed by [c] exactly when it matches at the start of the text. *)
Lemma strip_prefix_app_char (sep : string) (c : ascii) :
  occurrences c sep = O ->
  forall s,
    match Str.strip_prefix sep (s ++ String c EmptyString),
          Str.strip_prefix sep s with
    | Some _, Some _ | None, None => True
    | _, _ => False
    end.
Proof.
  intros Hc. induction sep as [|a sep IH]; intros s; [exact I|].
  cbn [occurrences] in Hc.
  destruct (Ascii.eqb a c) eqn:E; [discriminate Hc|]. cbn [Nat.add] in Hc.
  destruct s as [|b s]; cbn [append Str.strip_prefix].
  - now rewrite E.
  - destruct (Ascii.eqb a b); [now apply IH | exact I].
Qed.

Lemma split_skip_app_char (sep : string) (c : ascii) :
  Str.isEmpty sep = false -> occurrences c sep = O ->
  forall s skip,
    (skip <= String.length s)%nat ->
    Dpt.split_skip sep skip (s ++ String c EmptyString)
    = append_to_last (Dpt.split_skip sep skip s) c.
Proof.
  intros Hne Hc. induction s as [|b s IH]; intros skip Hk.
  - cbn in Hk. replace skip with O by lia. cbn [append Dpt.split_skip].
    pose proof (strip_prefix_app_char Hc EmptyString) as H. cbn [append] in H.
    destruct (Str.strip_prefix sep (String c EmptyString)) eqn:E1.
    + destruct sep; [discriminate Hne|]. cbn in H. now elim H.
    + reflexivity.
  - cbn [append Dpt.split_skip]. destruct skip as [|k].
    + pose proof (strip_prefix_app_char Hc (String b s)) as H.
      cbn [append] in H.
      destruct (Str.strip_prefix sep (String b (s ++ String c EmptyString)))
        eqn:E1, (Str.strip_prefix sep (String b s)) eqn:E2;
        try now elim H.
      * apply strip_prefix_length in E2. cbn [String.length] in E2.
        rewrite IH by lia.
        rewrite append_to_last_cons by apply split_skip_nonempty.
        reflexivity.
      * rewrite IH by lia.
        pose proof (@split_skip_nonempty sep s 0) as Hs.
        destruct (Dpt.split_skip sep 0 s) as [|p [|q ps]]; [now elim Hs|..];
          reflexivity.
    + apply IH. cbn in Hk. lia.
Qed.

(** A carriage return at the end of a line changes neither the row read
    from the line, nor its fields once trimmed, nor their number. *)
Lemma line_with_cr (delim line : string) :
  Str.isEmpty delim = false -> occurrences "013" delim = O ->
  (forall cols, Dpt.parse_line delim cols (line ++ String "013" EmptyString)
                = Dpt.parse_line delim cols line)
  /\ map Str.trim (Dpt.split delim (line ++ String "013" EmptyString))
     = map Str.trim (Dpt.split delim line)
  /\ List.length (Dpt.split delim (line ++ String "013" EmptyString))
     = List.length (Dpt.split delim line).
Proof.
  intros Hne Hc. unfold Dpt.parse_line, Dpt.split.
  rewrite (split_skip_app_char Hne Hc) by lia.
  split; [|split].
  - intros cols. apply fill_row_cells. intros i.
    now apply append_to_last_cell.
  - now apply append_to_last_trim.
  - apply append_to_last_length.
Qed.

(** The lines of a content in which a carriage return stands before every
    line feed: those of the content, each but the last with a carriage
    return at its end. *)
Lemma lines_with_cr (s : string) :
  exists line rest,
    Str.split "010" s = line :: rest
    /\ ((rest = [] /\ Str.split "010" (with_cr s) = [line])
        \/ (rest <> []
            /\ exists rest',
                 Str.split "010" (with_cr s)
                 = (line ++ String "013" EmptyString) :: rest'
                 /\ Forall2 (fun l' l => l' = l
                                         \/ l' = l ++ String "013" EmptyString)
                            rest' rest)).
Proof.
  induction s as [|c s (line & rest & E & IH)].
  - exists EmptyString, []. split; [reflexivity|]. now left.
  - cbn [Str.split with_cr]. destruct (Ascii.eqb c "010") eqn:Ec.
    + exists EmptyString, (line :: rest). split; [now rewrite E|].
      right. split; [discriminate|].
      cbn [Str.split]. change (Ascii.eqb "013" "010") with false.
      change (Ascii.eqb "010" "010") with true. cbv iota.
      exists (Str.split "010" (with_cr s)). split; [reflexivity|].
      destruct IH as [[-> E']|(Hne & rest' & E' & HF)]; rewrite E'.
      * constructor; [now left | constructor].
      * constructor; [now right | exact HF].
    + cbn [Str.split]. rewrite Ec, E. exists (String c line), rest.
      split; [reflexivity|].
      destruct IH as [[-> E']|(Hne & rest' & E' & HF)]; rewrite E'.
      * now left.
      * right. split; [exact Hne|]. exists rest'. now split.
Qed.

Lemma parse_lines_with_cr (delim : string) (cols : list string)
  (lines' lines : list string) :
  Str.isEmpty delim = false -> occurrences "013" delim = O ->
  Forall2 (fun l' l => l' = l \/ l' = l ++ String "013" EmptyString)
          lines' lines ->
  map (Dpt.parse_line delim cols) lines' = map (Dpt.parse_line delim cols) lines.
Proof.
  intros Hne Hc H. induction H as [|l' l ls' ls [->| ->] _ IH]; cbn;
    [reflexivity | now rewrite IH|].
  rewrite IH. f_equal. now apply (line_with_cr l Hne Hc).
Qed.

Lemma delimiter_of_nonempty (o : Dpt.options_t) :
  Str.isEmpty (Dpt.delimiter_of o) = false.
Proof.
  unfold Dpt.delimiter_of. destruct (Dpt.delimiter o) as [d|]; [|reflexivity].
  destruct (Str.isEmpty d) eqn:E; [reflexivity | exact E].
Qed.

Lemma parse_csv_with_cr (content : string) (o : Dpt.options_t) :
  occurrences "013" (Dpt.delimiter_of o) = O ->
  Dpt.parse_csv (with_cr content) o = Dpt.parse_csv content o.
Proof.
  intros Hc. pose proof (delimiter_of_nonempty o) as Hne.
  unfold Dpt.parse_csv. cbv zeta.
  rewrite !lines_length. cbn [Nat.ltb Nat.leb].
  destruct (lines_with_cr content) as (line & rest & E & H).
  rewrite E. cbn [hd tl].
  destruct H as [[-> E']|(Hr & rest' & E' & HF)]; rewrite E'; [reflexivity|].
  cbn [hd tl].
  destruct (line_with_cr line Hne Hc) as (H1 & H2 & H3).
  rewrite H2, H3.
  destruct (match Dpt.hasHeader o with Some true => true | _ => false end
            && true).
  - f_equal. now apply parse_lines_with_cr.
  - f_equal. cbn [map]. rewrite H1. f_equal. now apply parse_lines_with_cr.
Qed.

(** X27.  Line ends of two characters are read like line ends of one: when
    the delimiter holds no carriage return, the content with a carriage
    return before every line feed gives the same output as the content
    itself (rows, columns, row count and cleaned rows), with or without a
    header. *)
Theorem X27_carriage_returns_are_trimmed_away (e : engine)
  (json_branch : string -> string + (list (option Dpt.row) * list string))
  (content : string) (o : option Dpt.options_t) :
  occurrences "013"
    (Dpt.delimiter_of
       (match o with Some opts => opts | None => Dpt.no_options end)) = O ->
  Dpt.execute e json_branch (Dpt.mkInput (with_cr content) Dpt.csv o)
  = Dpt.execute e json_branch (Dpt.mkInput content Dpt.csv o).
Proof.
  intros Hc. unfold Dpt.execute, Dpt.execute_try.
  cbn [Dpt.fileType Dpt.fileContent Dpt.options].
  now rewrite (parse_csv_with_cr content Hc).
Qed.

Lemma lines_app_line_feed (s : string) :
  Str.split "010" (s ++ String "010" EmptyString)
  = (Str.split "010" s ++ [EmptyString])%list.
Proof.
  induction s as [|c s IH]; [reflexivity|]. cbn [append Str.split].
  rewrite IH. destruct (Ascii.eqb c "010"); [reflexivity|].
  pose proof (lines_length "010" s) as Hl.
  destruct (Str.split "010" s); [discriminate Hl | reflexivity].
Qed.

Lemma cell_of_empty_line (delim : string) (i : nat) :
  Dpt.cell (Dpt.split delim EmptyString) i = EmptyString.
Proof. destruct i as [|[|i]]; reflexivity. Qed.

Lemma fill_row_of_empty_line (delim : string) (cols : list string) :
  forall index (r : Dpt.row),
    Forall (fun kv => snd kv = VStr EmptyString) r ->
    Forall (fun kv => snd kv = VStr EmptyString)
           (Dpt.fill_row (Dpt.split delim EmptyString) cols index r).
Proof.
  induction cols as [|c cols IH]; intros index r H; cbn [Dpt.fill_row];
    [exact H|].
  apply IH.
  apply (assign_values (Q := fun v => v = VStr EmptyString)); [exact H|].
  now rewrite cell_of_empty_line.
Qed.

(** X28.  A line feed at the end of a content adds a row: the columns stay
    as they are, the rows read before stay as they are, and one more row
    follows, with the columns as its keys (a column [__proto__] apart) and
    the empty string under every one of them; cleaned, this row holds
    nothing but [null]. *)
Theorem X28_final_line_feed_adds_an_empty_row
  (content : string) (o : Dpt.options_t) :
  let before := Dpt.parse_csv content o in
  let after := Dpt.parse_csv (content ++ String "010" EmptyString) o in
  snd after = snd before
  /\ exists last,
       fst after = (fst before ++ [last])%list
       /\ (forall c, In c (Object_keys last)
                      <-> In c (snd before) /\ c <> "__proto__")
       /\ Forall (fun kv => snd kv = VStr EmptyString) last
       /\ Dpt.cleanData (fst after)
          = (Dpt.cleanData (fst before)
             ++ [map (fun kv => (fst kv, VNull)) last])%list.
Proof.
  cbv zeta.
  assert (H : exists cols lines,
             Dpt.parse_csv content o
             = (map (Dpt.parse_line (Dpt.delimiter_of o) cols) lines, cols)
             /\ Dpt.parse_csv (content ++ String "010" EmptyString) o
                = (map (Dpt.parse_line (Dpt.delimiter_of o) cols)
                       (lines ++ [EmptyString])%list, cols)).
  { unfold Dpt.parse_csv. cbv zeta. rewrite lines_app_line_feed.
    pose proof (lines_length "010" content) as Hl.
    destruct (Str.split "010" content) as [|line rest]; [discriminate Hl|].
    cbn [app hd tl List.length Nat.ltb Nat.leb].
    destruct (match Dpt.hasHeader o with Some true => true | _ => false end
              && true); eexists; eexists; split; reflexivity. }
  destruct H as (cols & lines & -> & ->). cbn [fst snd].
  split; [reflexivity|].
  exists (Dpt.parse_line (Dpt.delimiter_of o) cols EmptyString).
  destruct (parse_line_row (Dpt.delimiter_of o) cols EmptyString)
    as (Hd & Hk & _).
  assert (He : Forall (fun kv => snd kv = VStr EmptyString)
                      (Dpt.parse_line (Dpt.delimiter_of o) cols EmptyString)).
  { unfold Dpt.parse_line. apply fill_row_of_empty_line. constructor. }
  split; [now rewrite map_app|]. split; [exact Hk|]. split; [exact He|].
  unfold Dpt.cleanData. rewrite !map_app. cbn [map]. f_equal. f_equal.
  rewrite clean_parsed_row. apply map_ext_in. intros [k v] Hin.
  rewrite Forall_forall in He. specialize (He _ Hin). cbn [fst snd] in *.
  now subst v.
Qed.

End LineEnds.

Section LineEndsExamples.

Import Js Props Shapes.
Local Open Scope string_scope.
Local Open Scope list_scope.

Lemma X27_carriage_return_witness :
  let json_branch : string -> string + (list (option Dpt.row) * list string) :=
    fun _ => inl "Failed to parse JSON" in
  let content := String "a" (String "," (String "b" (String "010" "1,2"))) in
  occurrences "013" (Dpt.delimiter_of Dpt.no_options) = O
  /\ Dpt.execute small_engine json_branch (Dpt.mkInput (with_cr content) Dpt.csv None)
     = Dpt.execute small_engine json_branch (Dpt.mkInput content Dpt.csv None).
Proof.
  cbv zeta.
  assert (H : occurrences "013" (Dpt.delimiter_of Dpt.no_options) = O)
    by reflexivity.
  split; [exact H|].
  exact (@X27_carriage_returns_are_trimmed_away small_engine
           (fun _ => inl "Failed to parse JSON")
           (String "a" (String "," (String "b" (String "010" "1,2"))))
           None H).
Defined.

End LineEndsExamples.

(* ================================================================== *)
(** ** What a CSV table holds                                           *)
(* ================================================================== *)

Section CsvTable.

Import Number Js Props Shapes.
Local Open Scope string_scope.
Local Open Scope list_scope.

Lemma get_assign (o : object) (k c : string) (v : value) :
  c <> "__proto__" ->
  get (Dpt.assign o k v) c = if String.eqb k c then v else get o c.
Proof.
  intros Hc. unfold Dpt.assign. destruct (String.eqb k "__proto__") eqn:E.
  - apply String.eqb_eq in E. subst k.
    destruct (String.eqb "__proto__" c) eqn:E'; [|reflexivity].
    apply String.eqb_eq in E'. congruence.
  - apply get_set.
Qed.

Lemma fill_row_get (values : list string) (cols : list string) (c : string) :
  c <> "__proto__" ->
  forall index (r : Dpt.row),
    get (Dpt.fill_row values cols index r) c
    = match last_index_of c cols with
      | Some i => VStr (Dpt.cell values (index + i))
      | None => get r c
      end.
Proof.
  intros Hc. induction cols as [|a cols IH]; intros index r; [reflexivity|].
  cbn [Dpt.fill_row last_index_of]. rewrite IH, get_assign by exact Hc.
  destruct (last_index_of c cols) as [i|].
  - now rewrite Nat.add_succ_r.
  - destruct (String.eqb a c); [now rewrite Nat.add_0_r | reflexivity].
Qed.

Lemma last_index_of_In (c : string) (cols : list string) :
  In c cols <-> exists i, last_index_of c cols = Some i.
Proof.
  induction cols as [|a l IH]; cbn [last_index_of In].
  - split; [intros [] | intros [i H]; discriminate H].
  - destruct (last_index_of c l) as [i|].
    + split; [intros _; now exists (S i) | intros _; right; apply IH; now exists i].
    + destruct (String.eqb a c) eqn:E.
      * apply String.eqb_eq in E. split; [intros _; now exists O | now left].
      * apply String.eqb_neq in E. split.
        -- intros [H|H]; [contradiction | now apply IH in H].
        -- intros [i H]. discriminate H.
Qed.

(** X29.  A column name that occurs more than once in the header is one key
    of a row, and the field of its last occurrence is the one kept: under
    every key a row holds the trimmed field whose rank is the last rank of
    the key among the columns.  A row has at most as many keys as there are
    columns, and exactly as many when and only when no column name is
    repeated and none is [__proto__]. *)
Theorem X29_last_field_wins_under_a_repeated_name
  (delim : string) (cols : list string) (line : string) :
  let r := Dpt.parse_line delim cols line in
  (forall c, In c (Object_keys r) ->
     exists i, last_index_of c cols = Some i
               /\ get r c = VStr (Dpt.cell (Dpt.split delim line) i))
  /\ (List.length (Object_keys r) <= List.length cols)%nat
  /\ (List.length (Object_keys r) = List.length cols
      <-> NoDup cols /\ ~ In "__proto__" cols).
Proof.
  cbv zeta.
  destruct (parse_line_row delim cols line) as (Hd & Hk & _).
  split; [|split].
  - intros c Hc. apply Hk in Hc. destruct Hc as [Hin Hp].
    apply last_index_of_In in Hin. destruct Hin as [i Hi]. exists i.
    split; [exact Hi|]. unfold Dpt.parse_line.
    now rewrite (fill_row_get _ _ Hp), Hi.
  - apply NoDup_incl_length; [exact Hd|]. intros c Hc. now apply Hk.
  - split.
    + intros E.
      assert (Hincl : incl cols (Object_keys (Dpt.parse_line delim cols line))).
      { apply NoDup_length_incl; [exact Hd | lia |].
        intros c Hc. now apply Hk. }
      split.
      * apply (NoDup_incl_NoDup Hd); [lia|]. intros c Hc. now apply Hk.
      * intros Hp. apply Hincl, Hk in Hp. tauto.
    + intros [Hn Hp]. rewrite (parse_line_NoDup delim line Hn Hp).
      unfold Object_keys. rewrite !length_map, length_combine, length_seq.
      lia.
Qed.

Lemma filter_nothing (A : Type) (f : A -> bool) (l : list A) :
  (forall a, In a l -> f a = false) -> filter f l = [].
Proof.
  induction l as [|a l IH]; intros H; cbn; [reflexivity|].
  rewrite (H a (or_introl eq_refl)). apply IH. intros b Hb. apply H. now right.
Qed.

Lemma existsb_nothing (A : Type) (f : A -> bool) (l : list A) :
  (forall a, In a l -> f a = false) -> existsb f l = false.
Proof.
  induction l as [|a l IH]; intros H; cbn; [reflexivity|].
  rewrite (H a (or_introl eq_refl)). apply IH. intros b Hb. apply H. now right.
Qed.

(** A table in which no cell is a number has no numeric column. *)
Lemma table_without_numbers (table : list Sql.row) :
  (forall r c, In r table -> is_valid_number (get r c) = false) ->
  Sql.getNumericColumns table = []
  /\ forall c, existsb is_valid_number (map (fun r => get r c) table) = false.
Proof.
  intros H. split.
  - unfold Sql.getNumericColumns. destruct table as [|first rest]; [reflexivity|].
    apply filter_nothing. intros c _. cbv zeta. apply existsb_nothing.
    intros v Hv. unfold Sql.column_values in Hv. apply in_map_iff in Hv.
    destruct Hv as (r & <- & Hr). apply H. now apply firstn_incl in Hr.
  - intros c. apply existsb_nothing. intros v Hv. apply in_map_iff in Hv.
    destruct Hv as (r & <- & Hr). now apply H.
Qed.

Lemma string_cells_are_no_numbers (r : Dpt.row) :
  Forall (fun kv => exists s, snd kv = VStr s /\ trimmed s) r ->
  forall c, is_valid_number (get r c) = false
            /\ is_valid_number (cleaned_value (get r c)) = false.
Proof.
  intros H c. destruct (in_dec string_dec c (Object_keys r)) as [Hin|Hout].
  - apply get_In in Hin. rewrite Forall_forall in H.
    destruct (H _ Hin) as (s & E & _). cbn [snd] in E. rewrite E.
    cbn [cleaned_value]. split; [reflexivity|].
    now destruct (Str.isEmpty (Str.trim s)).
  - rewrite (get_absent Hout). now split.
Qed.

Variable e : engine.
Variable json_branch :
  string -> string + (list (option Dpt.row) * list string).

(** X30.  A table read from a CSV content holds strings only, and the
    cleaned table strings and [null]: given to the query tool, either has
    no numeric column, so that an AGGREGATE query returns one row without a
    single field, also when every cell is a numeral; and the advice for a
    scatter plot of either always asks for numeric data. *)
Theorem X30_a_csv_table_has_no_numeric_column
  (content : string) (o : option Dpt.options_t) :
  let out := Dpt.execute e json_branch (Dpt.mkInput content Dpt.csv o) in
  exists rows cleaned,
    Dpt.data out = Some rows
    /\ Dpt.cleanedData out = Some cleaned
    /\ forall table,
         table = rows \/ table = cleaned ->
         Sql.getNumericColumns table = []
         /\ (forall query columns,
               Sql.executeAggregateQuery query table columns
               = Sql.mkResult [[]] Sql.AGGREGATE)
         /\ (forall columns xAxis yAxis,
               In "Scatter plots work best with numeric data on both axes"
                  (Viz.generateRecommendations table columns "scatter"
                     xAxis yAxis)).
Proof.
  cbv zeta. unfold Dpt.execute, Dpt.execute_try.
  cbn [Dpt.fileType Dpt.fileContent Dpt.options].
  set (opts := match o with Some opts => opts | None => Dpt.no_options end).
  assert (Hrows : exists cols lines,
             Dpt.parse_csv content opts
             = (map (Dpt.parse_line (Dpt.delimiter_of opts) cols) lines, cols)).
  { unfold Dpt.parse_csv. cbv zeta.
    destruct (_ && _); eexists; eexists; reflexivity. }
  destruct Hrows as (cols & lines & ->).
  cbn [Dpt.data Dpt.cleanedData].
  eexists. eexists. split; [reflexivity|]. split; [reflexivity|].
  assert (Hno : forall table,
            table = map (Dpt.parse_line (Dpt.delimiter_of opts) cols) lines
            \/ table = Dpt.cleanData
                         (map (Dpt.parse_line (Dpt.delimiter_of opts) cols) lines) ->
            forall r c, In r table -> is_valid_number (get r c) = false).
  { intros table [-> | ->] r c Hr.
    - apply in_map_iff in Hr. destruct Hr as (line & <- & _).
      destruct (parse_line_row (Dpt.delimiter_of opts) cols line) as (_ & _ & Hv).
      now apply string_cells_are_no_numbers.
    - unfold Dpt.cleanData in Hr. rewrite map_map in Hr.
      apply in_map_iff in Hr. destruct Hr as (line & <- & _).
      destruct (parse_line_row (Dpt.delimiter_of opts) cols line) as (_ & _ & Hv).
      rewrite clean_parsed_row, get_map_values by reflexivity.
      now apply string_cells_are_no_numbers. }
  intros table Ht. destruct (table_without_numbers (Hno table Ht)) as [Hn He].
  split; [exact Hn|]. split.
  - intros query columns. unfold Sql.executeAggregateQuery. cbv zeta.
    now rewrite Hn.
  - intros columns xAxis yAxis. unfold Viz.generateRecommendations. cbv zeta.
    rewrite !He.
    change (String.eqb "scatter" "bar") with false.
    change (String.eqb "scatter" "line") with false.
    change (String.eqb "scatter" "scatter") with true.
    cbn [andb orb negb app]. now left.
Qed.

End CsvTable.
